(** * Voice-cloning studio: profile store, style segmenter, multi-style synthesis

    A shallow embedding of the three pieces of logic of the repository

      - [voice_profile_manager.py]: class [VoiceProfileManager]
        (the file-backed profile store),
      - [app.py]: [VoiceCloner._parse_style_segments] (the style segmenter),
      - [app.py]: [VoiceCloner.generate_multi_style_speech] (the synthesis
        facade over the external text-to-speech engine),

    followed by the properties of the specification that concern them.

    Modelling conventions.
      - A Python [str] is a Rocq [string], one [ascii] per code point (code
        points below 256).
      - A Python [dict] is an insertion-ordered association list ([PyDict]).
      - A raised exception is the [Raise] case of [result].
      - The disk is a set of directories and a finite map from path strings
        to file contents; reading a missing file raises.  The store is given
        twice: [Store] has the calls as they run when every directory can
        be made and every file written; [Disk] has the same calls with the
        failures of the file system, and every call of [Disk] either runs
        as in [Store] or raises.
      - A path is a string, and [Path(a) / b] is [a], a slash and [b]; this
        is what [pathlib] computes for a clean [a] and a name [b] of one
        component, which the statements that name a path assume.
      - A profile dictionary of [Store] has its samples and styles, as
        every dictionary that the manager builds; the dictionaries that
        [json.load] can return, with or without them, are in [Raw].
      - [time.strftime] reads the wall clock; every reading is an explicit
        [struct_time] argument of the operation that performs it.
      - The text-to-speech engine is a parameter; the facade returns, with
        its result, the list of the calls it made to the engine. *)

From Stdlib Require Import Ascii String List Arith Lia.
From stdpp Require Import gmap strings list.

Open Scope string_scope.

(* ===================================================================== *)
(** * Part I: the program                                                 *)
(* ===================================================================== *)

(** ** Python values: exceptions, strings, dictionaries *)

(** An exception: [KeyError] with its key, [RuntimeError] with its message,
    or one of another class (an [OSError], [ValueError], [TypeError], ...)
    with the name of the class and its message. *)
Inductive exn : Type :=
  | KeyError (key : string)
  | RuntimeError (msg : string)
  | Error (class msg : string).

Inductive result (A : Type) : Type :=
  | Ok (a : A)
  | Raise (e : exn).
Arguments Ok {A} a.
Arguments Raise {A} e.

(** Sequencing: an exception raised by [r] propagates.  stdpp's notation
    [x ← r; k] is used for it. *)
#[global] Instance result_ret : MRet result := fun _ a => Ok a.
#[global] Instance result_bind : MBind result := fun _ _ k r =>
  match r with
  | Ok a => k a
  | Raise e => Raise e
  end.

Module PyStr.

(** [str.isspace] on one character: the Unicode white space below 256,
    that is TAB..CR, FS..US, SPACE, NEL and NBSP. *)
Definition isspace (c : ascii) : bool :=
  let n := nat_of_ascii c in
  ((9 <=? n) && (n <=? 13) || (28 <=? n) && (n <=? 32)
   || (n =? 133) || (n =? 160))%nat.

(** Truth value of a string: [bool(s)]. *)
Definition truthy (s : string) : bool :=
  match s with
  | "" => false
  | String _ _ => true
  end.

Fixpoint lstrip (s : string) : string :=
  match s with
  | "" => ""
  | String c s' => if isspace c then lstrip s' else s
  end.

Fixpoint rstrip (s : string) : string :=
  match s with
  | "" => ""
  | String c s' =>
      match rstrip s' with
      | "" => if isspace c then "" else String c ""
      | r => String c r
      end
  end.

(** [s.strip()] *)
Definition strip (s : string) : string := rstrip (lstrip s).

(** [s.replace(old, new)] for one-character [old] and [new]. *)
Fixpoint replace (old new : ascii) (s : string) : string :=
  match s with
  | "" => ""
  | String c s' =>
      String (if Ascii.eqb c old then new else c) (replace old new s')
  end.

(** [s.rfind]-style helpers for [os.path.splitext]. *)
Fixpoint basename (p : string) : string :=
  match p with
  | "" => ""
  | String c p' =>
      if existsb (Ascii.eqb "/") (list_ascii_of_string p') then basename p'
      else if Ascii.eqb c "/" then p' else p
  end.

Fixpoint drop_dots (s : string) : string :=
  match s with
  | String "." s' => drop_dots s'
  | _ => s
  end.

Fixpoint from_last_dot (s : string) : option string :=
  match s with
  | "" => None
  | String c s' =>
      match from_last_dot s' with
      | Some e => Some e
      | None => if Ascii.eqb c "." then Some s else None
      end
  end.

(** [os.path.splitext(p)[1]]: the extension of the last path component,
    leading dots of the component not counting. *)
Definition splitext_ext (p : string) : string :=
  default "" (from_last_dot (drop_dots (basename p))).

End PyStr.

(** An insertion-ordered dictionary with string keys.  [dict_set] keeps the
    position of a key that is already present and appends a new one, as
    Python's [d[k] = v] does. *)
Module PyDict.

Abbreviation dict V := (list (string * V)).

(** [d.get(k)] *)
Fixpoint dict_get {V} (k : string) (d : dict V) : option V :=
  match d with
  | [] => None
  | (k', v) :: d' => if decide (k' = k) then Some v else dict_get k d'
  end.

(** [k in d] *)
Definition dict_mem {V} (k : string) (d : dict V) : bool :=
  match dict_get k d with
  | Some _ => true
  | None => false
  end.

(** [d[k]] *)
Definition dict_index {V} (k : string) (d : dict V) : result V :=
  match dict_get k d with
  | Some v => Ok v
  | None => Raise (KeyError k)
  end.

(** [d[k] = v] *)
Fixpoint dict_set {V} (k : string) (v : V) (d : dict V) : dict V :=
  match d with
  | [] => [(k, v)]
  | (k', v') :: d' =>
      if decide (k' = k) then (k', v) :: d' else (k', v') :: dict_set k v d'
  end.

(** [list(d.keys())] *)
Definition dict_keys {V} (d : dict V) : list string := map fst d.

(** [bool(d)] *)
Definition dict_truthy {V} (d : dict V) : bool :=
  match d with
  | [] => false
  | _ :: _ => true
  end.

(** The entries stored under [k]. *)
Definition dict_entries {V} (k : string) (d : dict V) : list (string * V) :=
  filter (fun kv => kv.1 = k) d.

(** A Python dictionary holds a key once. *)
Definition dict_wf {V} (d : dict V) : Prop := NoDup (dict_keys d).

End PyDict.

(** ** The style segmenter: [VoiceCloner._parse_style_segments] *)

Module Segmenter.
Import PyStr.

(** The look-ahead [(?=\{|$)].  Without [re.MULTILINE], [$] holds at the
    end of the string and before a newline that ends the string. *)
Definition lookahead (s : string) : bool :=
  match s with
  | "" => true
  | String c "" => Ascii.eqb c "{" || Ascii.eqb c "010"
  | String c _ => Ascii.eqb c "{"
  end.

(** [(.*?)(?=\{|$)] with [re.DOTALL]: the lazy group takes no character if
    the look-ahead holds here, otherwise one more (any) character. *)
Fixpoint lazy_content (s : string) : option (string * string) :=
  if lookahead s then Some ("", s)
  else match s with
       | "" => None
       | String c s' =>
           match lazy_content s' with
           | Some (content, rest) => Some (String c content, rest)
           | None => None
           end
       end.

(** [(.*?)\}(.*?)(?=\{|$)]: the first lazy group takes no character if
    a [}] and the rest of the pattern match here, otherwise it backtracks
    and takes one more character. *)
Fixpoint lazy_style (s : string) : option (string * string * string) :=
  match s with
  | "" => None
  | String c s' =>
      match (if Ascii.eqb c "}" then lazy_content s' else None) with
      | Some (content, rest) => Some ("", content, rest)
      | None =>
          match lazy_style s' with
          | Some (style, content, rest) => Some (String c style, content, rest)
          | None => None
          end
      end
  end.

(** The pattern [\{(.*?)\}(.*?)(?=\{|$)] anchored at the start of [s]:
    the two groups and the text after the match. *)
Definition match_here (s : string) : option (string * string * string) :=
  match s with
  | String "{" s' => lazy_style s'
  | _ => None
  end.

(** [re.findall]: leftmost matches, scanned left to right; a match is
    followed by the search at its end, a failure by the next position.
    Every match of this pattern has at least two characters. *)
Fixpoint findall_fuel (fuel : nat) (s : string) : list (string * string) :=
  match fuel with
  | 0 => []
  | S fuel' =>
      match match_here s with
      | Some (style, content, rest) => (style, content) :: findall_fuel fuel' rest
      | None =>
          match s with
          | "" => []
          | String _ s' => findall_fuel fuel' s'
          end
      end
  end.

Definition findall (s : string) : list (string * string) :=
  findall_fuel (S (String.length s)) s.

(** One turn of the [for style, content in matches] loop. *)
Definition keep_segment (segments : list (string * string))
    (m : string * string) : list (string * string) :=
  let '(style, content) := m in
  let style := strip style in
  let content := strip content in
  if truthy content then segments ++ [(style, content)] else segments.

Definition parse_style_segments (text : string) : list (string * string) :=
  let matches := findall (text +:+ "{") in
  let segments := fold_left keep_segment matches [] in
  if bool_decide (segments = []) && truthy (strip text)
  then segments ++ [("default", strip text)]
  else segments.

End Segmenter.

(** ** The wall clock: [time.strftime] *)

Module Clock.

Record struct_time : Type := mk_time {
  tm_year : nat; tm_mon : nat; tm_mday : nat;
  tm_hour : nat; tm_min : nat; tm_sec : nat }.

Definition digit (n : nat) : ascii := ascii_of_nat (48 + n mod 10).

(** [%m], [%d], [%H], [%M], [%S]: two digits, zero padded. *)
Definition pad2 (n : nat) : string :=
  String (digit (n / 10)) (String (digit n) "").

(** [%Y]: four digits. *)
Definition pad4 (n : nat) : string :=
  String (digit (n / 1000)) (String (digit (n / 100)) (pad2 n)).

(** [time.strftime("%Y-%m-%d %H:%M:%S")] *)
Definition strftime_iso (t : struct_time) : string :=
  pad4 (tm_year t) +:+ "-" +:+ pad2 (tm_mon t) +:+ "-" +:+ pad2 (tm_mday t)
  +:+ " " +:+ pad2 (tm_hour t) +:+ ":" +:+ pad2 (tm_min t)
  +:+ ":" +:+ pad2 (tm_sec t).

(** [time.strftime('%Y%m%d_%H%M%S')] *)
Definition strftime_compact (t : struct_time) : string :=
  pad4 (tm_year t) +:+ pad2 (tm_mon t) +:+ pad2 (tm_mday t)
  +:+ "_" +:+ pad2 (tm_hour t) +:+ pad2 (tm_min t) +:+ pad2 (tm_sec t).

(** A clock reading with a four-digit year and two-digit fields. *)
Definition in_range (t : struct_time) : Prop :=
  tm_year t < 100 * 100 /\ tm_mon t < 100 /\ tm_mday t < 100
  /\ tm_hour t < 100 /\ tm_min t < 100 /\ tm_sec t < 100.

End Clock.

(** ** The profile store: class [VoiceProfileManager] *)

Module Store.
Import PyStr PyDict Clock.

(** Audio samples are an opaque payload here: they are read, written and
    concatenated, never computed on. *)
Definition waveform : Type := list Z.

(** The values of the manifest's ["samples"], ["styles"] and ["outputs"]
    dictionaries. *)
Record Sample : Type := mk_sample {
  sample_path : string;
  sample_transcription : string;
  sample_added_at : string }.

Record Style : Type := mk_style {
  style_sample : string;
  style_added_at : string }.

Record Output : Type := mk_output {
  output_path : string;
  output_text : string;
  output_style : string;
  output_created_at : string }.

(** A profile dictionary as the manager builds it, with its samples and
    styles.  The key ["outputs"] is absent ([None]) until the first output
    is saved.  [Raw] has the dictionaries that a manifest on disk may
    hold. *)
Record Profile : Type := mk_profile {
  name : string;
  description : string;
  created_at : string;
  samples : dict Sample;
  styles : dict Style;
  outputs : option (dict Output) }.

Definition with_samples (d : dict Sample) (p : Profile) : Profile :=
  mk_profile (name p) (description p) (created_at p) d (styles p) (outputs p).

Definition with_styles (d : dict Style) (p : Profile) : Profile :=
  mk_profile (name p) (description p) (created_at p) (samples p) d (outputs p).

Definition with_outputs (d : dict Output) (p : Profile) : Profile :=
  mk_profile (name p) (description p) (created_at p) (samples p) (styles p)
    (Some d).

(** What a file holds: a manifest written by [json.dump] (the profile
    dictionary it serialises), or audio. *)
Inductive file : Type :=
  | Manifest (p : Profile)
  | Wav (audio : waveform) (sr : Z).

(** The manager object ([profiles_dir], [current_profile], [profiles])
    together with the disk it writes to ([dirs], [files]). *)
Record world : Type := mk_world {
  profiles_dir : string;
  current_profile : option string;
  profiles : dict Profile;
  dirs : gset string;
  files : gmap string file }.

(** [str(Path(a) / b)] for a path [a] that [Path] leaves as it is and a
    name [b] of one component ([Conditions.clean_path],
    [Terms.simple_name]); [pathlib] normalises the others. *)
Definition joinpath (a b : string) : string := a +:+ "/" +:+ b.
Infix "</>" := joinpath (at level 40, left associativity).

(** Statements that act on the world and may raise. *)
Definition io (A : Type) : Type := world -> result A * world.

#[global] Instance io_ret : MRet io := fun _ a w => (Ok a, w).
#[global] Instance io_bind : MBind io := fun _ _ k m w =>
  match m w with
  | (Ok a, w') => k a w'
  | (Raise e, w') => (Raise e, w')
  end.

Definition lift {A} (r : result A) : io A := fun w => (r, w).
Definition read {A} (f : world -> A) : io A := fun w => (Ok (f w), w).

(** [p.mkdir(exist_ok=True)] where it goes through; [Disk.mkdir] has the
    failures. *)
Definition mkdir (p : string) : io unit := fun w =>
  (Ok tt, mk_world (profiles_dir w) (current_profile w) (profiles w)
            ({[ p ]} ∪ dirs w) (files w)).

(** A write to [p] where it goes through; [Disk.write_file] has the
    failures. *)
Definition write_file (p : string) (f : file) : io unit := fun w =>
  (Ok tt, mk_world (profiles_dir w) (current_profile w) (profiles w)
            (dirs w) (<[ p := f ]> (files w))).

(** [json.dump(data, open(p, "w"))] *)
Definition json_dump (data : Profile) (p : string) : io unit :=
  write_file p (Manifest data).

(** [torchaudio.load(p)] *)
Definition torchaudio_load (p : string) : io (waveform * Z) := fun w =>
  match files w !! p with
  | Some (Wav audio sr) => (Ok (audio, sr), w)
  | _ => (Raise (RuntimeError ("Failed to open the input " +:+ p)), w)
  end.

(** [torchaudio.save(p, audio, sr)] and [sf.write(p, audio, sr)] *)
Definition torchaudio_save (p : string) (audio : waveform) (sr : Z) : io unit :=
  write_file p (Wav audio sr).
Definition sf_write (p : string) (audio : waveform) (sr : Z) : io unit :=
  write_file p (Wav audio sr).

(** [self.profiles[k] = v], also the write-back of a profile dictionary
    that was updated in place. *)
Definition set_profile (k : string) (v : Profile) : io unit := fun w =>
  (Ok tt, mk_world (profiles_dir w) (current_profile w)
            (dict_set k v (profiles w)) (dirs w) (files w)).

Definition set_current_profile (k : string) : io unit := fun w =>
  (Ok tt, mk_world (profiles_dir w) (Some k) (profiles w) (dirs w) (files w)).

(** [self.profiles[k]] *)
Definition profile_at (k : string) : io Profile := fun w =>
  (dict_index k (profiles w), w).

(** [p["outputs"]] *)
Definition outputs_of (p : Profile) : io (dict Output) :=
  lift (match outputs p with
        | Some d => Ok d
        | None => Raise (KeyError "outputs")
        end).

Definition create_profile (now : struct_time) (name description : string)
    : io string :=
  ps ← read profiles;
  if dict_mem name ps
  then mret ("Profile '" +:+ name +:+ "' already exists.")
  else
    root ← read profiles_dir;
    let profile_dir := root </> name in
    mkdir profile_dir;;
    mkdir (profile_dir </> "samples");;
    mkdir (profile_dir </> "outputs");;
    let profile_data :=
      mk_profile name description (strftime_iso now) [] [] None in
    json_dump profile_data (profile_dir </> "profile.json");;
    set_profile name profile_data;;
    set_current_profile name;;
    mret ("Profile '" +:+ name +:+ "' created successfully.").

Definition add_sample (now : struct_time)
    (profile_name sample_name audio_path transcription : string) : io string :=
  ps ← read profiles;
  if negb (dict_mem profile_name ps)
  then mret ("Profile '" +:+ profile_name +:+ "' does not exist.")
  else
    root ← read profiles_dir;
    let profile_dir := root </> profile_name in
    let samples_dir := profile_dir </> "samples" in
    let ext := splitext_ext audio_path in
    let sample_filename := replace " " "_" sample_name +:+ ext in
    let sample_path := samples_dir </> sample_filename in
    '(audio, sr) ← torchaudio_load audio_path;
    torchaudio_save sample_path audio sr;;
    p ← profile_at profile_name;
    let entry := mk_sample sample_path transcription (strftime_iso now) in
    set_profile profile_name (with_samples (dict_set sample_name entry (samples p)) p);;
    p ← profile_at profile_name;
    json_dump p (profile_dir </> "profile.json");;
    mret ("Sample '" +:+ sample_name +:+ "' added to profile '"
          +:+ profile_name +:+ "'.").

Definition add_style (now : struct_time)
    (profile_name style_name sample_name : string) : io string :=
  ps ← read profiles;
  if negb (dict_mem profile_name ps)
  then mret ("Profile '" +:+ profile_name +:+ "' does not exist.")
  else
    p ← profile_at profile_name;
    if negb (dict_mem sample_name (samples p))
    then mret ("Sample '" +:+ sample_name +:+ "' does not exist in profile '"
               +:+ profile_name +:+ "'.")
    else
      root ← read profiles_dir;
      let profile_dir := root </> profile_name in
      p ← profile_at profile_name;
      let entry := mk_style sample_name (strftime_iso now) in
      set_profile profile_name (with_styles (dict_set style_name entry (styles p)) p);;
      p ← profile_at profile_name;
      json_dump p (profile_dir </> "profile.json");;
      mret ("Style '" +:+ style_name +:+ "' added to profile '"
            +:+ profile_name +:+ "'.").

(** The file name of a saved output. *)
Definition output_filename (output_name : string) (now : struct_time) : string :=
  replace " " "_" output_name +:+ "_" +:+ strftime_compact now +:+ ".wav".

(** [save_output] reads the clock twice: [now] for the file name and
    [now'] for the ["created_at"] field. *)
Definition save_output (now now' : struct_time)
    (profile_name output_name : string) (audio_data : waveform) (sr : Z)
    (text style : string) : io string :=
  ps ← read profiles;
  if negb (dict_mem profile_name ps)
  then mret ("Profile '" +:+ profile_name +:+ "' does not exist.")
  else
    root ← read profiles_dir;
    let profile_dir := root </> profile_name in
    let outputs_dir := profile_dir </> "outputs" in
    let output_path := outputs_dir </> output_filename output_name now in
    sf_write output_path audio_data sr;;
    p ← profile_at profile_name;
    (match outputs p with
     | None => set_profile profile_name (with_outputs [] p)
     | Some _ => mret tt
     end);;
    p ← profile_at profile_name;
    outs ← outputs_of p;
    let entry := mk_output output_path text style (strftime_iso now') in
    set_profile profile_name (with_outputs (dict_set output_name entry outs) p);;
    p ← profile_at profile_name;
    json_dump p (profile_dir </> "profile.json");;
    mret output_path.

(** The look-ups.  [a and b] evaluates [b] only if [a] holds. *)
Definition get_sample_path (w : world) (profile_name sample_name : string)
    : result (option string) :=
  found ← (if dict_mem profile_name (profiles w)
           then p ← dict_index profile_name (profiles w);
                mret (dict_mem sample_name (samples p))
           else mret false);
  if found : bool
  then p ← dict_index profile_name (profiles w);
       s ← dict_index sample_name (samples p);
       mret (Some (sample_path s))
  else mret None.

Definition get_transcription (w : world) (profile_name sample_name : string)
    : result string :=
  found ← (if dict_mem profile_name (profiles w)
           then p ← dict_index profile_name (profiles w);
                mret (dict_mem sample_name (samples p))
           else mret false);
  if found : bool
  then p ← dict_index profile_name (profiles w);
       s ← dict_index sample_name (samples p);
       mret (sample_transcription s)
  else mret "".

Definition get_style_sample (w : world) (profile_name style_name : string)
    : result (option string) :=
  found ← (if dict_mem profile_name (profiles w)
           then p ← dict_index profile_name (profiles w);
                mret (dict_mem style_name (styles p))
           else mret false);
  if found : bool
  then p ← dict_index profile_name (profiles w);
       s ← dict_index style_name (styles p);
       mret (Some (style_sample s))
  else mret None.

Definition list_profiles (w : world) : result (list string) :=
  mret (dict_keys (profiles w)).

Definition list_samples (w : world) (profile_name : string)
    : result (list string) :=
  if dict_mem profile_name (profiles w)
  then p ← dict_index profile_name (profiles w);
       mret (dict_keys (samples p))
  else mret [].

Definition list_styles (w : world) (profile_name : string)
    : result (list string) :=
  if dict_mem profile_name (profiles w)
  then p ← dict_index profile_name (profiles w);
       mret (dict_keys (styles p))
  else mret [].

End Store.

(** ** The synthesis facade: [VoiceCloner.generate_multi_style_speech] *)

Module Synthesis.
Import PyStr PyDict Segmenter Store.

(** One call of the engine: [infer_process(ref_audio, ref_text, text, ...)]. *)
Definition call : Type := (string * string * string)%type.

(** A numpy array as far as its shape goes: one-dimensional, or the
    zero-dimensional array that [squeeze] makes of a single frame. *)
Inductive ndarray : Type :=
  | Array1 (frames : waveform)
  | Array0 (frame : Z).

(** [tensor.squeeze().cpu().numpy()] on the tensor of shape [(1, n)] that
    [torchaudio.load] reads from a mono file: every axis of length one is
    dropped, so a file of one frame gives a zero-dimensional array. *)
Definition squeeze (frames : waveform) : ndarray :=
  match frames with
  | [x] => Array0 x
  | _ => Array1 frames
  end.

Definition frames_of (a : ndarray) : result waveform :=
  match a with
  | Array1 frames => Ok frames
  | Array0 _ =>
      Raise (Error "ValueError" "zero-dimensional arrays cannot be concatenated")
  end.

(** [np.concatenate(arrays)] *)
Definition np_concatenate (arrays : list ndarray) : result waveform :=
  match arrays with
  | [] => Raise (Error "ValueError" "need at least one array to concatenate")
  | _ :: _ => waves ← mapM frames_of arrays; mret (concat waves)
  end.

(** The variables of the loop, and the calls made to the engine so far. *)
Record loop_state : Type := mk_loop {
  generated_segments : list ndarray;
  sample_rate : option Z;
  engine_calls : list call }.

Section Engine.

(** The external collaborators, each of which may raise: reference
    preprocessing; the synthesis engine, which answers with a
    one-dimensional wave and a sample rate (the spectrogram is dropped);
    and the silence filter as the code applies it, where the wave is
    written to a temporary file at the sample rate, the filter rewrites the
    file and [torchaudio.load] reads it back: the frames of the one channel
    read back. *)
Variable preprocess_ref_audio_text : string -> string -> result (string * string).
Variable infer_process : string -> string -> string -> result (waveform * Z).
Variable remove_silence_for_generated_wav : waveform -> Z -> result waveform.

(** The body of [for style, text in segments]; [continue] leaves the
    loop state as it is. *)
Definition synthesize_segment (style_to_sample_map : dict (dict string))
    (remove_silence : bool) (st : loop_state) (seg : string * string)
    : result loop_state :=
  let '(style, text) := seg in
  let style :=
    if negb (dict_mem style style_to_sample_map) then "default" else style in
  let sample_info := dict_get style style_to_sample_map in
  match sample_info with
  | None => mret st
  | Some sample_info =>
      if negb (dict_truthy sample_info) then mret st
      else
        ref_audio_path ← dict_index "path" sample_info;
        ref_text ← dict_index "transcription" sample_info;
        '(ref_audio, ref_text) ←
          preprocess_ref_audio_text ref_audio_path ref_text;
        '(audio_wave, sample_rate) ← infer_process ref_audio ref_text text;
        audio_wave ←
          (if remove_silence
           then segment_wave ←
                  remove_silence_for_generated_wav audio_wave sample_rate;
                mret (squeeze segment_wave)
           else mret (Array1 audio_wave));
        mret (mk_loop (generated_segments st ++ [audio_wave])
                (Some sample_rate)
                (engine_calls st ++ [(ref_audio, ref_text, text)]))
  end.

Fixpoint synthesize_loop (style_to_sample_map : dict (dict string))
    (remove_silence : bool) (segments : list (string * string))
    (st : loop_state) : result loop_state :=
  match segments with
  | [] => mret st
  | seg :: segments' =>
      st' ← synthesize_segment style_to_sample_map remove_silence st seg;
      synthesize_loop style_to_sample_map remove_silence segments' st'
  end.

(** The result is the pair [(sample_rate, final_audio)], or [None] for
    the sentinel [(None, None)]; the calls made to the engine come
    with it. *)
Definition generate_multi_style_speech (text_with_styles : string)
    (style_to_sample_map : dict (dict string)) (remove_silence : bool)
    : result (option (Z * waveform) * list call) :=
  let segments := parse_style_segments text_with_styles in
  st ← synthesize_loop style_to_sample_map remove_silence segments
         (mk_loop [] None []);
  match generated_segments st with
  | [] => mret (None, engine_calls st)
  | _ :: _ =>
      final_audio ← np_concatenate (generated_segments st);
      match sample_rate st with
      | Some sr => mret (Some (sr, final_audio), engine_calls st)
      | None =>
          Raise (Error "UnboundLocalError"
                   "local variable 'sample_rate' referenced before assignment")
      end
  end.

End Engine.

End Synthesis.

(** ** Vocabulary of the statements *)

Module Markers.
Import PyStr Segmenter.

(** Does [ch] occur in [s]? *)
Fixpoint has_char (ch : ascii) (s : string) : bool :=
  match s with
  | "" => false
  | String c s' => Ascii.eqb c ch || has_char ch s'
  end.

Fixpoint all_space (s : string) : bool :=
  match s with
  | "" => true
  | String c s' => isspace c && all_space s'
  end.

(** A text without marker: no [{] is followed, anywhere later, by a [}]. *)
Definition no_marker (text : string) : Prop :=
  forall a b c, text <> a +:+ "{" +:+ b +:+ "}" +:+ c.

(** The same, decided: some [{] has a [}] after it. *)
Fixpoint has_marker (text : string) : bool :=
  match text with
  | "" => false
  | String c text' =>
      Ascii.eqb c "{" && has_char "}" text' || has_marker text'
  end.

(** The text of a sequence of markers [{style}] each followed by its
    content. *)
Fixpoint render (ms : list (string * string)) : string :=
  match ms with
  | [] => ""
  | (style, content) :: ms' => "{" +:+ style +:+ "}" +:+ content +:+ render ms'
  end.

(** A style name ends at the first [}], a content at the next [{]. *)
Definition marker_ok (m : string * string) : Prop :=
  has_char "}" m.1 = false /\ has_char "{" m.2 = false.

(** What may follow the last content: nothing, or a [{] that is never
    closed. *)
Definition tail_ok (junk : string) : Prop :=
  has_char "}" junk = false /\ (junk = "" \/ exists j, junk = String "{" j).

(** A text read as: a prefix without [{], markers with their contents,
    and an unclosed tail. *)
Record marked (text pre : string) (ms : list (string * string))
    (junk : string) : Prop := mk_marked {
  marked_text : text = pre +:+ render ms +:+ junk;
  marked_pre : has_char "{" pre = false;
  marked_ms : Forall marker_ok ms;
  marked_junk : tail_ok junk }.

Definition trimmed (m : string * string) : string * string :=
  (strip m.1, strip m.2).

(** The trimmed markers whose content is not empty, in order. *)
Definition kept (ms : list (string * string)) : list (string * string) :=
  filter (fun seg => seg.2 <> "") (trimmed <$> ms).

End Markers.

Module Runs.
Import PyStr PyDict Clock Store.

(** The sample and the style found under a pair of keys, if any. *)
Definition find_sample (w : world) (profile_name sample_name : string)
    : option Sample :=
  p ← dict_get profile_name (profiles w); dict_get sample_name (samples p).

Definition find_style (w : world) (profile_name style_name : string)
    : option Style :=
  p ← dict_get profile_name (profiles w); dict_get style_name (styles p).

(** Where a profile keeps its manifest and a saved output. *)
Definition manifest_path (w : world) (profile_name : string) : string :=
  profiles_dir w </> profile_name </> "profile.json".

Definition output_file (w : world) (profile_name output_name : string)
    (now : struct_time) : string :=
  profiles_dir w </> profile_name </> "outputs"
  </> output_filename output_name now.

(** The calls that change the store. *)
Inductive op : Type :=
  | CreateProfile (now : struct_time) (name description : string)
  | AddSample (now : struct_time)
      (profile_name sample_name audio_path transcription : string)
  | AddStyle (now : struct_time) (profile_name style_name sample_name : string)
  | SaveOutput (now now' : struct_time) (profile_name output_name : string)
      (audio_data : waveform) (sr : Z) (text style : string).

Definition run (o : op) : io string :=
  match o with
  | CreateProfile now name description => create_profile now name description
  | AddSample now profile_name sample_name audio_path transcription =>
      add_sample now profile_name sample_name audio_path transcription
  | AddStyle now profile_name style_name sample_name =>
      add_style now profile_name style_name sample_name
  | SaveOutput now now' profile_name output_name audio_data sr text style =>
      save_output now now' profile_name output_name audio_data sr text style
  end.

(** The world a call leaves behind, whether it returns or raises. *)
Definition after (o : op) (w : world) : world := (run o w).2.

(** A manager built over a directory without manifests has no profile. *)
Definition fresh (root : string) (ds : gset string) (fs : gmap string file)
    : world :=
  mk_world root None [] ds fs.

(** The worlds that the calls lead to from a fresh manager. *)
Inductive reachable : world -> Prop :=
  | reachable_fresh root ds fs : reachable (fresh root ds fs)
  | reachable_after o w : reachable w -> reachable (after o w).

(** A property of every profile of the store. *)
Definition every_profile (P : Profile -> Prop) (w : world) : Prop :=
  forall profile_name p, dict_get profile_name (profiles w) = Some p -> P p.

(** Every style of the profile names one of its samples. *)
Definition style_refs_ok (p : Profile) : Prop :=
  forall style_name st,
    dict_get style_name (styles p) = Some st ->
    is_Some (dict_get (style_sample st) (samples p)).

Definition styles_refer_to_samples (w : world) : Prop :=
  every_profile style_refs_ok w.

(** The dictionaries of the profile hold each key once. *)
Definition profile_wf (p : Profile) : Prop :=
  dict_wf (samples p) /\ dict_wf (styles p)
  /\ forall outs, outputs p = Some outs -> dict_wf outs.

End Runs.

Module Plan.
Import PyStr PyDict Segmenter Store Synthesis.

(** The entry a style resolves to: its own entry when the style is a key
    of the map, the ["default"] entry otherwise; an entry that is missing
    or empty resolves to nothing. *)
Definition resolve (style_to_sample_map : dict (dict string)) (style : string)
    : option (dict string) :=
  info ← dict_get (if dict_mem style style_to_sample_map then style else "default")
           style_to_sample_map;
  if dict_truthy info then Some info else None.

(** The resolution in the words of the specification: the ["default"] entry
    is also taken when the style is a key of the map without a sample. *)
Definition resolve_spec (style_to_sample_map : dict (dict string))
    (style : string) : option (dict string) :=
  let fallback :=
    info ← dict_get "default" style_to_sample_map;
    if dict_truthy info then Some info else None in
  match dict_get style style_to_sample_map with
  | Some info => if dict_truthy info then Some info else fallback
  | None => fallback
  end.

(** An entry that the loop can use: it has a path and a transcription.  A
    map is usable when its non-empty entries are. *)
Definition entry_ok (info : dict string) : Prop :=
  is_Some (dict_get "path" info) /\ is_Some (dict_get "transcription" info).

Definition map_ok (style_to_sample_map : dict (dict string)) : Prop :=
  forall style info,
    dict_get style style_to_sample_map = Some info ->
    dict_truthy info = true -> entry_ok info.

(** The segments that are not skipped, each with its entry. *)
Definition resolved (style_to_sample_map : dict (dict string))
    (segments : list (string * string)) : list (dict string * string) :=
  omap (fun seg => info ← resolve style_to_sample_map seg.1; Some (info, seg.2))
    segments.

Section Engine.

Variable preprocess_ref_audio_text : string -> string -> result (string * string).
Variable infer_process : string -> string -> string -> result (waveform * Z).
Variable remove_silence_for_generated_wav : waveform -> Z -> result waveform.

(** The reference of a segment that is not skipped: the path and the
    transcription of its entry, with the segment's text. *)
Definition reference (job : dict string * string)
    : result (string * string * string) :=
  ref_audio_path ← dict_index "path" job.1;
  ref_text ← dict_index "transcription" job.1;
  mret (ref_audio_path, ref_text, job.2).

(** What the collaborators answer for a reference: the call made to the
    engine, the sample rate and the buffer. *)
Definition answer (remove_silence : bool) (r : string * string * string)
    : result (call * Z * ndarray) :=
  let '(ref_audio_path, ref_text, text) := r in
  '(ref_audio, ref_text) ← preprocess_ref_audio_text ref_audio_path ref_text;
  '(wave, sr) ← infer_process ref_audio ref_text text;
  buffer ←
    (if remove_silence
     then frames ← remove_silence_for_generated_wav wave sr;
          mret (squeeze frames)
     else mret (Array1 wave));
  mret ((ref_audio, ref_text, text), sr, buffer).

(** One segment that is not skipped. *)
Definition turn (remove_silence : bool) (job : dict string * string)
    : result (call * Z * ndarray) :=
  r ← reference job; answer remove_silence r.

Definition call_of (a : call * Z * ndarray) : call := a.1.1.
Definition rate_of (a : call * Z * ndarray) : Z := a.1.2.
Definition buffer_of (a : call * Z * ndarray) : ndarray := a.2.

(** The loop state after the answers [answers] came in. *)
Definition extend (st : loop_state) (answers : list (call * Z * ndarray))
    : loop_state :=
  mk_loop (generated_segments st ++ (buffer_of <$> answers))
    (match last answers with
     | Some a => Some (rate_of a)
     | None => sample_rate st
     end)
    (engine_calls st ++ (call_of <$> answers)).

(** The speech made of the answers: the sentinel without an answer,
    otherwise the buffers concatenated in order at the rate of the last
    answer, if numpy concatenates them. *)
Definition speech (answers : list (call * Z * ndarray))
    : result (option (Z * waveform)) :=
  match last answers with
  | None => mret None
  | Some a =>
      final_audio ← np_concatenate (buffer_of <$> answers);
      mret (Some (rate_of a, final_audio))
  end.

End Engine.

(** A stand-in engine, to run the facade on examples: it answers with two
    frames, and its silence filter leaves the wave as it is. *)
Definition demo_preprocess (ref_audio_path ref_text : string)
    : result (string * string) :=
  Ok (ref_audio_path, ref_text).

Definition demo_infer (ref_audio ref_text text : string) : result (waveform * Z) :=
  Ok ([Z.of_nat (String.length text); 0%Z], 24000%Z).

Definition demo_trim (wave : waveform) (sr : Z) : result waveform := Ok wave.

End Plan.

(** ** The manager's start: [VoiceProfileManager.__init__] and [_load_profiles] *)

Module Loader.
Import PyStr PyDict Clock Store.

(** What stops the scan: [json.load] on a file that is not JSON, [open] on
    a directory. *)
Inductive load_error : Type :=
  | JSONDecodeError (path : string)
  | IsADirectoryError (path : string).

(** [p.is_dir()].  The set of directories holds the paths [mkdir] was called
    on; [mkdir(parents=True)] also creates their ancestors. *)
Definition is_dir (ds : gset string) (p : string) : bool :=
  bool_decide (p ∈ ds)
  || bool_decide (set_Exists (fun d => String.prefix (p +:+ "/") d = true) ds).

(** The loop of [_load_profiles] over [entries], the paths that
    [self.profiles_dir.glob("*")] yields in the order it yields them. *)
Fixpoint load_entries (ds : gset string) (fs : gmap string file)
    (entries : list string) (profiles : dict Profile)
    : load_error + dict Profile :=
  match entries with
  | [] => inr profiles
  | profile_dir :: entries' =>
      if is_dir ds profile_dir then
        let profile_path := profile_dir </> "profile.json" in
        match fs !! profile_path with
        | Some (Manifest profile_data) =>
            load_entries ds fs entries'
              (dict_set (name profile_data) profile_data profiles)
        | Some (Wav _ _) => inl (JSONDecodeError profile_path)
        | None =>
            if is_dir ds profile_path then inl (IsADirectoryError profile_path)
            else load_entries ds fs entries' profiles
        end
      else load_entries ds fs entries' profiles
  end.

Definition _load_profiles (ds : gset string) (fs : gmap string file)
    (entries : list string) : load_error + dict Profile :=
  load_entries ds fs entries [].

(** [VoiceProfileManager(profiles_dir)] on a disk. *)
Definition __init__ (profiles_dir : string) (ds : gset string)
    (fs : gmap string file) (entries : list string) : load_error + world :=
  let ds := {[ profiles_dir ]} ∪ ds in
  match _load_profiles ds fs entries with
  | inl e => inl e
  | inr profiles => inr (mk_world profiles_dir None profiles ds fs)
  end.

End Loader.

(** ** The event handlers: class [VoiceCloningApp] *)

Module App.
Import PyStr PyDict Clock Store.

(** [gr.update(choices=..., value=...)]; a field that is not given is
    [None]. *)
Record update : Type := mk_update {
  choices : option (list string);
  value : option (option string) }.

(** [str(e)]; the key of a [KeyError] is shown quoted. *)
Definition exn_str (e : exn) : string :=
  match e with
  | KeyError key => "'" +:+ key +:+ "'"
  | RuntimeError msg => msg
  | Error _ msg => msg
  end.

(** [try: body except Exception as e: handler(e)] *)
Definition try_except {A} (body : io A) (handler : exn -> io A) : io A :=
  fun w =>
    match body w with
    | (Ok a, w') => (Ok a, w')
    | (Raise e, w') => handler e w'
    end.

(** A call of a look-up of the store. *)
Definition ask {A} (f : world -> result A) : io A := fun w => (f w, w).

(** [os.path.basename] *)
Definition os_path_basename (p : string) : string := basename p.

(** [samples[-1]] on a list that is not empty. *)
Definition last_item (samples : list string) : result string :=
  match last samples with
  | Some s => Ok s
  | None => Raise (RuntimeError "list index out of range")
  end.

Definition refresh_profiles (w : world) : result (update * update * update * update) :=
  profiles ← list_profiles w;
  let u := mk_update (Some profiles) (Some None) in
  mret (u, u, u, u).

Definition create_profile (now : struct_time) (name description : string)
    : io (string * (update * update * update * update)) :=
  if negb (truthy name)
  then
    let u := mk_update None None in
    mret ("Please enter a profile name.", (u, u, u, u))
  else
    result ← Store.create_profile now name description;
    profiles ← ask list_profiles;
    let value := if bool_decide (name ∈ profiles) then Some name else None in
    let u := mk_update (Some profiles) (Some value) in
    mret (result, (u, u, u, u)).

(** [{}] is [None]. *)
Definition load_profile_info (w : world) (profile_name : string)
    : result (option Profile) :=
  if negb (truthy profile_name) || negb (dict_mem profile_name (profiles w))
  then mret None
  else p ← dict_index profile_name (profiles w); mret (Some p).

Definition refresh_samples (w : world) (profile_name : string) : result update :=
  if negb (truthy profile_name) then mret (mk_update (Some []) (Some None))
  else
    samples ← list_samples w profile_name;
    mret (mk_update (Some samples) (Some None)).

Definition load_sample (w : world) (profile_name sample_name : string)
    : result (option string * string) :=
  if negb (truthy profile_name) || negb (truthy sample_name) then mret (None, "")
  else
    sample_path ← get_sample_path w profile_name sample_name;
    match sample_path with
    | None => mret (None, "")
    | Some path =>
        if negb (truthy path) then mret (None, "")
        else
          transcription ← get_transcription w profile_name sample_name;
          mret (Some path, transcription)
    end.

Definition add_style (now : struct_time)
    (profile_name style_name sample_name : string) : io string :=
  if negb (truthy profile_name) then mret "Please select a profile."
  else if negb (truthy style_name) then mret "Please enter a style name."
  else if negb (truthy sample_name) then mret "Please select a sample."
  else Store.add_style now profile_name style_name sample_name.

(** The saved outputs of a profile. *)
Definition refresh_history (w : world) (profile_name : string) : result update :=
  if negb (truthy profile_name) || negb (dict_mem profile_name (profiles w))
  then mret (mk_update (Some []) (Some None))
  else
    p ← dict_index profile_name (profiles w);
    match Store.outputs p with
    | None => mret (mk_update (Some []) (Some None))
    | Some outs => mret (mk_update (Some (dict_keys outs)) (Some None))
    end.

Definition load_history_item (w : world) (profile_name output_name : string)
    : result (option string * string) :=
  if negb (truthy profile_name) || negb (truthy output_name) then mret (None, "")
  else if negb (dict_mem profile_name (profiles w)) then mret (None, "")
  else
    p ← dict_index profile_name (profiles w);
    match Store.outputs p with
    | None => mret (None, "")
    | Some outs =>
        if negb (dict_mem output_name outs) then mret (None, "")
        else
          output_data ← dict_index output_name outs;
          mret (Some (output_path output_data), output_text output_data)
    end.

(** [save_output] reads the clock for the default output name ([now0]);
    the store reads it twice more.  The audio is the pair of sample rate
    and data, or [None]. *)
Definition save_output (now0 now now' : struct_time)
    (profile_name output_name : string) (audio_output : option (Z * waveform))
    (text style_name : string) : io string :=
  if negb (truthy profile_name) then mret "Please select a profile."
  else
    let output_name :=
      if negb (truthy output_name)
      then "output_" +:+ strftime_compact now0
      else output_name in
    match audio_output with
    | None => mret "No audio to save."
    | Some (sample_rate, audio_data) =>
        try_except
          (saved_path ← Store.save_output now now' profile_name output_name
                          audio_data sample_rate text
                          (if truthy style_name then style_name else "default");
           mret ("Output saved as " +:+ os_path_basename saved_path))
          (fun e => mret ("Error saving output: " +:+ exn_str e))
    end.

Section Cloner.

(** The speech recogniser behind [VoiceCloner.transcribe_audio], and
    [VoiceCloner.generate_speech] with its settings (speed, quality) of
    some type; both may raise. *)
Variable transcribe_audio : string -> result string.
Variable settings : Type.
Variable generate_speech_engine :
  option string -> string -> string -> bool -> settings -> result (Z * waveform).

(** A missing recording or upload is the empty string. *)
Definition add_sample (now : struct_time)
    (profile_name sample_name recorded_audio uploaded_audio transcription : string)
    : io (string * update) :=
  if negb (truthy profile_name)
  then mret ("Please select a profile.", mk_update (Some []) None)
  else if negb (truthy sample_name)
  then mret ("Please enter a sample name.", mk_update (Some []) None)
  else
    let audio_path :=
      if truthy recorded_audio then recorded_audio else uploaded_audio in
    if negb (truthy audio_path)
    then mret ("Please record or upload audio.", mk_update (Some []) None)
    else
      match (if negb (truthy (strip transcription))
             then transcribe_audio audio_path
             else Ok transcription) with
      | Raise e =>
          mret ("Transcription failed: " +:+ exn_str e, mk_update (Some []) None)
      | Ok transcription =>
          try_except
            (result ← Store.add_sample now profile_name sample_name
                        audio_path transcription;
             samples ← ask (fun w => list_samples w profile_name);
             let value :=
               if bool_decide (sample_name ∈ samples)
               then Some sample_name else None in
             mret (result, mk_update (Some samples) (Some value)))
            (fun e =>
               mret ("Error adding sample: " +:+ exn_str e,
                     mk_update (Some []) None))
      end.

(** The result is the audio, or [None], with the warnings shown. *)
Definition generate_speech (w : world) (profile_name style_name text : string)
    (remove_silence : bool) (speed_quality : settings)
    : option (Z * waveform) * list string :=
  if negb (truthy profile_name) then (None, ["Please select a profile."])
  else if negb (truthy (strip text))
  then (None, ["Please enter text to generate speech."])
  else
    let body : result (option (Z * waveform) * list string) :=
      sample_name ← (if truthy style_name
                     then get_style_sample w profile_name style_name
                     else mret None);
      chosen ← (match sample_name with
                | Some s => if truthy s then mret (Some s) else mret None
                | None => mret None
                end);
      picked ← (match chosen with
                | Some s => mret (Some s)
                | None =>
                    samples ← list_samples w profile_name;
                    match samples with
                    | [] => mret None
                    | _ :: _ => s ← last_item samples; mret (Some s)
                    end
                end);
      match picked with
      | None => mret (None, ["No voice samples found for this profile."])
      | Some sample_name =>
          sample_path ← get_sample_path w profile_name sample_name;
          transcription ← get_transcription w profile_name sample_name;
          audio ← generate_speech_engine sample_path transcription text
                    remove_silence speed_quality;
          mret (Some audio, [])
      end in
    match body with
    | Ok r => r
    | Raise e => (None, ["Error generating speech: " +:+ exn_str e])
    end.

End Cloner.

End App.

(** ** The basic synthesis: [VoiceCloner.generate_speech] *)

Module Voice.
Import PyStr PyDict Store Synthesis.

Section Engine.

(** The engine with its settings; [number] is the type of the floating
    point settings, which are passed on and never computed on.  The
    collaborators are those of the multi-style facade. *)
Variable number : Type.
Variable preprocess_ref_audio_text : string -> string -> result (string * string).
Variable infer_process :
  string -> string -> string -> number -> Z -> number -> result (waveform * Z).
Variable remove_silence_for_generated_wav : waveform -> Z -> result waveform.

Definition generate_speech (ref_audio_path ref_text text_to_generate : string)
    (remove_silence : bool) (speed : number) (nfe_steps : Z)
    (cross_fade_duration : number) : result (Z * ndarray) :=
  '(ref_audio, ref_text) ← preprocess_ref_audio_text ref_audio_path ref_text;
  '(audio_wave, sample_rate) ←
    infer_process ref_audio ref_text text_to_generate
      cross_fade_duration nfe_steps speed;
  audio_wave ←
    (if remove_silence
     then final_wave ← remove_silence_for_generated_wav audio_wave sample_rate;
          mret (squeeze final_wave)
     else mret (Array1 audio_wave));
  mret (sample_rate, audio_wave).

End Engine.

End Voice.

(** ** Vocabulary of the further statements *)

Module Terms.
Import PyStr PyDict Clock Store Markers Runs.

(** The profile a call names. *)
Definition target (o : op) : string :=
  match o with
  | CreateProfile _ name _ => name
  | AddSample _ profile_name _ _ _ => profile_name
  | AddStyle _ profile_name _ _ => profile_name
  | SaveOutput _ _ profile_name _ _ _ _ _ => profile_name
  end.

(** The world after a sequence of calls. *)
Definition run_all (ops : list op) (w : world) : world :=
  fold_left (fun w o => after o w) ops w.

(** A name that is one path component: the directory of such a profile is
    an entry of the profiles directory. *)
Definition simple_name (n : string) : bool :=
  negb (bool_decide (n = "")) && negb (bool_decide (n = "."))
  && negb (bool_decide (n = "..")) && negb (has_char "/" n).

Definition creates_simple (o : op) : bool :=
  match o with
  | CreateProfile _ name _ => simple_name name
  | _ => true
  end.

(** Every profile is on disk as it is in memory: under its own name, in
    its directory, in its manifest. *)
Definition persisted (w : world) : Prop :=
  forall k p,
    dict_get k (profiles w) = Some p ->
    name p = k /\ simple_name k = true
    /\ profiles_dir w </> k ∈ dirs w
    /\ files w !! manifest_path w k = Some (Manifest p).

(** An entry of the listing that gives the scan nothing to load. *)
Definition no_manifest (w : world) (entry : string) : Prop :=
  let ds := {[ profiles_dir w ]} ∪ dirs w in
  Loader.is_dir ds entry = false
  \/ (files w !! (entry </> "profile.json") = None
      /\ Loader.is_dir ds (entry </> "profile.json") = false).

(** Where [add_sample] stores the copy of the audio. *)
Definition sample_file (w : world) (profile_name sample_name audio_path : string)
    : string :=
  profiles_dir w </> profile_name </> "samples"
  </> (replace " " "_" sample_name +:+ splitext_ext audio_path).

(** The keys of the outputs map, none while the map is absent. *)
Definition output_names (p : Profile) : list string :=
  dict_keys (default [] (outputs p)).

(** The first character, if any, is not white space; nor is the last. *)
Definition head_ok (s : string) : Prop :=
  match s with
  | "" => True
  | String c _ => isspace c = false
  end.

Fixpoint last_ok (s : string) : Prop :=
  match s with
  | "" => True
  | String c "" => isspace c = false
  | String _ s' => last_ok s'
  end.

(** No white space at either end. *)
Definition is_trimmed (s : string) : Prop := head_ok s /\ last_ok s.

(** The profile dictionary that a call which goes through stores under its
    target, from the world the call starts in. *)
Definition updated (o : op) (w : world) (p' : Profile) : Prop :=
  match o with
  | CreateProfile now name description =>
      dict_get name (profiles w) = None
      /\ p' = mk_profile name description (strftime_iso now) [] [] None
  | AddSample now profile_name sample_name audio_path transcription =>
      exists p audio sr,
        dict_get profile_name (profiles w) = Some p
        /\ files w !! audio_path = Some (Wav audio sr)
        /\ p' = with_samples
                  (dict_set sample_name
                     (mk_sample (sample_file w profile_name sample_name audio_path)
                        transcription (strftime_iso now))
                     (samples p)) p
  | AddStyle now profile_name style_name sample_name =>
      exists p s,
        dict_get profile_name (profiles w) = Some p
        /\ dict_get sample_name (samples p) = Some s
        /\ p' = with_styles
                  (dict_set style_name (mk_style sample_name (strftime_iso now))
                     (styles p)) p
  | SaveOutput now now' profile_name output_name audio_data sr text style =>
      exists p,
        dict_get profile_name (profiles w) = Some p
        /\ p' = with_outputs
                  (dict_set output_name
                     (mk_output (output_file w profile_name output_name now)
                        text style (strftime_iso now'))
                     (default [] (outputs p))) p
  end.

(** The files a call may write: the manifest of its target and, for
    [add_sample] and [save_output], one audio file. *)
Definition written (o : op) (w : world) : list string :=
  match o with
  | CreateProfile _ name _ => [manifest_path w name]
  | AddSample _ profile_name sample_name audio_path _ =>
      [sample_file w profile_name sample_name audio_path;
       manifest_path w profile_name]
  | AddStyle _ profile_name _ _ => [manifest_path w profile_name]
  | SaveOutput now _ profile_name output_name _ _ _ _ =>
      [output_file w profile_name output_name now;
       manifest_path w profile_name]
  end.

(** A later state of a profile: the same name, description and creation
    time, and the keys it had, in their order, before any new one. *)
Definition grows (p p' : Profile) : Prop :=
  name p' = name p /\ description p' = description p
  /\ created_at p' = created_at p
  /\ dict_keys (samples p) `prefix_of` dict_keys (samples p')
  /\ dict_keys (styles p) `prefix_of` dict_keys (styles p')
  /\ output_names p `prefix_of` output_names p'.

End Terms.

(** ** The store on a disk that can refuse

    [Store] has the calls as they run when every directory can be made and
    every file written.  Here are the same calls with the failures of
    [Path.mkdir], [open], [torchaudio.save] and [soundfile.write]: a file or
    a directory in the way, a missing directory, a file name without
    extension, and the refusals that come from outside this model.  A path
    is a directory and a name of one component, as [Path(dir) / name] is. *)

Module Disk.
Import PyStr PyDict Clock Store Runs.

(** An [OSError] of a class for a path, with the message of [str(e)] for a
    path without quotes. *)
Definition oserror (class strerror path : string) : exn :=
  Error class (strerror +:+ ": '" +:+ path +:+ "'").

Definition FileExistsError : string -> exn :=
  oserror "FileExistsError" "[Errno 17] File exists".
Definition FileNotFoundError : string -> exn :=
  oserror "FileNotFoundError" "[Errno 2] No such file or directory".
Definition NotADirectoryError : string -> exn :=
  oserror "NotADirectoryError" "[Errno 20] Not a directory".
Definition IsADirectoryError : string -> exn :=
  oserror "IsADirectoryError" "[Errno 21] Is a directory".
Definition PermissionError : string -> exn :=
  oserror "PermissionError" "[Errno 13] Permission denied".

(** [p.is_dir()] and [p.is_file()] on the disk of the world. *)
Definition is_dir (w : world) (p : string) : bool := Loader.is_dir (dirs w) p.
Definition is_file (w : world) (p : string) : bool :=
  bool_decide (is_Some (files w !! p)).

Section Refusals.

(** The paths that cannot be created or written for a reason outside this
    model: permissions, a full disk, a name that the file system rejects, an
    audio format without encoder. *)
Variable refused : string -> bool.

(** [(Path(dir) / name).mkdir(parents=parents, exist_ok=True)]: nothing
    happens when the directory is there; a file in its place or in the
    place of [dir] raises; a missing [dir] is created first under
    [parents=True] and raises otherwise. *)
Definition mkdir (parents : bool) (dir name : string) : io unit := fun w =>
  let p := dir </> name in
  if is_dir w p then (Ok tt, w)
  else if is_file w p then (Raise (FileExistsError p), w)
  else if is_file w dir then (Raise (NotADirectoryError p), w)
  else if is_dir w dir then
    if refused p then (Raise (PermissionError p), w) else Store.mkdir p w
  else if parents then
    if refused dir then (Raise (PermissionError dir), w)
    else
      let w' := (Store.mkdir dir w).2 in
      if refused p then (Raise (PermissionError p), w') else Store.mkdir p w'
  else (Raise (FileNotFoundError p), w).

(** [open(Path(dir) / name, "w")] and the write that follows, also the
    writes of the audio libraries. *)
Definition write_file (dir name : string) (f : file) : io unit := fun w =>
  let p := dir </> name in
  if is_dir w p then (Raise (IsADirectoryError p), w)
  else if is_file w dir then (Raise (NotADirectoryError p), w)
  else if negb (is_dir w dir) then (Raise (FileNotFoundError p), w)
  else if refused p then (Raise (PermissionError p), w)
  else Store.write_file p f w.

(** [json.dump(data, open(Path(dir) / name, "w"))] *)
Definition json_dump (data : Profile) (dir name : string) : io unit :=
  write_file dir name (Manifest data).

(** [torchaudio.save(str(Path(dir) / name), audio, sr)]: the format is
    read off the extension of the file name. *)
Definition torchaudio_save (dir name : string) (audio : waveform) (sr : Z)
    : io unit :=
  if bool_decide (splitext_ext name = "")
  then lift (Raise (RuntimeError
                      ("Couldn't find appropriate backend to handle uri "
                       +:+ (dir </> name) +:+ " and format None.")))
  else write_file dir name (Wav audio sr).

(** [sf.write(str(Path(dir) / name), audio, sr)] *)
Definition sf_write (dir name : string) (audio : waveform) (sr : Z)
    : io unit :=
  write_file dir name (Wav audio sr).

Definition create_profile (now : struct_time) (name description : string)
    : io string :=
  ps ← read profiles;
  if dict_mem name ps
  then mret ("Profile '" +:+ name +:+ "' already exists.")
  else
    root ← read profiles_dir;
    let profile_dir := root </> name in
    mkdir true root name;;
    mkdir false profile_dir "samples";;
    mkdir false profile_dir "outputs";;
    let profile_data :=
      mk_profile name description (strftime_iso now) [] [] None in
    json_dump profile_data profile_dir "profile.json";;
    set_profile name profile_data;;
    set_current_profile name;;
    mret ("Profile '" +:+ name +:+ "' created successfully.").

Definition add_sample (now : struct_time)
    (profile_name sample_name audio_path transcription : string) : io string :=
  ps ← read profiles;
  if negb (dict_mem profile_name ps)
  then mret ("Profile '" +:+ profile_name +:+ "' does not exist.")
  else
    root ← read profiles_dir;
    let profile_dir := root </> profile_name in
    let samples_dir := profile_dir </> "samples" in
    let ext := splitext_ext audio_path in
    let sample_filename := replace " " "_" sample_name +:+ ext in
    let sample_path := samples_dir </> sample_filename in
    '(audio, sr) ← torchaudio_load audio_path;
    torchaudio_save samples_dir sample_filename audio sr;;
    p ← profile_at profile_name;
    let entry := mk_sample sample_path transcription (strftime_iso now) in
    set_profile profile_name (with_samples (dict_set sample_name entry (samples p)) p);;
    p ← profile_at profile_name;
    json_dump p profile_dir "profile.json";;
    mret ("Sample '" +:+ sample_name +:+ "' added to profile '"
          +:+ profile_name +:+ "'.").

Definition add_style (now : struct_time)
    (profile_name style_name sample_name : string) : io string :=
  ps ← read profiles;
  if negb (dict_mem profile_name ps)
  then mret ("Profile '" +:+ profile_name +:+ "' does not exist.")
  else
    p ← profile_at profile_name;
    if negb (dict_mem sample_name (samples p))
    then mret ("Sample '" +:+ sample_name +:+ "' does not exist in profile '"
               +:+ profile_name +:+ "'.")
    else
      root ← read profiles_dir;
      let profile_dir := root </> profile_name in
      p ← profile_at profile_name;
      let entry := mk_style sample_name (strftime_iso now) in
      set_profile profile_name (with_styles (dict_set style_name entry (styles p)) p);;
      p ← profile_at profile_name;
      json_dump p profile_dir "profile.json";;
      mret ("Style '" +:+ style_name +:+ "' added to profile '"
            +:+ profile_name +:+ "'.").

Definition save_output (now now' : struct_time)
    (profile_name output_name : string) (audio_data : waveform) (sr : Z)
    (text style : string) : io string :=
  ps ← read profiles;
  if negb (dict_mem profile_name ps)
  then mret ("Profile '" +:+ profile_name +:+ "' does not exist.")
  else
    root ← read profiles_dir;
    let profile_dir := root </> profile_name in
    let outputs_dir := profile_dir </> "outputs" in
    let output_path := outputs_dir </> output_filename output_name now in
    sf_write outputs_dir (output_filename output_name now) audio_data sr;;
    p ← profile_at profile_name;
    (match outputs p with
     | None => set_profile profile_name (with_outputs [] p)
     | Some _ => mret tt
     end);;
    p ← profile_at profile_name;
    outs ← outputs_of p;
    let entry := mk_output output_path text style (strftime_iso now') in
    set_profile profile_name (with_outputs (dict_set output_name entry outs) p);;
    p ← profile_at profile_name;
    json_dump p profile_dir "profile.json";;
    mret output_path.

(** The calls that change the store. *)
Definition run (o : op) : io string :=
  match o with
  | CreateProfile now name description => create_profile now name description
  | AddSample now profile_name sample_name audio_path transcription =>
      add_sample now profile_name sample_name audio_path transcription
  | AddStyle now profile_name style_name sample_name =>
      add_style now profile_name style_name sample_name
  | SaveOutput now now' profile_name output_name audio_data sr text style =>
      save_output now now' profile_name output_name audio_data sr text style
  end.

End Refusals.

End Disk.

(** ** The handlers over the disk that can refuse *)

Module DiskApp.
Import PyStr PyDict Clock Store App.

Section Refusals.

Variable refused : string -> bool.

Definition create_profile (now : struct_time) (name description : string)
    : io (string * (update * update * update * update)) :=
  if negb (truthy name)
  then
    let u := mk_update None None in
    mret ("Please enter a profile name.", (u, u, u, u))
  else
    result ← Disk.create_profile refused now name description;
    profiles ← ask list_profiles;
    let value := if bool_decide (name ∈ profiles) then Some name else None in
    let u := mk_update (Some profiles) (Some value) in
    mret (result, (u, u, u, u)).

Definition add_style (now : struct_time)
    (profile_name style_name sample_name : string) : io string :=
  if negb (truthy profile_name) then mret "Please select a profile."
  else if negb (truthy style_name) then mret "Please enter a style name."
  else if negb (truthy sample_name) then mret "Please select a sample."
  else Disk.add_style refused now profile_name style_name sample_name.

Definition save_output (now0 now now' : struct_time)
    (profile_name output_name : string) (audio_output : option (Z * waveform))
    (text style_name : string) : io string :=
  if negb (truthy profile_name) then mret "Please select a profile."
  else
    let output_name :=
      if negb (truthy output_name)
      then "output_" +:+ strftime_compact now0
      else output_name in
    match audio_output with
    | None => mret "No audio to save."
    | Some (sample_rate, audio_data) =>
        try_except
          (saved_path ← Disk.save_output refused now now' profile_name
                          output_name audio_data sample_rate text
                          (if truthy style_name then style_name else "default");
           mret ("Output saved as " +:+ os_path_basename saved_path))
          (fun e => mret ("Error saving output: " +:+ exn_str e))
    end.

Variable transcribe_audio : string -> result string.

Definition add_sample (now : struct_time)
    (profile_name sample_name recorded_audio uploaded_audio transcription : string)
    : io (string * update) :=
  if negb (truthy profile_name)
  then mret ("Please select a profile.", mk_update (Some []) None)
  else if negb (truthy sample_name)
  then mret ("Please enter a sample name.", mk_update (Some []) None)
  else
    let audio_path :=
      if truthy recorded_audio then recorded_audio else uploaded_audio in
    if negb (truthy audio_path)
    then mret ("Please record or upload audio.", mk_update (Some []) None)
    else
      match (if negb (truthy (strip transcription))
             then transcribe_audio audio_path
             else Ok transcription) with
      | Raise e =>
          mret ("Transcription failed: " +:+ exn_str e, mk_update (Some []) None)
      | Ok transcription =>
          try_except
            (result ← Disk.add_sample refused now profile_name sample_name
                        audio_path transcription;
             samples ← ask (fun w => list_samples w profile_name);
             let value :=
               if bool_decide (sample_name ∈ samples)
               then Some sample_name else None in
             mret (result, mk_update (Some samples) (Some value)))
            (fun e =>
               mret ("Error adding sample: " +:+ exn_str e,
                     mk_update (Some []) None))
      end.

End Refusals.

End DiskApp.

(** ** The look-ups on the dictionaries that [json.load] can return *)

Module Raw.
Import PyStr PyDict Store.

(** A value of [json.load]; a number is an integer here, a float plays the
    same part. *)
#[local] Unset Elimination Schemes.
Inductive json : Type :=
  | JNull
  | JBool (b : bool)
  | JNum (n : Z)
  | JStr (s : string)
  | JArr (items : list json)
  | JObj (members : list (string * json)).
#[local] Set Elimination Schemes.

(** [type(v).__name__] *)
Definition type_name (v : json) : string :=
  match v with
  | JNull => "NoneType"
  | JBool _ => "bool"
  | JNum _ => "int"
  | JStr _ => "str"
  | JArr _ => "list"
  | JObj _ => "dict"
  end.

(** [v[key]] for a string [key] *)
Definition getitem (v : json) (key : string) : result json :=
  match v with
  | JObj members => dict_index key members
  | JArr _ =>
      Raise (Error "TypeError" "list indices must be integers or slices, not str")
  | JStr _ =>
      Raise (Error "TypeError" "string indices must be integers, not 'str'")
  | _ =>
      Raise (Error "TypeError"
               ("'" +:+ type_name v +:+ "' object is not subscriptable"))
  end.

(** [key in s] for two strings: [key] occurs in [s]. *)
Definition occurs (key s : string) : bool :=
  match String.index 0 key s with
  | Some _ => true
  | None => false
  end.

(** [key in v] for a string [key] *)
Definition contains (key : string) (v : json) : result bool :=
  match v with
  | JObj members => Ok (dict_mem key members)
  | JArr items =>
      Ok (existsb (fun item => match item with
                               | JStr s => String.eqb s key
                               | _ => false
                               end) items)
  | JStr s => Ok (occurs key s)
  | _ =>
      Raise (Error "TypeError"
               ("argument of type '" +:+ type_name v +:+ "' is not iterable"))
  end.

(** [list(v.keys())] *)
Definition keys (v : json) : result (list string) :=
  match v with
  | JObj members => Ok (dict_keys members)
  | _ =>
      Raise (Error "AttributeError"
               ("'" +:+ type_name v +:+ "' object has no attribute 'keys'"))
  end.

(** The look-ups on [self.profiles], a dictionary from names to the
    dictionaries that were created or loaded.  [None] is [JNull]. *)
Definition lookup (section field : string) (missing : json)
    (profiles : dict json) (profile_name key : string) : result json :=
  found ← (if dict_mem profile_name profiles
           then p ← dict_index profile_name profiles;
                entries ← getitem p section;
                contains key entries
           else mret false);
  if found : bool
  then p ← dict_index profile_name profiles;
       entries ← getitem p section;
       entry ← getitem entries key;
       getitem entry field
  else mret missing.

Definition get_sample_path : dict json -> string -> string -> result json :=
  lookup "samples" "path" JNull.
Definition get_transcription : dict json -> string -> string -> result json :=
  lookup "samples" "transcription" (JStr "").
Definition get_style_sample : dict json -> string -> string -> result json :=
  lookup "styles" "sample" JNull.

Definition listing (section : string) (profiles : dict json)
    (profile_name : string) : result (list string) :=
  if dict_mem profile_name profiles
  then p ← dict_index profile_name profiles;
       entries ← getitem p section;
       keys entries
  else mret [].

Definition list_samples : dict json -> string -> result (list string) :=
  listing "samples".
Definition list_styles : dict json -> string -> result (list string) :=
  listing "styles".

(** The dictionaries that the manager itself builds, as [json.dump] writes
    them. *)
Definition sample_json (s : Sample) : json :=
  JObj [("path", JStr (sample_path s));
        ("transcription", JStr (sample_transcription s));
        ("added_at", JStr (sample_added_at s))].

Definition style_json (s : Style) : json :=
  JObj [("sample", JStr (style_sample s));
        ("added_at", JStr (style_added_at s))].

Definition output_json (o : Output) : json :=
  JObj [("path", JStr (output_path o));
        ("text", JStr (output_text o));
        ("style", JStr (output_style o));
        ("created_at", JStr (output_created_at o))].

Definition dict_json {V} (f : V -> json) (d : dict V) : dict json :=
  (fun kv => (kv.1, f kv.2)) <$> d.

Definition profile_json (p : Profile) : json :=
  JObj ([("name", JStr (name p));
         ("description", JStr (description p));
         ("created_at", JStr (created_at p));
         ("samples", JObj (dict_json sample_json (samples p)));
         ("styles", JObj (dict_json style_json (styles p)))]
        ++ match outputs p with
           | Some outs => [("outputs", JObj (dict_json output_json outs))]
           | None => []
           end).


End Raw.

(** ** Vocabulary of the statements about the disk and the raw dictionaries *)

Module Conditions.
Import PyStr PyDict Clock Store Runs Terms.

(** The components of a path, between its slashes. *)
Fixpoint components (s : string) : list string :=
  match s with
  | "" => [""]
  | String c s' =>
      if Ascii.eqb c "/" then "" :: components s'
      else match components s' with
           | comp :: rest => String c comp :: rest
           | [] => [String c ""]
           end
  end.

(** A path that [Path] leaves as it is and that names its file in one way
    only: relative or absolute, each component a plain name. *)
Definition clean_path (s : string) : bool :=
  match s with
  | String "/" s' => forallb simple_name (components s')
  | _ => forallb simple_name (components s)
  end.

(** The file [name] can be written in the directory [dir]: the directory is
    there, no directory is in the place of the file, and nothing refuses. *)
Definition can_write (refused : string -> bool) (w : world)
    (dir name : string) : bool :=
  Disk.is_dir w dir && negb (Disk.is_file w dir)
  && negb (Disk.is_dir w (dir </> name)) && negb (refused (dir </> name)).



(** A call whose target and whose audio file, if it writes one, have a name
    of one path component. *)
Definition plain_call (o : op) : bool :=
  simple_name (target o)
  && match o with
     | AddSample _ _ sample_name audio_path _ =>
         simple_name (replace " " "_" sample_name +:+ splitext_ext audio_path)
     | SaveOutput now _ _ output_name _ _ _ _ =>
         simple_name (output_filename output_name now)
     | _ => true
     end.

(** The manifest of a profile can be written. *)
Definition can_flush (refused : string -> bool) (w : world)
    (profile_name : string) : bool :=
  can_write refused w (profiles_dir w </> profile_name) "profile.json".

(** The worlds agree on the manager and on the files. *)
Definition same_store (w w' : world) : Prop :=
  profiles_dir w' = profiles_dir w /\ current_profile w' = current_profile w
  /\ profiles w' = profiles w /\ files w' = files w.

(** A profile dictionary with a samples map and a styles map whose entries
    carry the fields that the look-ups read. *)
Definition has_fields (fields : list string) (entries : dict Raw.json) : Prop :=
  forall key entry,
    dict_get key entries = Some entry ->
    exists members,
      entry = Raw.JObj members
      /\ forall field, field ∈ fields -> is_Some (dict_get field members).

Definition well_formed (p : Raw.json) : Prop :=
  exists members samples styles,
    p = Raw.JObj members
    /\ dict_get "samples" members = Some (Raw.JObj samples)
    /\ dict_get "styles" members = Some (Raw.JObj styles)
    /\ has_fields ["path"; "transcription"] samples
    /\ has_fields ["sample"] styles.

End Conditions.

(** ** Stand-ins for the recogniser and the engine, to run the handlers on
    examples *)

Module Standins.
Import PyStr Store.

(** An engine with the six arguments of [infer_process]; the settings are
    integers here. *)
Definition demo_infer_process (ref_audio ref_text text : string)
    (cross_fade_duration nfe_steps speed : Z) : result (waveform * Z) :=
  Ok ([Z.of_nat (String.length text); nfe_steps], 24000%Z).

Definition demo_transcribe_audio (audio_path : string) : result string :=
  Ok "hello there".

(** A synthesis that needs a reference audio. *)
Definition demo_generate_speech (ref_audio_path : option string)
    (ref_text text : string) (remove_silence : bool) (speed_quality : Z * Z)
    : result (Z * waveform) :=
  match ref_audio_path with
  | Some _ => Ok (24000%Z, [Z.of_nat (String.length text)])
  | None => Raise (RuntimeError "no reference audio")
  end.

End Standins.

(* ===================================================================== *)
(** * Part II: properties                                                 *)
(* ===================================================================== *)

Import PyStr PyDict Clock Segmenter Markers Store Runs Synthesis Plan.
Open Scope list_scope.

(** ** Strings *)

Section StringFacts.

Lemma str_app_cons (a : ascii) (s t : string) :
  String a s +:+ t = String a (s +:+ t).
Proof. reflexivity. Qed.

Lemma str_app_nil_l (t : string) : "" +:+ t = t.
Proof. reflexivity. Qed.

Lemma str_app_nil_r (s : string) : s +:+ "" = s.
Proof. induction s as [|a s IH]; [done|]. by rewrite str_app_cons, IH. Qed.

Lemma str_app_assoc (s t u : string) : (s +:+ t) +:+ u = s +:+ t +:+ u.
Proof. induction s as [|a s IH]; [done|]. by rewrite !str_app_cons, IH. Qed.

Lemma str_app_length (s t : string) :
  String.length (s +:+ t) = String.length s + String.length t.
Proof. induction s as [|a s IH]; [done|]. rewrite str_app_cons. simpl. lia. Qed.

Lemma has_char_app ch s t :
  has_char ch (s +:+ t) = has_char ch s || has_char ch t.
Proof.
  induction s as [|a s IH]; [done|].
  rewrite str_app_cons. simpl. rewrite IH. by rewrite orb_assoc.
Qed.

(** A character that occurs splits the string at its first occurrence. *)
Lemma has_char_split ch s :
  has_char ch s = true ->
  exists b c, s = b +:+ String ch c /\ has_char ch b = false.
Proof.
  induction s as [|a s IH]; simpl; [done|].
  destruct (Ascii.eqb_spec a ch) as [->|Hne]; simpl.
  - intros _. by exists "", s.
  - intros (b & c & -> & Hb)%IH. exists (String a b), c. split; [done|].
    simpl. rewrite Hb. by apply Ascii.eqb_neq in Hne as ->.
Qed.

Lemma all_space_has_char ch s :
  isspace ch = false -> all_space s = true -> has_char ch s = false.
Proof.
  intros Hch. induction s as [|a s IH]; simpl; [done|].
  intros [Ha Hs]%andb_true_iff. rewrite (IH Hs), orb_false_r.
  apply Ascii.eqb_neq. intros ->. congruence.
Qed.

Lemma rstrip_empty s : rstrip s = "" -> all_space s = true.
Proof.
  induction s as [|a s IH]; simpl; [done|].
  destruct (rstrip s) eqn:Hr; [|done].
  destruct (isspace a); [|done]. intros _. by rewrite IH.
Qed.

Lemma lstrip_all_space s : all_space (lstrip s) = true -> all_space s = true.
Proof.
  induction s as [|a s IH]; simpl; [done|].
  destruct (isspace a) eqn:Ha; simpl; [done|]. by rewrite Ha.
Qed.

Lemma strip_empty s : strip s = "" -> all_space s = true.
Proof. intros H. by apply lstrip_all_space, rstrip_empty. Qed.

Lemma all_space_strip s : all_space s = true -> strip s = "".
Proof.
  unfold strip. induction s as [|a s IH]; simpl; [done|].
  intros [Ha Hs]%andb_true_iff. rewrite Ha. auto.
Qed.

End StringFacts.

(** ** The regular expression *)

Section RegexFacts.

Lemma lookahead_brace s : lookahead (String "{" s) = true.
Proof. by destruct s. Qed.

Lemma lookahead_other a s t :
  a <> "{"%char -> lookahead (String a (s +:+ String "{" t)) = false.
Proof.
  intros Ha. apply Ascii.eqb_neq in Ha.
  destruct s; simpl; by rewrite ?str_app_cons.
Qed.

(** The second group stops at the first [{]. *)
Lemma lazy_content_stop c rest :
  has_char "{" c = false ->
  lazy_content (c +:+ String "{" rest) = Some (c, String "{" rest).
Proof.
  induction c as [|a c IH]; intros Hc.
  - rewrite str_app_nil_l. destruct rest; reflexivity.
  - simpl in Hc. apply orb_false_iff in Hc as [Ha Hc].
    rewrite str_app_cons. change (lazy_content (String a ?s))
      with (if lookahead (String a s) then Some ("", String a s)
            else match lazy_content s with
                 | Some (content, r) => Some (String a content, r)
                 | None => None
                 end).
    rewrite lookahead_other by by apply Ascii.eqb_neq.
    by rewrite IH.
Qed.

(** The pattern's tail never fails: at the latest, [$] holds at the end. *)
Lemma lazy_content_total s : is_Some (lazy_content s).
Proof.
  induction s as [|a s [[c r] IH]]; [by eexists|].
  change (lazy_content (String a s))
    with (if lookahead (String a s) then Some ("", String a s)
          else match lazy_content s with
               | Some (content, r) => Some (String a content, r)
               | None => None
               end).
  rewrite IH. destruct (lookahead _); by eexists.
Qed.

Lemma lazy_content_length s c r :
  lazy_content s = Some (c, r) -> String.length r <= String.length s.
Proof.
  revert c r. induction s as [|a s IH]; intros c r.
  - simpl. by intros [= <- <-].
  - change (lazy_content (String a s))
      with (if lookahead (String a s) then Some ("", String a s)
            else match lazy_content s with
                 | Some (content, r) => Some (String a content, r)
                 | None => None
                 end).
    destruct (lookahead _); [by intros [= <- <-]|].
    destruct (lazy_content s) as [[c' r']|] eqn:Hs; [|done].
    intros [= <- <-]. specialize (IH _ _ eq_refl). simpl. lia.
Qed.

(** The first group stops at the first [}]. *)
Lemma lazy_style_stop st c rest :
  has_char "}" st = false -> has_char "{" c = false ->
  lazy_style (st +:+ String "}" (c +:+ String "{" rest))
  = Some (st, c, String "{" rest).
Proof.
  intros Hst Hc. induction st as [|a st IH].
  - rewrite str_app_nil_l. simpl. by rewrite lazy_content_stop.
  - simpl in Hst. apply orb_false_iff in Hst as [Ha Hst].
    rewrite str_app_cons. simpl. rewrite Ha. by rewrite IH.
Qed.

Lemma lazy_style_none s : has_char "}" s = false -> lazy_style s = None.
Proof.
  induction s as [|a s IH]; simpl; [done|].
  intros [Ha Hs]%orb_false_iff. by rewrite Ha, IH.
Qed.

Lemma lazy_style_length s st c r :
  lazy_style s = Some (st, c, r) -> String.length r < String.length s.
Proof.
  revert st c r. induction s as [|a s IH]; intros st c r; simpl; [done|].
  destruct (if Ascii.eqb a "}" then lazy_content s else None)
    as [[c' r']|] eqn:Hhere.
  - intros [= <- <- <-]. destruct (Ascii.eqb a "}"); [|done].
    apply lazy_content_length in Hhere. lia.
  - destruct (lazy_style s) as [[[st' c'] r']|] eqn:Hs; [|done].
    intros [= <- <- <-]. specialize (IH _ _ _ eq_refl). lia.
Qed.

Lemma match_here_length s st c r :
  match_here s = Some (st, c, r) -> String.length r < String.length s.
Proof.
  destruct s as [|a s]; [done|]. unfold match_here.
  destruct (Ascii.eqb_spec a "{") as [->|Hne].
  - intros ?%lazy_style_length. simpl. lia.
  - by destruct a as [[] [] [] [] [] [] [] []].
Qed.

Lemma match_here_other a s : a <> "{"%char -> match_here (String a s) = None.
Proof. by destruct a as [[] [] [] [] [] [] [] []]. Qed.

(** Enough fuel: the scan of [s] takes at most [length s + 1] turns, and
    more fuel does not change its result. *)
Lemma findall_fuel_enough s fuel :
  String.length s < fuel -> findall_fuel fuel s = findall s.
Proof.
  unfold findall. remember (String.length s) as n eqn:Hn.
  assert (String.length s <= n) as Hle by lia. clear Hn.
  revert s fuel Hle. induction n as [|n IH]; intros s fuel Hle Hfuel.
  - destruct s; [|simpl in Hle; lia]. destruct fuel; [lia|]. done.
  - destruct fuel as [|fuel]; [lia|]. simpl.
    destruct (match_here s) as [[[st c] r]|] eqn:Hm.
    + apply match_here_length in Hm.
      by rewrite (IH r fuel) by lia.
    + destruct s as [|a s]; [done|]. simpl in Hle.
      by rewrite (IH s fuel) by lia.
Qed.

Lemma findall_unfold s :
  findall s =
    match match_here s with
    | Some (style, content, rest) => (style, content) :: findall rest
    | None => match s with "" => [] | String _ s' => findall s' end
    end.
Proof.
  unfold findall at 1. simpl.
  destruct (match_here s) as [[[st c] r]|] eqn:Hm.
  - apply match_here_length in Hm. by rewrite findall_fuel_enough by lia.
  - destruct s as [|a s]; [done|]. by rewrite findall_fuel_enough by (simpl; lia).
Qed.

Lemma findall_no_close s : has_char "}" s = false -> findall s = [].
Proof.
  induction s as [|a s IH]; [done|].
  intros Hs. rewrite findall_unfold.
  assert (match_here (String a s) = None) as ->.
  { destruct (Ascii.eqb_spec a "{") as [->|Hne]; [|by apply match_here_other].
    simpl. apply lazy_style_none. by simpl in Hs. }
  apply IH. simpl in Hs. by apply orb_false_iff in Hs as [_ ?].
Qed.

Lemma findall_skip pre s :
  has_char "{" pre = false -> findall (pre +:+ s) = findall s.
Proof.
  induction pre as [|a pre IH]; [done|]. simpl.
  intros [Ha Hpre]%orb_false_iff. rewrite str_app_cons, findall_unfold.
  rewrite match_here_other by by apply Ascii.eqb_neq. auto.
Qed.

End RegexFacts.

(** ** The segmenter on marked texts *)

Section SegmenterFacts.

Lemma render_tail_brace ms junk :
  tail_ok junk -> exists r, render ms +:+ junk +:+ "{" = String "{" r.
Proof.
  intros [_ Hjunk]. destruct ms as [|[st c] ms]; simpl.
  - destruct Hjunk as [->|[j ->]]; by eexists.
  - by eexists.
Qed.

Lemma findall_render ms junk :
  Forall marker_ok ms -> tail_ok junk ->
  findall (render ms +:+ junk +:+ "{") = ms.
Proof.
  intros Hms Hjunk. induction Hms as [|[st c] ms [Hst Hc] Hms IH]; simpl.
  - apply findall_no_close. rewrite str_app_nil_l, has_char_app.
    destruct Hjunk as [-> _]. done.
  - destruct (render_tail_brace ms junk Hjunk) as [r Hr].
    rewrite !str_app_assoc, str_app_cons, str_app_nil_l.
    change ("}" +:+ ?s) with (String "}" s).
    rewrite findall_unfold. simpl in Hst, Hc. simpl match_here.
    rewrite Hr, (lazy_style_stop st c r Hst Hc), <- Hr. by rewrite IH.
Qed.

Lemma findall_marked text pre ms junk :
  marked text pre ms junk -> findall (text +:+ "{") = ms.
Proof.
  intros [-> Hpre Hms Hjunk]. rewrite !str_app_assoc.
  rewrite findall_skip by done. by apply findall_render.
Qed.

Lemma findall_no_marker text : no_marker text -> findall (text +:+ "{") = [].
Proof.
  induction text as [|a text IH]; intros Hno.
  - by apply findall_no_close.
  - assert (no_marker text) as Hno'.
    { intros x b c ->. by apply (Hno (String a x) b c). }
    rewrite str_app_cons, findall_unfold.
    destruct (Ascii.eqb_spec a "{") as [->|Hne].
    + assert (has_char "}" text = false) as Hclose.
      { destruct (has_char "}" text) eqn:Hc; [|done].
        apply has_char_split in Hc as (b & c & -> & _).
        by destruct (Hno "" b c). }
      simpl match_here. rewrite lazy_style_none; [by apply IH|].
      by rewrite has_char_app, Hclose.
    + rewrite match_here_other by done. by apply IH.
Qed.

Lemma truthy_ne s : truthy s = true <-> s <> "".
Proof. by destruct s. Qed.

(** The loop keeps, in order, the trimmed matches with some content. *)
Lemma fold_keep_segment ms acc :
  fold_left keep_segment ms acc = acc ++ kept ms.
Proof.
  revert acc. induction ms as [|[st c] ms IH]; intros acc; simpl.
  - by rewrite app_nil_r.
  - rewrite IH. unfold kept. rewrite fmap_cons, filter_cons.
    change (trimmed (st, c)) with (strip st, strip c). simpl.
    destruct (strip c) eqn:Hc; simpl; [done|]. by rewrite <- app_assoc.
Qed.

Lemma parse_style_segments_marked text pre ms junk :
  marked text pre ms junk ->
  parse_style_segments text =
    match kept ms with
    | [] => if truthy (strip text) then [("default", strip text)] else []
    | segs => segs
    end.
Proof.
  intros Hm. unfold parse_style_segments.
  rewrite (findall_marked _ _ _ _ Hm), fold_keep_segment. simpl.
  destruct (kept ms); [|done]. simpl. by destruct (truthy _).
Qed.

Lemma parse_style_segments_no_marker text :
  no_marker text ->
  parse_style_segments text =
    if truthy (strip text) then [("default", strip text)] else [].
Proof.
  intros Hno. unfold parse_style_segments.
  rewrite (findall_no_marker _ Hno). simpl. by destruct (truthy _).
Qed.

(** A text without [{] has no marker; white space is such a text. *)
Lemma no_brace_no_marker text : has_char "{" text = false -> no_marker text.
Proof.
  intros Hb a b c ->. rewrite has_char_app in Hb. simpl in Hb.
  by rewrite orb_true_r in Hb.
Qed.

Lemma kept_app ms1 ms2 : kept (ms1 ++ ms2) = kept ms1 ++ kept ms2.
Proof. unfold kept. by rewrite fmap_app, filter_app. Qed.

Lemma kept_blank st ws : strip ws = "" -> kept [(st, ws)] = [].
Proof.
  intros Hws. unfold kept. simpl. rewrite filter_cons. simpl.
  by rewrite decide_False by naive_solver.
Qed.

End SegmenterFacts.

(** ** Every text is a marked text *)

Section Decomposition.

Lemma has_marker_false text : has_marker text = false -> no_marker text.
Proof.
  intros Hm a b c ->. induction a as [|x a IH].
  - rewrite str_app_nil_l, str_app_cons, str_app_nil_l in Hm.
    simpl in Hm. rewrite has_char_app, has_char_app in Hm. simpl in Hm.
    by rewrite orb_true_r in Hm.
  - rewrite str_app_cons in Hm. simpl in Hm.
    apply orb_false_iff in Hm as [_ Hm]. auto.
Qed.

Lemma has_marker_true text :
  has_marker text = true -> exists a b c, text = a +:+ "{" +:+ b +:+ "}" +:+ c.
Proof.
  induction text as [|x text IH]; simpl; [done|].
  intros [[Hx Hc]%andb_true_iff|Hm]%orb_true_iff.
  - apply Ascii.eqb_eq in Hx as ->.
    apply has_char_split in Hc as (b & c & -> & _). by exists "", b, c.
  - destruct (IH Hm) as (a & b & c & ->). by exists (String x a), b, c.
Qed.

Lemma split_at_brace s :
  exists c r, s = c +:+ r /\ has_char "{" c = false
              /\ (r = "" \/ exists j, r = String "{" j).
Proof.
  induction s as [|a s (c & r & -> & Hc & Hr)].
  - exists "", "". auto.
  - destruct (Ascii.eqb_spec a "{") as [->|Hne].
    + exists "", (String "{" (c +:+ r)). eauto.
    + exists (String a c), r. split; [done|]. split; [|done].
      simpl. rewrite Hc. by apply Ascii.eqb_neq in Hne as ->.
Qed.

Lemma markers_exist n r :
  String.length r <= n -> (r = "" \/ exists j, r = String "{" j) ->
  exists ms junk, r = render ms +:+ junk /\ Forall marker_ok ms /\ tail_ok junk.
Proof.
  revert r. induction n as [|n IH]; intros r Hlen [->|[j ->]].
  - exists [], "". repeat split; auto.
  - simpl in Hlen. lia.
  - exists [], "". repeat split; auto.
  - destruct (has_char "}" j) eqn:Hj.
    + apply has_char_split in Hj as (st & rest & -> & Hst).
      destruct (split_at_brace rest) as (c & r2 & -> & Hc & Hr2).
      destruct (IH r2) as (ms & junk & -> & Hms & Hjunk); [|done|].
      { simpl in Hlen. rewrite !str_app_length in Hlen. simpl in Hlen.
        rewrite str_app_length in Hlen. lia. }
      exists ((st, c) :: ms), junk. split; [|split; [|done]].
      * simpl. by rewrite !str_app_assoc.
      * by constructor.
    + exists [], (String "{" j). repeat split; eauto.
Qed.

Lemma marked_exists text : exists pre ms junk, marked text pre ms junk.
Proof.
  destruct (split_at_brace text) as (pre & r & -> & Hpre & Hr).
  destruct (markers_exist _ r (le_n _) Hr) as (ms & junk & -> & Hms & Hjunk).
  by exists pre, ms, junk.
Qed.

(** A marked text has a marker exactly when its list of markers is not
    empty. *)
Lemma marked_has_marker text pre ms junk :
  marked text pre ms junk -> has_marker text = true <-> ms <> [].
Proof.
  intros Hm. split.
  - intros (a & b & c & Heq)%has_marker_true ->.
    destruct Hm as [-> Hpre _ [Hjunk _]]. simpl in Heq.
    assert (has_marker (pre +:+ junk) = false) as Hno; [|].
    { clear Heq. induction pre as [|x pre IH]; simpl.
      - rewrite str_app_nil_l. clear Hpre.
        induction junk as [|y junk IH]; simpl; [done|].
        simpl in Hjunk. apply orb_false_iff in Hjunk as [_ Hjunk].
        rewrite Hjunk, andb_false_r. simpl. auto.
      - simpl in Hpre. apply orb_false_iff in Hpre as [-> Hpre]. simpl. auto. }
    rewrite str_app_nil_l in Heq. by apply (has_marker_false _ Hno a b c).
  - intros Hne. destruct (has_marker text) eqn:Hno; [done|].
    apply has_marker_false, findall_no_marker in Hno.
    rewrite (findall_marked _ _ _ _ Hm) in Hno. done.
Qed.

End Decomposition.

(** ** Properties of the segmenter *)

Section SegmenterClaims.

(** C4, as stated, fails.  The text ["{A}{B} text"] has two markers, and
    the scan finds both, but the segmenter returns one segment only: the
    returned list is not the list of the trimmed matches.  And in
    ["{A} x { y"] the content of the marker stops at a [{] that opens no
    marker, not at the end of the text. *)
Lemma parse_style_segments_not_one_per_marker :
  findall ("{A}{B} text" +:+ "{") = [("A", ""); ("B", " text")]
  /\ parse_style_segments "{A}{B} text"
     <> trimmed <$> findall ("{A}{B} text" +:+ "{")
  /\ parse_style_segments "{A} x { y" = [("A", "x")].
Proof. split; [by vm_compute|]. split; [|by vm_compute]. vm_compute. discriminate. Qed.

(** C4, amended.  Every input text reads as a prefix without [{], markers
    [{style}] each followed by its content up to the next [{] or the end of
    the text, and a tail that is empty or starts at a [{] that is never
    closed.  The scan finds these markers in textual order, and, when some
    marker has content left after trimming, [parse_style_segments] returns
    one segment per marker whose trimmed content is not empty, in textual
    order, with style name and content trimmed.  In particular
    ["{A} hello {B} world"] gives [("A","hello"); ("B","world")]. *)
Theorem parse_style_segments_markers :
  (forall text, exists pre ms junk, marked text pre ms junk)
  /\ (forall text pre ms junk,
        marked text pre ms junk -> kept ms <> [] ->
        findall (text +:+ "{") = ms /\ parse_style_segments text = kept ms)
  /\ parse_style_segments "{A} hello {B} world"
     = [("A", "hello"); ("B", "world")].
Proof.
  split; [apply marked_exists|]. split; [|by vm_compute].
  intros text pre ms junk Hm Hk. split; [by eapply findall_marked|].
  rewrite (parse_style_segments_marked _ _ _ _ Hm). by destruct (kept ms).
Qed.

Lemma parse_style_segments_markers_witness :
  marked "intro {A} hello {B} world" "intro " [("A", " hello "); ("B", " world")] ""
  /\ kept [("A", " hello "); ("B", " world")] <> []
  /\ parse_style_segments "intro {A} hello {B} world"
     = [("A", "hello"); ("B", "world")].
Proof.
  assert (marked "intro {A} hello {B} world" "intro "
            [("A", " hello "); ("B", " world")] "") as Hm.
  { split; [reflexivity|reflexivity| |split; [reflexivity|by left]].
    repeat constructor. }
  assert (kept [("A", " hello "); ("B", " world")] <> []) as Hk.
  { vm_compute. discriminate. }
  split; [exact Hm|]. split; [exact Hk|].
  exact (proj2 (proj1 (proj2 parse_style_segments_markers) _ _ _ _ Hm Hk)).
Defined.

(** C6.  A text without marker and with non-blank content gives the single
    segment [("default", text.strip())]; in particular
    ["no markers here"] gives [("default","no markers here")]; an empty or
    blank text gives no segment. *)
Theorem parse_style_segments_default :
  (forall text,
      has_marker text = false -> strip text <> "" ->
      parse_style_segments text = [("default", strip text)])
  /\ parse_style_segments "no markers here" = [("default", "no markers here")]
  /\ (forall text, strip text = "" -> parse_style_segments text = []).
Proof.
  split; [|split; [by vm_compute|]].
  - intros text Hno%has_marker_false Hs.
    rewrite (parse_style_segments_no_marker _ Hno).
    by apply truthy_ne in Hs as ->.
  - intros text Hs.
    rewrite parse_style_segments_no_marker, Hs; [done|].
    apply no_brace_no_marker, all_space_has_char; [done|].
    by apply strip_empty.
Qed.

Lemma parse_style_segments_default_witness :
  parse_style_segments "  plain text, } and { too " =
    [("default", "plain text, } and { too")]
  /\ parse_style_segments "  " = [].
Proof.
  split.
  - apply (proj1 parse_style_segments_default "  plain text, } and { too ");
      [reflexivity|vm_compute; discriminate].
  - apply (proj2 (proj2 parse_style_segments_default) "  "). reflexivity.
Defined.

(** C7.  A marker whose content, up to the next marker, is empty or blank
    yields no segment: the loop keeps what the other markers give, and so
    does the result; in particular ["{A}{B} text"] gives [("B","text")]. *)
Theorem parse_style_segments_blank_marker :
  (forall text pre ms1 st ws ms2 junk,
      marked text pre (ms1 ++ (st, ws) :: ms2) junk -> strip ws = "" ->
      fold_left keep_segment (findall (text +:+ "{")) [] = kept (ms1 ++ ms2)
      /\ parse_style_segments text =
           match kept (ms1 ++ ms2) with
           | [] => if truthy (strip text) then [("default", strip text)] else []
           | segs => segs
           end)
  /\ parse_style_segments "{A}{B} text" = [("B", "text")].
Proof.
  split; [|by vm_compute].
  intros text pre ms1 st ws ms2 junk Hm Hws.
  assert (kept (ms1 ++ (st, ws) :: ms2) = kept (ms1 ++ ms2)) as Hk.
  { change ((st, ws) :: ms2) with ([(st, ws)] ++ ms2).
    by rewrite !kept_app, kept_blank. }
  split.
  - by rewrite (findall_marked _ _ _ _ Hm), fold_keep_segment, Hk.
  - by rewrite (parse_style_segments_marked _ _ _ _ Hm), Hk.
Qed.

Lemma parse_style_segments_blank_marker_witness :
  marked "{A} x {B}  {C} y" "" ([("A", " x ")] ++ ("B", "  ") :: [("C", " y")]) ""
  /\ strip "  " = ""
  /\ parse_style_segments "{A} x {B}  {C} y" = [("A", "x"); ("C", "y")].
Proof.
  assert (marked "{A} x {B}  {C} y" ""
            ([("A", " x ")] ++ ("B", "  ") :: [("C", " y")]) "") as Hm.
  { split; [reflexivity|reflexivity| |split; [reflexivity|by left]].
    repeat constructor. }
  split; [exact Hm|]. split; [reflexivity|].
  exact (proj2 (proj1 parse_style_segments_blank_marker _ _ _ _ _ _ _ Hm eq_refl)).
Defined.

(** C8 fails on the code.  The text ["intro {A}"] has a marker, its only
    marker has no content, and the text before the marker comes back in
    a ["default"] segment. *)
Theorem parse_style_segments_prefix_kept :
  has_marker "intro {A}" = true
  /\ findall ("intro {A}" +:+ "{") = [("A", "")]
  /\ parse_style_segments "intro {A}" = [("default", "intro {A}")].
Proof. by vm_compute. Qed.

(** When some marker has content, the text before the first marker is in
    no segment: the result does not depend on it. *)
Lemma parse_style_segments_prefix_dropped pre pre' ms junk :
  has_char "{" pre = false -> has_char "{" pre' = false ->
  Forall marker_ok ms -> tail_ok junk -> kept ms <> [] ->
  parse_style_segments (pre +:+ render ms +:+ junk)
  = parse_style_segments (pre' +:+ render ms +:+ junk).
Proof.
  intros Hpre Hpre' Hms Hjunk Hk.
  rewrite (parse_style_segments_marked _ pre ms junk) by done.
  rewrite (parse_style_segments_marked _ pre' ms junk) by done.
  by destruct (kept ms).
Qed.

End SegmenterClaims.

(** ** Dictionaries *)

Section DictFacts.
Context {V : Type}.
Implicit Types (d : dict V) (k : string) (v : V).

Lemma dict_mem_true k d : dict_mem k d = true <-> is_Some (dict_get k d).
Proof. unfold dict_mem. destruct (dict_get k d); split; by try inversion 1. Qed.

Lemma dict_mem_false k d : dict_mem k d = false <-> dict_get k d = None.
Proof. unfold dict_mem. by destruct (dict_get k d). Qed.

Lemma dict_index_get k d v : dict_get k d = Some v -> dict_index k d = Ok v.
Proof. unfold dict_index. by intros ->. Qed.

Lemma dict_get_set_eq k v d : dict_get k (dict_set k v d) = Some v.
Proof.
  induction d as [|[k' v'] d IH]; simpl.
  - by rewrite decide_True.
  - destruct (decide (k' = k)) as [->|Hne]; simpl.
    + by rewrite decide_True.
    + by rewrite decide_False.
Qed.

Lemma dict_get_set_ne k k' v d :
  k <> k' -> dict_get k' (dict_set k v d) = dict_get k' d.
Proof.
  intros Hne. induction d as [|[k0 v0] d IH]; simpl.
  - by rewrite decide_False.
  - destruct (decide (k0 = k)) as [->|Hk0]; simpl.
    + by rewrite !decide_False.
    + by rewrite IH.
Qed.

Lemma dict_get_keys k d : dict_get k d = None <-> k ∉ dict_keys d.
Proof.
  induction d as [|[k' v'] d IH]; simpl.
  - split; [intros _; apply not_elem_of_nil|done].
  - rewrite not_elem_of_cons. destruct (decide (k' = k)) as [->|Hne].
    + split; [done|]. by intros [? _].
    + rewrite IH. split; [by split|by intros [_ ?]].
Qed.

(** A new key goes to the end. *)
Lemma dict_set_absent k v d :
  dict_get k d = None -> dict_set k v d = d ++ [(k, v)].
Proof.
  induction d as [|[k' v'] d IH]; simpl; [done|].
  destruct (decide (k' = k)); [done|]. by intros ->%IH.
Qed.

(** A key that is present keeps its place. *)
Lemma dict_keys_set_present k v d :
  is_Some (dict_get k d) -> dict_keys (dict_set k v d) = dict_keys d.
Proof.
  induction d as [|[k' v'] d IH]; simpl; [by intros [? ?]|].
  destruct (decide (k' = k)); simpl; [done|]. by intros ->%IH.
Qed.

Lemma dict_keys_set k v d :
  dict_keys (dict_set k v d)
  = if dict_mem k d then dict_keys d else dict_keys d ++ [k].
Proof.
  destruct (dict_mem k d) eqn:Hm.
  - by apply dict_keys_set_present, dict_mem_true.
  - apply dict_mem_false in Hm. rewrite dict_set_absent by done.
    unfold dict_keys. by rewrite map_app.
Qed.

Lemma dict_wf_set k v d : dict_wf d -> dict_wf (dict_set k v d).
Proof.
  unfold dict_wf. rewrite dict_keys_set. destruct (dict_mem k d) eqn:Hm; [done|].
  intros Hd. apply NoDup_app. split; [done|]. split; [|apply NoDup_singleton].
  intros x Hx ->%list_elem_of_singleton.
  apply dict_mem_false, dict_get_keys in Hm. done.
Qed.

Lemma dict_entries_absent k d : k ∉ dict_keys d -> dict_entries k d = [].
Proof.
  unfold dict_entries. induction d as [|[k' v'] d IH]; [done|].
  simpl dict_keys. rewrite not_elem_of_cons. intros [Hne Hk].
  rewrite filter_cons. simpl. rewrite decide_False by done. auto.
Qed.

(** After [d[k] = v] the dictionary holds one entry under [k]: [v]. *)
Lemma dict_entries_set k v d :
  dict_wf d -> dict_entries k (dict_set k v d) = [(k, v)].
Proof.
  unfold dict_wf, dict_entries. induction d as [|[k' v'] d IH].
  - intros _. simpl dict_set. rewrite filter_cons. simpl.
    by rewrite decide_True.
  - simpl dict_keys. intros [Hk' Hd]%NoDup_cons. simpl dict_set.
    destruct (decide (k' = k)) as [->|Hne].
    + rewrite filter_cons. simpl. rewrite decide_True by done.
      f_equal. by apply dict_entries_absent.
    + rewrite filter_cons. simpl. rewrite decide_False by done. auto.
Qed.

Lemma dict_set_set k v v' d : dict_set k v' (dict_set k v d) = dict_set k v' d.
Proof.
  induction d as [|[k0 v0] d IH]; simpl.
  - by rewrite decide_True.
  - destruct (decide (k0 = k)) as [->|Hne]; simpl.
    + by rewrite decide_True.
    + by rewrite decide_False, IH.
Qed.

End DictFacts.

(** ** The profile store *)

(** Unfolds the sequencing of statements. *)
Ltac io_unfold :=
  unfold mbind, mret, io_bind, io_ret, result_bind, result_ret,
    read, lift, mkdir, json_dump, torchaudio_save, sf_write, write_file,
    set_profile, set_current_profile, profile_at, outputs_of.

Section StoreFacts.

Implicit Types (w : world) (now : struct_time) (p : Profile).

Lemma dict_mem_some {V} k (d : dict V) v : dict_get k d = Some v -> dict_mem k d = true.
Proof. intros H. apply dict_mem_true. by eexists. Qed.

Lemma dict_mem_none {V} k (d : dict V) : dict_get k d = None -> dict_mem k d = false.
Proof. apply dict_mem_false. Qed.

(** *** What each call does to the world *)

Lemma create_profile_known w now name description :
  dict_mem name (profiles w) = true ->
  create_profile now name description w
  = (Ok ("Profile '" +:+ name +:+ "' already exists."), w).
Proof. intros Hmem. unfold create_profile. io_unfold. by rewrite Hmem. Qed.

Lemma create_profile_new w now name description :
  dict_mem name (profiles w) = false ->
  let profile_dir := profiles_dir w </> name in
  let data := mk_profile name description (strftime_iso now) [] [] None in
  create_profile now name description w
  = (Ok ("Profile '" +:+ name +:+ "' created successfully."),
     mk_world (profiles_dir w) (Some name) (profiles w ++ [(name, data)])
       ({[ profile_dir </> "outputs" ]} ∪ ({[ profile_dir </> "samples" ]}
          ∪ ({[ profile_dir ]} ∪ dirs w)))
       (<[ profile_dir </> "profile.json" := Manifest data ]> (files w))).
Proof.
  intros Hmem. unfold create_profile. io_unfold. rewrite Hmem. simpl.
  by rewrite dict_set_absent by by apply dict_mem_false.
Qed.

Lemma add_sample_unknown w now profile_name sample_name audio_path transcription :
  dict_get profile_name (profiles w) = None ->
  add_sample now profile_name sample_name audio_path transcription w
  = (Ok ("Profile '" +:+ profile_name +:+ "' does not exist."), w).
Proof.
  intros Hp. unfold add_sample. io_unfold. by rewrite (dict_mem_none _ _ Hp).
Qed.

Lemma add_sample_known w now profile_name sample_name audio_path transcription p :
  dict_get profile_name (profiles w) = Some p ->
  let sample_file :=
    profiles_dir w </> profile_name </> "samples"
    </> (replace " " "_" sample_name +:+ splitext_ext audio_path) in
  let entry := mk_sample sample_file transcription (strftime_iso now) in
  let p' := with_samples (dict_set sample_name entry (samples p)) p in
  add_sample now profile_name sample_name audio_path transcription w
  = match files w !! audio_path with
    | Some (Wav audio sr) =>
        (Ok ("Sample '" +:+ sample_name +:+ "' added to profile '"
             +:+ profile_name +:+ "'."),
         mk_world (profiles_dir w) (current_profile w)
           (dict_set profile_name p' (profiles w)) (dirs w)
           (<[ manifest_path w profile_name := Manifest p' ]>
              (<[ sample_file := Wav audio sr ]> (files w))))
    | _ => (Raise (RuntimeError ("Failed to open the input " +:+ audio_path)), w)
    end.
Proof.
  intros Hp. unfold add_sample. io_unfold.
  rewrite (dict_mem_some _ _ _ Hp). simpl. unfold torchaudio_load.
  destruct (files w !! audio_path) as [[|audio sr]|]; try done. simpl.
  rewrite (dict_index_get _ _ _ Hp). unfold dict_index.
  by rewrite dict_get_set_eq.
Qed.

Lemma add_style_unknown w now profile_name style_name sample_name :
  dict_get profile_name (profiles w) = None ->
  add_style now profile_name style_name sample_name w
  = (Ok ("Profile '" +:+ profile_name +:+ "' does not exist."), w).
Proof.
  intros Hp. unfold add_style. io_unfold. by rewrite (dict_mem_none _ _ Hp).
Qed.

Lemma add_style_no_sample w now profile_name style_name sample_name p :
  dict_get profile_name (profiles w) = Some p ->
  dict_get sample_name (samples p) = None ->
  add_style now profile_name style_name sample_name w
  = (Ok ("Sample '" +:+ sample_name +:+ "' does not exist in profile '"
         +:+ profile_name +:+ "'."), w).
Proof.
  intros Hp Hs. unfold add_style. io_unfold.
  rewrite (dict_mem_some _ _ _ Hp). simpl. rewrite (dict_index_get _ _ _ Hp).
  by rewrite (dict_mem_none _ _ Hs).
Qed.

Lemma add_style_known w now profile_name style_name sample_name p s :
  dict_get profile_name (profiles w) = Some p ->
  dict_get sample_name (samples p) = Some s ->
  let entry := mk_style sample_name (strftime_iso now) in
  let p' := with_styles (dict_set style_name entry (styles p)) p in
  add_style now profile_name style_name sample_name w
  = (Ok ("Style '" +:+ style_name +:+ "' added to profile '"
         +:+ profile_name +:+ "'."),
     mk_world (profiles_dir w) (current_profile w)
       (dict_set profile_name p' (profiles w)) (dirs w)
       (<[ manifest_path w profile_name := Manifest p' ]> (files w))).
Proof.
  intros Hp Hs. unfold add_style. io_unfold.
  rewrite (dict_mem_some _ _ _ Hp). simpl. rewrite (dict_index_get _ _ _ Hp).
  rewrite (dict_mem_some _ _ _ Hs). simpl. rewrite (dict_index_get _ _ _ Hp).
  unfold dict_index. by rewrite dict_get_set_eq.
Qed.

Lemma save_output_unknown w now now' profile_name output_name audio sr text style :
  dict_get profile_name (profiles w) = None ->
  save_output now now' profile_name output_name audio sr text style w
  = (Ok ("Profile '" +:+ profile_name +:+ "' does not exist."), w).
Proof.
  intros Hp. unfold save_output. io_unfold. by rewrite (dict_mem_none _ _ Hp).
Qed.

Lemma save_output_known w now now' profile_name output_name audio sr text style p :
  dict_get profile_name (profiles w) = Some p ->
  let path := output_file w profile_name output_name now in
  let entry := mk_output path text style (strftime_iso now') in
  let p' := with_outputs (dict_set output_name entry (default [] (outputs p))) p in
  save_output now now' profile_name output_name audio sr text style w
  = (Ok path,
     mk_world (profiles_dir w) (current_profile w)
       (dict_set profile_name p' (profiles w)) (dirs w)
       (<[ manifest_path w profile_name := Manifest p' ]>
          (<[ path := Wav audio sr ]> (files w)))).
Proof.
  intros Hp. unfold save_output. io_unfold.
  rewrite (dict_mem_some _ _ _ Hp). simpl. rewrite (dict_index_get _ _ _ Hp).
  destruct (outputs p) as [outs|] eqn:Houts; simpl.
  - rewrite (dict_index_get _ _ _ Hp), Houts. simpl.
    unfold dict_index. by rewrite dict_get_set_eq.
  - unfold dict_index. rewrite !dict_get_set_eq. simpl.
    rewrite dict_get_set_eq. by rewrite dict_set_set.
Qed.

(** *** Timestamps *)

Lemma digit_inj a b : digit a = digit b -> a mod 10 = b mod 10.
Proof.
  unfold digit. intros H%(f_equal nat_of_ascii).
  pose proof (Nat.mod_upper_bound a 10). pose proof (Nat.mod_upper_bound b 10).
  rewrite !nat_ascii_embedding in H by lia. lia.
Qed.

Lemma pad2_inj a b : a < 100 -> b < 100 -> pad2 a = pad2 b -> a = b.
Proof.
  unfold pad2. intros Ha Hb H.
  assert (digit (a / 10) = digit (b / 10)) as H1%digit_inj by congruence.
  assert (digit a = digit b) as H2%digit_inj by congruence.
  pose proof (Nat.div_mod_eq a 10). pose proof (Nat.div_mod_eq b 10).
  assert (a / 10 < 10) by (apply Nat.Div0.div_lt_upper_bound; lia).
  assert (b / 10 < 10) by (apply Nat.Div0.div_lt_upper_bound; lia).
  rewrite !Nat.mod_small in H1 by done. lia.
Qed.

Lemma pad4_inj a b :
  a < 100 * 100 -> b < 100 * 100 -> pad4 a = pad4 b -> a = b.
Proof.
  unfold pad4, pad2. intros Ha Hb H.
  assert (digit (a / 1000) = digit (b / 1000)) as H1%digit_inj by congruence.
  assert (digit (a / 100) = digit (b / 100)) as H2%digit_inj by congruence.
  assert (digit (a / 10) = digit (b / 10)) as H3%digit_inj by congruence.
  assert (digit a = digit b) as H4%digit_inj by congruence.
  assert (forall n, n < 100 * 100 ->
            n = 1000 * ((n / 1000) mod 10) + 100 * ((n / 100) mod 10)
                + 10 * ((n / 10) mod 10) + n mod 10) as Hdigits.
  { intros n Hn.
    change 1000 with (10 * (10 * 10)) at 2. change 100 with (10 * 10) at 3.
    rewrite <- !Nat.Div0.div_div.
    assert (n / 10 / 10 / 10 < 10).
    { do 3 (apply Nat.Div0.div_lt_upper_bound). lia. }
    rewrite (Nat.mod_small (n / 10 / 10 / 10)) by done.
    pose proof (Nat.div_mod_eq n 10). pose proof (Nat.div_mod_eq (n / 10) 10).
    pose proof (Nat.div_mod_eq (n / 10 / 10) 10). lia. }
  rewrite (Hdigits a Ha), (Hdigits b Hb). congruence.
Qed.

(** Two readings in range print the same suffix only if they are the same
    second. *)
Lemma strftime_compact_inj t1 t2 :
  in_range t1 -> in_range t2 ->
  strftime_compact t1 = strftime_compact t2 -> t1 = t2.
Proof.
  destruct t1 as [y1 m1 d1 h1 mi1 s1], t2 as [y2 m2 d2 h2 mi2 s2].
  unfold in_range, strftime_compact. simpl.
  intros (Hy1 & Hm1 & Hd1 & Hh1 & Hmi1 & Hs1) (Hy2 & Hm2 & Hd2 & Hh2 & Hmi2 & Hs2).
  intros H.
  assert (pad4 y1 = pad4 y2 /\ pad2 m1 = pad2 m2 /\ pad2 d1 = pad2 d2
          /\ pad2 h1 = pad2 h2 /\ pad2 mi1 = pad2 mi2 /\ pad2 s1 = pad2 s2)
    as (Hy & Hm & Hd & Hh & Hmi & Hs).
  { unfold pad4, pad2 in *. rewrite !str_app_cons, !str_app_nil_l in H.
    repeat split; congruence. }
  apply pad4_inj in Hy; [|done..]. apply pad2_inj in Hm; [|done..].
  apply pad2_inj in Hd; [|done..]. apply pad2_inj in Hh; [|done..].
  apply pad2_inj in Hmi; [|done..]. apply pad2_inj in Hs; [|done..].
  by subst.
Qed.

(** *** Paths *)

Lemma str_app_inv_tail s1 s2 t : s1 +:+ t = s2 +:+ t -> s1 = s2.
Proof.
  revert s2. induction s1 as [|a s1 IH]; intros [|b s2] Heq; [done| | |].
  - apply (f_equal String.length) in Heq.
    rewrite str_app_nil_l, str_app_length in Heq. simpl in Heq. lia.
  - apply (f_equal String.length) in Heq.
    rewrite str_app_nil_l, str_app_length in Heq. simpl in Heq. lia.
  - rewrite !str_app_cons in Heq. injection Heq as -> Heq. f_equal. auto.
Qed.

Lemma joinpath_inj a b c : a </> b = a </> c -> b = c.
Proof.
  unfold joinpath. intros H%String.app_inj. rewrite !str_app_cons in H.
  by injection H.
Qed.

Lemma output_filename_inj output_name now1 now2 :
  output_filename output_name now1 = output_filename output_name now2
  <-> strftime_compact now1 = strftime_compact now2.
Proof.
  unfold output_filename. split; [|by intros ->].
  generalize (strftime_compact now1) (strftime_compact now2).
  intros s1 s2 H%String.app_inj. rewrite !str_app_cons, !str_app_nil_l in H.
  injection H as H. by apply str_app_inv_tail in H.
Qed.

Lemma output_file_inj w profile_name output_name now1 now2 :
  output_file w profile_name output_name now1
  = output_file w profile_name output_name now2
  <-> strftime_compact now1 = strftime_compact now2.
Proof.
  unfold output_file. rewrite <- output_filename_inj.
  split; [apply joinpath_inj|by intros ->].
Qed.

Lemma output_file_not_manifest w profile_name output_name now :
  output_file w profile_name output_name now <> manifest_path w profile_name.
Proof.
  unfold output_file, manifest_path, joinpath. rewrite !str_app_assoc.
  intros H. do 3 apply String.app_inj in H. discriminate H.
Qed.

End StoreFacts.

(** ** Properties of the profile store *)

Section StoreClaims.

Implicit Types (w : world) (now : struct_time) (p : Profile).

(** C5.  [add_style] on an unknown profile returns the "profile does not
    exist" message, and on a known profile without the sample the "sample
    does not exist" message; either way the world (profile map with its
    style maps, directories, files and so every manifest) is left as it
    was. *)
Theorem add_style_failures w now profile_name style_name sample_name :
  (dict_get profile_name (profiles w) = None ->
   add_style now profile_name style_name sample_name w
   = (Ok ("Profile '" +:+ profile_name +:+ "' does not exist."), w))
  /\ (forall p,
        dict_get profile_name (profiles w) = Some p ->
        dict_get sample_name (samples p) = None ->
        add_style now profile_name style_name sample_name w
        = (Ok ("Sample '" +:+ sample_name +:+ "' does not exist in profile '"
               +:+ profile_name +:+ "'."), w)).
Proof.
  split; [apply add_style_unknown|].
  intros p. apply add_style_no_sample.
Qed.


(** C1, as stated, fails.  Two saves under one output name in the same
    clock second both succeed and derive the same file name; the second
    write replaces the audio of the first. *)
Lemma save_output_same_second :
  let now := mk_time 2024 1 1 12 0 0 in
  let w := after (CreateProfile now "alice" "") (fresh "voice_profiles" ∅ ∅) in
  let r1 := save_output now now "alice" "my take" [1%Z] 24000%Z "one" "calm" w in
  let r2 := save_output now now "alice" "my take" [2%Z] 24000%Z "two" "calm" r1.2 in
  r1.1 = Ok "voice_profiles/alice/outputs/my_take_20240101_120000.wav"
  /\ r2.1 = Ok "voice_profiles/alice/outputs/my_take_20240101_120000.wav"
  /\ files r1.2 !! "voice_profiles/alice/outputs/my_take_20240101_120000.wav"
     = Some (Wav [1%Z] 24000%Z)
  /\ files r2.2 !! "voice_profiles/alice/outputs/my_take_20240101_120000.wav"
     = Some (Wav [2%Z] 24000%Z).
Proof. by vm_compute. Qed.

(** C1, amended.  Two successful [save_output] calls on the same profile
    with the same output name derive distinct file names exactly when
    their timestamp suffixes differ, that is, for clock readings in range,
    when the two calls read the clock at different seconds; both files are
    then on disk.  In every case the profile's manifest, in memory and on
    disk, afterwards holds one entry under that output name, with the path,
    text, style and timestamp of the last save. *)
Theorem save_output_twice w p profile_name output_name
    now1 now1' audio1 sr1 text1 style1 now2 now2' audio2 sr2 text2 style2 :
  dict_get profile_name (profiles w) = Some p ->
  (forall outs, outputs p = Some outs -> dict_wf outs) ->
  let r1 := save_output now1 now1' profile_name output_name
              audio1 sr1 text1 style1 w in
  let r2 := save_output now2 now2' profile_name output_name
              audio2 sr2 text2 style2 r1.2 in
  let path1 := output_file w profile_name output_name now1 in
  let path2 := output_file w profile_name output_name now2 in
  r1.1 = Ok path1 /\ r2.1 = Ok path2
  /\ (path1 <> path2 <-> strftime_compact now1 <> strftime_compact now2)
  /\ (in_range now1 -> in_range now2 -> path1 <> path2 <-> now1 <> now2)
  /\ (strftime_compact now1 <> strftime_compact now2 ->
      files r2.2 !! path1 = Some (Wav audio1 sr1)
      /\ files r2.2 !! path2 = Some (Wav audio2 sr2))
  /\ exists p2 outs,
       dict_get profile_name (profiles r2.2) = Some p2
       /\ files r2.2 !! manifest_path w profile_name = Some (Manifest p2)
       /\ outputs p2 = Some outs
       /\ dict_entries output_name outs
          = [(output_name, mk_output path2 text2 style2 (strftime_iso now2'))].
Proof.
  intros Hp Hwf r1 r2 path1 path2.
  assert (path1 <> path2 <-> strftime_compact now1 <> strftime_compact now2)
    as Hpaths by (unfold path1, path2; by rewrite output_file_inj).
  subst r1 r2. rewrite (save_output_known _ _ _ _ _ _ _ _ _ _ Hp). simpl.
  set (p1 := with_outputs _ p).
  rewrite (save_output_known _ _ _ _ _ _ _ _ _ p1)
    by (simpl; apply dict_get_set_eq).
  simpl. fold path1 path2. unfold manifest_path. simpl.
  fold (manifest_path w profile_name).
  split; [done|]. split; [done|]. split; [done|]. split; [|split].
  - intros Hr1 Hr2. rewrite Hpaths. split.
    + intros Hne ->. done.
    + intros Hne Heq. by apply Hne, strftime_compact_inj.
  - intros Hne%Hpaths. split.
    + rewrite lookup_insert_ne by apply not_eq_sym, output_file_not_manifest.
      rewrite lookup_insert_ne by done.
      rewrite lookup_insert_ne by apply not_eq_sym, output_file_not_manifest.
      by rewrite lookup_insert_eq.
    + rewrite lookup_insert_ne by apply not_eq_sym, output_file_not_manifest.
      by rewrite lookup_insert_eq.
  - eexists _, _. split; [apply dict_get_set_eq|].
    split; [by rewrite lookup_insert_eq|]. split; [done|].
    apply dict_entries_set. simpl. apply dict_wf_set.
    destruct (outputs p) as [outs|] eqn:Houts; simpl; [by apply Hwf|].
    apply NoDup_nil_2.
Qed.

End StoreClaims.

(** ** Invariants of the store *)

(** A property of profiles that each update keeps holds of every profile
    in every world reached from a fresh manager. *)
Section Invariant.

Variable P : Profile -> Prop.

Hypothesis P_created : forall name description created,
  P (mk_profile name description created [] [] None).
Hypothesis P_add_sample : forall p sample_name entry,
  P p -> P (with_samples (dict_set sample_name entry (samples p)) p).
Hypothesis P_add_style : forall p style_name sample_name added s,
  P p -> dict_get sample_name (samples p) = Some s ->
  P (with_styles (dict_set style_name (mk_style sample_name added) (styles p)) p).
Hypothesis P_save_output : forall p output_name entry,
  P p ->
  P (with_outputs (dict_set output_name entry (default [] (outputs p))) p).

Implicit Types (w : world) (now : struct_time) (p : Profile).

Lemma every_profile_fresh root ds fs : every_profile P (fresh root ds fs).
Proof. intros profile_name p. by simpl. Qed.

(** Replacing or adding a profile that satisfies the property keeps it. *)
Lemma every_profile_set w k p' cur ds fs :
  every_profile P w -> P p' ->
  every_profile P
    (mk_world (profiles_dir w) cur (dict_set k p' (profiles w)) ds fs).
Proof.
  intros Hw Hp' profile_name p. simpl.
  destruct (decide (k = profile_name)) as [->|Hne].
  - rewrite dict_get_set_eq. by intros [= <-].
  - rewrite dict_get_set_ne by done. apply Hw.
Qed.

Lemma create_profile_keeps w now name description :
  every_profile P w ->
  every_profile P (create_profile now name description w).2.
Proof.
  intros Hw. destruct (dict_mem name (profiles w)) eqn:Hmem.
  - by rewrite create_profile_known.
  - rewrite create_profile_new by done. simpl.
    rewrite <- dict_set_absent by by apply dict_mem_false.
    by apply every_profile_set.
Qed.

Lemma add_sample_keeps w now profile_name sample_name audio_path tr :
  every_profile P w ->
  every_profile P (add_sample now profile_name sample_name audio_path tr w).2.
Proof.
  intros Hw. destruct (dict_get profile_name (profiles w)) as [p|] eqn:Hp.
  - rewrite (add_sample_known _ _ _ _ _ _ _ Hp).
    destruct (files w !! audio_path) as [[|audio sr]|]; try done. simpl.
    apply every_profile_set; [done|]. apply P_add_sample. by eapply Hw.
  - by rewrite add_sample_unknown.
Qed.

Lemma add_style_keeps w now profile_name style_name sample_name :
  every_profile P w ->
  every_profile P (add_style now profile_name style_name sample_name w).2.
Proof.
  intros Hw. destruct (dict_get profile_name (profiles w)) as [p|] eqn:Hp.
  - destruct (dict_get sample_name (samples p)) as [s|] eqn:Hs.
    + rewrite (add_style_known _ _ _ _ _ _ _ Hp Hs). simpl.
      apply every_profile_set; [done|].
      eapply P_add_style; [by eapply Hw|done].
    + by rewrite (add_style_no_sample _ _ _ _ _ _ Hp Hs).
  - by rewrite add_style_unknown.
Qed.

Lemma save_output_keeps w now now' profile_name output_name audio sr text style :
  every_profile P w ->
  every_profile P
    (save_output now now' profile_name output_name audio sr text style w).2.
Proof.
  intros Hw. destruct (dict_get profile_name (profiles w)) as [p|] eqn:Hp.
  - rewrite (save_output_known _ _ _ _ _ _ _ _ _ _ Hp). simpl.
    apply every_profile_set; [done|]. apply P_save_output. by eapply Hw.
  - by rewrite save_output_unknown.
Qed.

(** Every call keeps the property. *)
Lemma after_keeps o w : every_profile P w -> every_profile P (after o w).
Proof.
  destruct o; unfold after; simpl.
  - apply create_profile_keeps.
  - apply add_sample_keeps.
  - apply add_style_keeps.
  - apply save_output_keeps.
Qed.

Lemma reachable_every_profile w : reachable w -> every_profile P w.
Proof.
  induction 1 as [root ds fs|o w _ IH].
  - apply every_profile_fresh.
  - by apply after_keeps.
Qed.

End Invariant.

(** ** Styles refer to samples *)

Section StyleInvariant.

Implicit Types (w : world) (p : Profile).

Lemma style_refs_created name description created :
  style_refs_ok (mk_profile name description created [] [] None).
Proof. intros style_name st. by simpl. Qed.

(** [add_sample] adds or replaces a sample key and removes none. *)
Lemma style_refs_add_sample p sample_name entry :
  style_refs_ok p ->
  style_refs_ok (with_samples (dict_set sample_name entry (samples p)) p).
Proof.
  intros Hp style_name st Hst. simpl in *.
  destruct (decide (sample_name = style_sample st)) as [->|Hne].
  - rewrite dict_get_set_eq. by eexists.
  - rewrite dict_get_set_ne by done. by eapply Hp.
Qed.

(** [add_style] links a style to a sample it has found. *)
Lemma style_refs_add_style p style_name sample_name (added : string) s :
  style_refs_ok p -> dict_get sample_name (samples p) = Some s ->
  style_refs_ok
    (with_styles (dict_set style_name (mk_style sample_name added) (styles p)) p).
Proof.
  intros Hp Hs style_name' st. simpl.
  destruct (decide (style_name = style_name')) as [->|Hne].
  - rewrite dict_get_set_eq. intros [= <-]. simpl. by eexists.
  - rewrite dict_get_set_ne by done. apply Hp.
Qed.

(** [save_output] touches neither samples nor styles. *)
Lemma style_refs_save_output p outs :
  style_refs_ok p -> style_refs_ok (with_outputs outs p).
Proof. intros Hp style_name st. simpl. apply Hp. Qed.

(** Each of the four calls keeps the property. *)
Lemma after_keeps_styles_ok o w :
  styles_refer_to_samples w -> styles_refer_to_samples (after o w).
Proof.
  apply after_keeps.
  - apply style_refs_created.
  - apply style_refs_add_sample.
  - apply style_refs_add_style.
  - intros p output_name entry. apply style_refs_save_output.
Qed.

(** C10.  In every world reached from a fresh manager by [create_profile],
    [add_sample], [add_style] and [save_output], in any number and order,
    each entry of a profile's styles map names a key of the same profile's
    samples map; and each of these calls, returning or raising, keeps that
    property. *)
Theorem styles_refer_to_samples_reachable :
  (forall w, reachable w -> styles_refer_to_samples w)
  /\ (forall o w, styles_refer_to_samples w -> styles_refer_to_samples (after o w)).
Proof.
  split; [|apply after_keeps_styles_ok].
  induction 1 as [root ds fs|o w _ IH].
  - apply every_profile_fresh.
  - by apply after_keeps_styles_ok.
Qed.

(** The dictionaries of a reachable world hold each key once. *)
Lemma profile_wf_reachable w : reachable w -> every_profile profile_wf w.
Proof.
  apply reachable_every_profile.
  - intros name description created. repeat split; try apply NoDup_nil_2. done.
  - intros p sample_name entry (Hs & Ht & Ho). repeat split; try done.
    by apply dict_wf_set.
  - intros p style_name sample_name added s (Hs & Ht & Ho) _.
    repeat split; try done. by apply dict_wf_set.
  - intros p output_name entry (Hs & Ht & Ho). repeat split; try done.
    simpl. intros outs [= <-]. apply dict_wf_set.
    destruct (outputs p) as [outs|]; simpl; [by apply Ho|apply NoDup_nil_2].
Qed.

End StyleInvariant.

(** ** The synthesis facade *)

Section SynthesisFacts.

Variable preprocess_ref_audio_text : string -> string -> result (string * string).
Variable infer_process : string -> string -> string -> result (waveform * Z).
Variable remove_silence_for_generated_wav : waveform -> Z -> result waveform.

Abbreviation answer :=
  (answer preprocess_ref_audio_text infer_process
     remove_silence_for_generated_wav).
Abbreviation turn :=
  (turn preprocess_ref_audio_text infer_process
     remove_silence_for_generated_wav).
Abbreviation synthesize_segment :=
  (synthesize_segment preprocess_ref_audio_text infer_process
     remove_silence_for_generated_wav).
Abbreviation synthesize_loop :=
  (synthesize_loop preprocess_ref_audio_text infer_process
     remove_silence_for_generated_wav).
Abbreviation generate_multi_style_speech :=
  (generate_multi_style_speech preprocess_ref_audio_text infer_process
     remove_silence_for_generated_wav).

Lemma extend_nil st : extend st [] = st.
Proof. destruct st. unfold extend. simpl. by rewrite !app_nil_r. Qed.

Lemma extend_cons st a answers :
  extend (extend st [a]) answers = extend st (a :: answers).
Proof.
  unfold extend. simpl. rewrite <- !app_assoc. simpl.
  f_equal. rewrite last_cons. by destruct (last answers).
Qed.

(** One turn of the loop: a skipped segment leaves the state, another one
    adds its call and the answer, or raises what its entry or the
    collaborators raise. *)
Lemma synthesize_segment_spec m rs st seg :
  synthesize_segment m rs st seg =
    match resolve m seg.1 with
    | None => Ok st
    | Some info => a ← turn rs (info, seg.2); Ok (extend st [a])
    end.
Proof.
  destruct seg as [style text]. unfold synthesize_segment, resolve. simpl.
  destruct (dict_mem style m); simpl;
    (destruct (dict_get _ m) as [info|]; simpl; [|done]);
    (destruct (dict_truthy info); simpl; [|done]);
    unfold Plan.turn, Plan.reference, Plan.answer, mbind, result_bind; simpl;
    (destruct (dict_index "path" info) as [path|]; [|done]);
    (destruct (dict_index "transcription" info) as [tr|]; [|done]); simpl;
    (destruct (preprocess_ref_audio_text path tr) as [[ref_audio ref_text]|];
       [|done]);
    (destruct (infer_process ref_audio ref_text text) as [[wave sr]|]; [|done]);
    (destruct rs; [destruct (remove_silence_for_generated_wav wave sr)|]);
    done.
Qed.

Lemma synthesize_loop_spec m rs segments st :
  synthesize_loop m rs segments st =
    answers ← mapM (turn rs) (resolved m segments); Ok (extend st answers).
Proof.
  revert st. induction segments as [|seg segments IH]; intros st; simpl.
  - unfold mret, result_ret. by rewrite extend_nil.
  - rewrite synthesize_segment_spec. unfold resolved. simpl.
    destruct (resolve m seg.1) as [info|]; simpl.
    + destruct (turn rs (info, seg.2)) as [a|]; simpl; [|done].
      rewrite IH. unfold mbind, result_bind.
      destruct (mapM _ _) as [answers|]; [|done]. simpl.
      by rewrite extend_cons.
    + apply IH.
Qed.

Lemma mapM_result_length {A B} (f : A -> result B) l l' :
  mapM f l = Ok l' -> length l' = length l.
Proof.
  revert l'. induction l as [|x l IH]; intros l'; simpl.
  - by intros [= <-].
  - unfold mbind, result_bind. destruct (f x) as [y|]; [|done].
    destruct (mapM f l) as [k|]; [|done]. intros [= <-]. simpl. by rewrite (IH k).
Qed.

Lemma turn_text rs job a : turn rs job = Ok a -> (call_of a).2 = job.2.
Proof.
  unfold Plan.turn, Plan.reference, Plan.answer, mbind, result_bind.
  destruct (dict_index "path" job.1) as [path|]; [|done].
  destruct (dict_index "transcription" job.1) as [tr|]; [|done]. simpl.
  destruct (preprocess_ref_audio_text path tr) as [[ref_audio ref_text]|];
    [|done].
  destruct (infer_process ref_audio ref_text job.2) as [[wave sr]|]; [|done].
  destruct rs; [destruct (remove_silence_for_generated_wav wave sr)|];
    try done; by intros [= <-].
Qed.

Lemma mapM_turn_texts rs jobs answers :
  mapM (turn rs) jobs = Ok answers ->
  snd <$> (call_of <$> answers) = snd <$> jobs.
Proof.
  revert answers. induction jobs as [|job jobs IH]; intros answers; simpl.
  - by intros [= <-].
  - unfold mbind at 1, result_bind.
    destruct (turn rs job) as [a|] eqn:Ha; [|done].
    unfold mbind, result_bind. destruct (mapM _ jobs) as [k|]; [|done].
    intros [= <-]. rewrite !fmap_cons. f_equal; [|by apply IH].
    by eapply turn_text.
Qed.

Lemma speech_none answers out :
  speech answers = Ok out -> out = None <-> answers = [].
Proof.
  unfold speech. destruct answers as [|a answers]; [by intros [= <-]|].
  rewrite last_cons. unfold mbind, result_bind.
  destruct (np_concatenate _); [|by destruct (last answers)].
  by destruct (last answers); intros [= <-].
Qed.

(** What numpy concatenates: one-dimensional buffers only. *)
Lemma np_concatenate_ok arrays final :
  np_concatenate arrays = Ok final ->
  exists waves, arrays = Array1 <$> waves /\ final = concat waves.
Proof.
  unfold np_concatenate. destruct arrays as [|a0 arrays0]; [discriminate|].
  generalize (a0 :: arrays0). clear a0 arrays0. intros arrays.
  unfold mbind at 1. unfold result_bind at 1.
  destruct (mapM _ _) as [waves|] eqn:Hm; [|done].
  intros [= <-]. exists waves. split; [|done].
  revert waves Hm. induction arrays as [|a arrays IH]; intros waves; simpl.
  - by intros [= <-].
  - destruct a as [frames|x]; [|done]. simpl.
    unfold mbind at 1. unfold result_bind at 1.
    destruct (mapM _ _) as [k|]; [|done].
    intros [= <-]. simpl. by rewrite (IH k).
Qed.

Lemma speech_some answers sr final :
  speech answers = Ok (Some (sr, final)) ->
  (rate_of <$> last answers) = Some sr
  /\ exists waves,
       buffer_of <$> answers = Array1 <$> waves /\ final = concat waves.
Proof.
  unfold speech. destruct (last answers) as [a|]; [|done].
  unfold mbind, result_bind.
  destruct (np_concatenate _) as [final'|] eqn:Hc; [|done].
  intros [= <- <-]. split; [done|]. by apply np_concatenate_ok.
Qed.

Lemma resolve_cases (m : dict (dict string)) style :
  resolve m style =
    match dict_get style m with
    | Some info => if dict_truthy info then Some info else None
    | None => info ← dict_get "default" m;
              if dict_truthy info then Some info else None
    end.
Proof.
  unfold resolve, dict_mem. by destruct (dict_get style m) as [info|] eqn:Hs; simpl; rewrite ?Hs.
Qed.

Lemma generate_multi_style_speech_answers text m rs :
  generate_multi_style_speech text m rs =
    answers ← mapM (turn rs) (resolved m (parse_style_segments text));
    out ← speech answers;
    Ok (out, call_of <$> answers).
Proof.
  unfold Synthesis.generate_multi_style_speech.
  rewrite synthesize_loop_spec. unfold mbind at 1 3, result_bind.
  destruct (mapM _ _) as [answers|]; [|done]. simpl.
  destruct answers as [|a answers]; [done|].
  unfold speech. rewrite last_cons. simpl.
  destruct (last answers); unfold mbind, result_bind, mret, result_ret;
    (destruct (frames_of (buffer_of a)); [|done]);
    by destruct (mapM _ _).
Qed.

Lemma resolve_entry_ok m style info :
  map_ok m -> resolve m style = Some info -> entry_ok info.
Proof.
  intros Hm. unfold resolve.
  destruct (dict_get _ m) as [info'|] eqn:Hget; simpl; [|done].
  destruct (dict_truthy info') eqn:Ht; [|done]. intros [= <-]. by eapply Hm.
Qed.

Lemma reference_ok info text :
  entry_ok info -> exists r, reference (info, text) = Ok r.
Proof.
  intros [[path Hpath] [tr Htr]]. unfold reference. simpl.
  rewrite (dict_index_get _ _ _ Hpath), (dict_index_get _ _ _ Htr).
  by eexists.
Qed.

Lemma resolved_cons m seg segments :
  resolved m (seg :: segments) =
    match resolve m seg.1 with
    | Some info => (info, seg.2) :: resolved m segments
    | None => resolved m segments
    end.
Proof. unfold resolved. simpl. by destruct (resolve m seg.1). Qed.

(** On a usable map every segment that is not skipped has its reference. *)
Lemma mapM_reference_ok m segments :
  map_ok m -> exists rs, mapM reference (resolved m segments) = Ok rs.
Proof.
  intros Hm. induction segments as [|seg segments [rs IH]]; [by exists []|].
  rewrite resolved_cons.
  destruct (resolve m seg.1) as [info|] eqn:Hres; [|by exists rs].
  destruct (reference_ok info seg.2 (resolve_entry_ok _ _ _ Hm Hres))
    as [r Hr].
  exists (r :: rs). simpl. rewrite Hr, IH. done.
Qed.

(** C3, amended.  For every annotated text and style-to-sample map, a
    segment's style resolves to its own entry when the style is a key of the
    map and to the ["default"] entry only when it is not; a segment whose
    resolved entry is missing or empty is skipped, without error.  The
    remaining segments are taken in order: each looks up the path and the
    transcription of its entry (which are there whenever the non-empty
    entries of the map carry both) and calls the collaborators, and the
    first error of a look-up, of a collaborator or of the concatenation is
    the error of the operation.  When the operation returns, the engine was
    called once per remaining segment, in segment order; the buffers are
    concatenated in that order; and the sentinel comes back exactly when no
    segment produced audio. *)
Theorem generate_multi_style_speech_spec text m rs :
  let jobs := resolved m (parse_style_segments text) in
  (forall style,
      resolve m style =
        match dict_get style m with
        | Some info => if dict_truthy info then Some info else None
        | None => info ← dict_get "default" m;
                  if dict_truthy info then Some info else None
        end)
  /\ generate_multi_style_speech text m rs
     = (answers ← mapM (turn rs) jobs;
        out ← speech answers;
        Ok (out, call_of <$> answers))
  /\ (map_ok m -> exists refs, mapM reference jobs = Ok refs)
  /\ (forall out cs,
        generate_multi_style_speech text m rs = Ok (out, cs) ->
        exists answers,
          mapM (turn rs) jobs = Ok answers
          /\ cs = call_of <$> answers
          /\ length cs = length jobs
          /\ snd <$> cs = snd <$> jobs
          /\ (out = None <-> cs = [])
          /\ (forall sr final,
                out = Some (sr, final) ->
                (rate_of <$> last answers) = Some sr
                /\ exists waves,
                     buffer_of <$> answers = Array1 <$> waves
                     /\ final = concat waves)).
Proof.
  intros jobs. split; [apply resolve_cases|].
  split; [apply generate_multi_style_speech_answers|].
  split; [apply mapM_reference_ok|].
  intros out cs. rewrite generate_multi_style_speech_answers. fold jobs.
  unfold mbind at 1, result_bind.
  destruct (mapM (turn rs) jobs) as [answers|] eqn:Hanswers; [|done].
  unfold mbind, result_bind.
  destruct (speech answers) as [out'|] eqn:Hspeech; [|done].
  intros [= <- <-]. exists answers. split; [done|]. split; [done|].
  split; [rewrite length_fmap; by eapply mapM_result_length|].
  split; [by eapply mapM_turn_texts|].
  split.
  - rewrite (speech_none _ _ Hspeech). by destruct answers.
  - intros sr final ->. by apply speech_some.
Qed.

End SynthesisFacts.

Section SynthesisClaims.

(** C3, as stated, fails.  The style [whisper] is a key of the map without
    a sample, and the map has a ["default"] entry: the specification's
    resolution takes the default entry, the code skips the segment, calls
    the engine for nothing and returns the sentinel. *)
Lemma generate_multi_style_speech_no_fallback :
  let m := [("whisper", []);
            ("default", [("path", "voice.wav"); ("transcription", "hello")])] in
  resolve_spec m "whisper"
  = Some [("path", "voice.wav"); ("transcription", "hello")]
  /\ resolve m "whisper" = None
  /\ generate_multi_style_speech demo_preprocess demo_infer demo_trim
       "{whisper} hi" m true
     = Ok (None, []).
Proof. by vm_compute. Qed.

Lemma generate_multi_style_speech_spec_witness :
  let m := [("calm", [("path", "calm.wav"); ("transcription", "so calm")]);
            ("whisper", []);
            ("default", [("path", "voice.wav"); ("transcription", "hello")])] in
  let text := "{calm} one {whisper} two {loud} three" in
  generate_multi_style_speech demo_preprocess demo_infer demo_trim text m true
  = Ok (Some (24000%Z, [3%Z; 0%Z; 5%Z; 0%Z]),
        [("calm.wav", "so calm", "one"); ("voice.wav", "hello", "three")])
  /\ length [("calm.wav", "so calm", "one"); ("voice.wav", "hello", "three")]
     = length (resolved m (parse_style_segments text))
  /\ exists refs,
       mapM reference (resolved m (parse_style_segments text)) = Ok refs.
Proof.
  intros m text.
  assert (generate_multi_style_speech demo_preprocess demo_infer demo_trim
            text m true
          = Ok (Some (24000%Z, [3%Z; 0%Z; 5%Z; 0%Z]),
                [("calm.wav", "so calm", "one"); ("voice.wav", "hello", "three")]))
    as Hrun by (by vm_compute).
  assert (map_ok m) as Hm.
  { intros style info Hget Htruthy. unfold m in Hget. simpl in Hget.
    repeat case_decide; simplify_eq; try done; split; by eexists. }
  split; [exact Hrun|].
  pose proof (generate_multi_style_speech_spec
                demo_preprocess demo_infer demo_trim text m true)
    as (_ & _ & Hrefs & Hcalls).
  destruct (Hcalls _ _ Hrun) as (answers & _ & _ & Hlen & _).
  split; [exact Hlen|]. exact (Hrefs Hm).
Defined.

End SynthesisClaims.

(** ** The store on examples *)

Section StoreWitnesses.

Lemma add_style_failures_witness :
  let now := mk_time 2024 1 1 12 0 0 in
  let w := after (CreateProfile now "alice" "") (fresh "voice_profiles" ∅ ∅) in
  add_style now "bob" "calm" "take one" w
  = (Ok "Profile 'bob' does not exist.", w)
  /\ add_style now "alice" "calm" "take one" w
     = (Ok "Sample 'take one' does not exist in profile 'alice'.", w).
Proof.
  intros now w. split.
  - apply (proj1 (add_style_failures w now "bob" "calm" "take one")). reflexivity.
  - eapply (proj2 (add_style_failures w now "alice" "calm" "take one"));
      reflexivity.
Defined.

Lemma save_output_twice_witness :
  let now1 := mk_time 2024 1 1 12 0 0 in
  let now2 := mk_time 2024 1 1 12 0 1 in
  let w := after (CreateProfile now1 "alice" "") (fresh "voice_profiles" ∅ ∅) in
  let r1 := save_output now1 now1 "alice" "my take" [1%Z] 24000%Z "one" "calm" w in
  let r2 := save_output now2 now2 "alice" "my take" [2%Z] 24000%Z "two" "calm" r1.2 in
  r1.1 = Ok "voice_profiles/alice/outputs/my_take_20240101_120000.wav"
  /\ r2.1 = Ok "voice_profiles/alice/outputs/my_take_20240101_120001.wav"
  /\ files r2.2 !! "voice_profiles/alice/outputs/my_take_20240101_120000.wav"
     = Some (Wav [1%Z] 24000%Z)
  /\ files r2.2 !! "voice_profiles/alice/outputs/my_take_20240101_120001.wav"
     = Some (Wav [2%Z] 24000%Z).
Proof.
  intros now1 now2 w r1 r2.
  assert (dict_get "alice" (profiles w)
          = Some (mk_profile "alice" "" "2024-01-01 12:00:00" [] [] None))
    as Hp by reflexivity.
  assert (forall outs : dict Output, None = Some outs -> dict_wf outs)
    as Hwf by discriminate.
  assert (strftime_compact now1 <> strftime_compact now2)
    as Hne by (vm_compute; discriminate).
  destruct (save_output_twice w _ "alice" "my take"
              now1 now1 [1%Z] 24000%Z "one" "calm"
              now2 now2 [2%Z] 24000%Z "two" "calm" Hp Hwf)
    as (H1 & H2 & _ & _ & Hfiles & _).
  destruct (Hfiles Hne) as [Hf1 Hf2].
  split; [exact H1|]. split; [exact H2|]. split; [exact Hf1|exact Hf2].
Defined.

Lemma styles_refer_to_samples_reachable_witness :
  let now := mk_time 2024 1 1 12 0 0 in
  let w0 := fresh "voice_profiles" ∅ {[ "/tmp/rec.wav" := Wav [7%Z; 8%Z] 24000%Z ]} in
  let w :=
    after (SaveOutput now now "alice" "out" [1%Z] 24000%Z "hi" "calm")
      (after (AddStyle now "alice" "calm" "take one")
         (after (AddSample now "alice" "take one" "/tmp/rec.wav" "hello")
            (after (CreateProfile now "alice" "") w0))) in
  find_style w "alice" "calm" = Some (mk_style "take one" "2024-01-01 12:00:00")
  /\ styles_refer_to_samples w
  /\ styles_refer_to_samples (after (AddStyle now "alice" "loud" "no such take") w).
Proof.
  intros now w0 w. split; [by vm_compute|].
  assert (reachable w) as Hw by (unfold w, w0; repeat constructor).
  pose proof (proj1 styles_refer_to_samples_reachable w Hw) as Hok.
  split; [exact Hok|].
  exact (proj2 styles_refer_to_samples_reachable _ w Hok).
Defined.

End StoreWitnesses.

(* ===================================================================== *)
(** * Part III: further properties of the code                            *)
(* ===================================================================== *)

Import Terms.

(** ** One call of the store *)

Section StoreCalls.

Implicit Types (w : world) (now : struct_time) (p : Profile) (o : op).

Lemma sample_file_not_manifest w profile_name sample_name audio_path :
  sample_file w profile_name sample_name audio_path
  <> manifest_path w profile_name.
Proof.
  unfold sample_file, manifest_path, joinpath. rewrite !str_app_assoc.
  intros H. do 3 apply String.app_inj in H. discriminate H.
Qed.

(** A call leaves the world as it is, or goes through: it stores one profile
    dictionary under its target, flushes it to the target's manifest, and
    writes no file but those of [written]. *)
Lemma after_cases o w :
  after o w = w
  \/ exists p',
       updated o w p'
       /\ profiles (after o w) = dict_set (target o) p' (profiles w)
       /\ profiles_dir (after o w) = profiles_dir w
       /\ dirs w ⊆ dirs (after o w)
       /\ (dict_get (target o) (profiles w) = None ->
           profiles_dir w </> target o ∈ dirs (after o w))
       /\ files (after o w) !! manifest_path w (target o) = Some (Manifest p')
       /\ (forall path,
             path ∉ written o w -> files (after o w) !! path = files w !! path).
Proof.
  destruct o as [now name description
                |now profile_name sample_name audio_path transcription
                |now profile_name style_name sample_name
                |now now' profile_name output_name audio sr text style];
    unfold after; simpl.
  - destruct (dict_mem name (profiles w)) eqn:Hmem.
    + left. by rewrite create_profile_known.
    + right. rewrite create_profile_new by done. simpl.
      apply dict_mem_false in Hmem. eexists. split; [done|].
      split; [by rewrite dict_set_absent|]. split; [done|].
      split; [set_solver|]. split; [intros _; set_solver|].
      split; [apply lookup_insert_eq|].
      intros path Hpath. apply lookup_insert_ne. set_solver.
  - destruct (dict_get profile_name (profiles w)) as [p|] eqn:Hp;
      [|left; by rewrite add_sample_unknown].
    rewrite (add_sample_known _ _ _ _ _ _ _ Hp).
    destruct (files w !! audio_path) as [[|a r]|] eqn:Hfile; try by left.
    right. simpl. eexists. split; [by exists p, a, r|].
    split; [done|]. split; [done|]. split; [done|].
    split; [done|]. split; [apply lookup_insert_eq|].
    intros path Hpath. rewrite !lookup_insert_ne; [done|set_solver..].
  - destruct (dict_get profile_name (profiles w)) as [p|] eqn:Hp;
      [|left; by rewrite add_style_unknown].
    destruct (dict_get sample_name (samples p)) as [s|] eqn:Hs;
      [|left; by rewrite (add_style_no_sample _ _ _ _ _ _ Hp Hs)].
    right. rewrite (add_style_known _ _ _ _ _ _ _ Hp Hs). simpl.
    eexists. split; [by exists p, s|].
    split; [done|]. split; [done|]. split; [done|].
    split; [done|]. split; [apply lookup_insert_eq|].
    intros path Hpath. rewrite lookup_insert_ne; [done|set_solver].
  - destruct (dict_get profile_name (profiles w)) as [p|] eqn:Hp;
      [|left; by rewrite save_output_unknown].
    right. rewrite (save_output_known _ _ _ _ _ _ _ _ _ _ Hp). simpl.
    eexists. split; [by exists p|].
    split; [done|]. split; [done|]. split; [done|].
    split; [done|]. split; [apply lookup_insert_eq|].
    intros path Hpath. rewrite !lookup_insert_ne; [done|set_solver..].
Qed.

(** The look-ups in terms of the entry found. *)
Lemma get_sample_path_find w profile_name key :
  get_sample_path w profile_name key
  = Ok (sample_path <$> find_sample w profile_name key).
Proof.
  unfold get_sample_path, find_sample, dict_mem, dict_index.
  destruct (dict_get profile_name (profiles w)) as [p|]; simpl; [|done].
  unfold mbind, result_bind, dict_mem. simpl.
  by destruct (dict_get key (samples p)).
Qed.

Lemma get_transcription_find w profile_name key :
  get_transcription w profile_name key
  = Ok (default "" (sample_transcription <$> find_sample w profile_name key)).
Proof.
  unfold get_transcription, find_sample, dict_mem, dict_index.
  destruct (dict_get profile_name (profiles w)) as [p|]; simpl; [|done].
  unfold mbind, result_bind, dict_mem. simpl.
  by destruct (dict_get key (samples p)).
Qed.

Lemma get_style_sample_find w profile_name key :
  get_style_sample w profile_name key
  = Ok (style_sample <$> find_style w profile_name key).
Proof.
  unfold get_style_sample, find_style, dict_mem, dict_index.
  destruct (dict_get profile_name (profiles w)) as [p|]; simpl; [|done].
  unfold mbind, result_bind, dict_mem. simpl.
  by destruct (dict_get key (styles p)).
Qed.

Lemma list_samples_known w profile_name p :
  dict_get profile_name (profiles w) = Some p ->
  list_samples w profile_name = Ok (dict_keys (samples p)).
Proof. intros Hp. unfold list_samples, dict_mem, dict_index. by rewrite Hp. Qed.

Lemma list_styles_known w profile_name p :
  dict_get profile_name (profiles w) = Some p ->
  list_styles w profile_name = Ok (dict_keys (styles p)).
Proof. intros Hp. unfold list_styles, dict_mem, dict_index. by rewrite Hp. Qed.

(** X2.  [add_sample] fails without a trace: on an unknown profile it
    returns the "does not exist" message, and on a known profile whose
    source is not a readable audio file it raises; either way the world
    (profile map, directories, files) is the one it was given. *)
Theorem add_sample_failures w now profile_name sample_name audio_path
    transcription :
  (dict_get profile_name (profiles w) = None ->
   add_sample now profile_name sample_name audio_path transcription w
   = (Ok ("Profile '" +:+ profile_name +:+ "' does not exist."), w))
  /\ (forall p,
        dict_get profile_name (profiles w) = Some p ->
        (forall audio sr, files w !! audio_path <> Some (Wav audio sr)) ->
        exists e,
          add_sample now profile_name sample_name audio_path transcription w
          = (Raise e, w)).
Proof.
  split; [apply add_sample_unknown|].
  intros p Hp Hfile. rewrite (add_sample_known _ _ _ _ _ _ _ Hp).
  destruct (files w !! audio_path) as [[|audio sr]|] eqn:Hf; try by eexists.
  by destruct (Hfile audio sr).
Qed.

(** X5.  A call touches one profile: the dictionary of every profile other
    than its target is as before, so are the answers of the look-ups on
    it, and the profiles directory never changes. *)
Theorem after_other_profiles o w :
  profiles_dir (after o w) = profiles_dir w
  /\ (forall k,
        k <> target o ->
        dict_get k (profiles (after o w)) = dict_get k (profiles w)
        /\ (forall key,
              get_sample_path (after o w) k key = get_sample_path w k key
              /\ get_transcription (after o w) k key = get_transcription w k key
              /\ get_style_sample (after o w) k key = get_style_sample w k key)
        /\ list_samples (after o w) k = list_samples w k
        /\ list_styles (after o w) k = list_styles w k).
Proof.
  destruct (after_cases o w) as [->|(p' & _ & Hps & Hdir & _)]; [done|].
  split; [done|]. intros k Hne.
  assert (dict_get k (profiles (after o w)) = dict_get k (profiles w)) as Hk.
  { rewrite Hps. by apply dict_get_set_ne. }
  split; [done|]. split; [|split].
  - intros key.
    rewrite !get_sample_path_find, !get_transcription_find,
      !get_style_sample_find.
    unfold find_sample, find_style. by rewrite Hk.
  - unfold list_samples, dict_mem, dict_index. by rewrite Hk.
  - unfold list_styles, dict_mem, dict_index. by rewrite Hk.
Qed.

(** X6.  A call changes one map of its target at most: name, description
    and creation time stay; the samples change under [add_sample] only,
    the styles under [add_style] only, the outputs under [save_output]
    only; and [create_profile] changes nothing of a profile that is
    there. *)
Theorem after_own_map o w p :
  dict_get (target o) (profiles w) = Some p ->
  exists p',
    dict_get (target o) (profiles (after o w)) = Some p'
    /\ name p' = name p /\ description p' = description p
    /\ created_at p' = created_at p
    /\ (samples p' = samples p
        \/ exists now sample_name audio_path transcription,
             o = AddSample now (target o) sample_name audio_path transcription)
    /\ (styles p' = styles p
        \/ exists now style_name sample_name,
             o = AddStyle now (target o) style_name sample_name)
    /\ (outputs p' = outputs p
        \/ exists now now' output_name audio_data sr text style,
             o = SaveOutput now now' (target o) output_name audio_data sr
                   text style).
Proof.
  intros Hp. destruct (after_cases o w) as [->|(p' & Hup & Hps & _)].
  { exists p. repeat split; auto. }
  exists p'. split; [rewrite Hps; apply dict_get_set_eq|].
  destruct o; simpl in *.
  - destruct Hup as [Hnone _]. congruence.
  - destruct Hup as (p0 & a & r & Hp0 & _ & ->). simplify_eq.
    simpl. repeat split; eauto 10.
  - destruct Hup as (p0 & s & Hp0 & _ & ->). simplify_eq.
    simpl. repeat split; eauto 10.
  - destruct Hup as (p0 & Hp0 & ->). simplify_eq.
    simpl. repeat split; eauto 15.
Qed.

End StoreCalls.

(** ** Runs of the store *)

Section StoreRuns.

Implicit Types (w : world) (p : Profile) (o : op).

Lemma prefix_of_keys_set {V} k (v : V) (d : dict V) :
  dict_keys d `prefix_of` dict_keys (dict_set k v d).
Proof.
  rewrite dict_keys_set. destruct (dict_mem k d); [done|].
  by apply prefix_app_r.
Qed.

Lemma grows_refl p : grows p p.
Proof. by repeat split. Qed.

Lemma grows_trans p1 p2 p3 : grows p1 p2 -> grows p2 p3 -> grows p1 p3.
Proof.
  intros (Hn & Hd & Hc & Hs & Ht & Ho) (Hn' & Hd' & Hc' & Hs' & Ht' & Ho').
  repeat split; try congruence; by etrans.
Qed.

Lemma updated_grows o w p p' :
  dict_get (target o) (profiles w) = Some p -> updated o w p' -> grows p p'.
Proof.
  intros Hp Hup. destruct o; simpl in *.
  - destruct Hup as [Hnone _]. congruence.
  - destruct Hup as (p0 & a & r & Hp0 & _ & ->). simplify_eq.
    repeat split; try done. apply prefix_of_keys_set.
  - destruct Hup as (p0 & s & Hp0 & _ & ->). simplify_eq.
    repeat split; try done. apply prefix_of_keys_set.
  - destruct Hup as (p0 & Hp0 & ->). simplify_eq.
    repeat split; try done. apply prefix_of_keys_set.
Qed.

Lemma after_grows o w k p :
  dict_get k (profiles w) = Some p ->
  exists p', dict_get k (profiles (after o w)) = Some p' /\ grows p p'.
Proof.
  intros Hp. destruct (after_cases o w) as [->|(p' & Hup & Hps & _)].
  { exists p. split; [done|apply grows_refl]. }
  rewrite Hps. destruct (decide (target o = k)) as [<-|Hne].
  - exists p'. split; [apply dict_get_set_eq|]. by eapply updated_grows.
  - exists p. rewrite dict_get_set_ne by done. split; [done|apply grows_refl].
Qed.

Lemma after_profile_names o w :
  dict_keys (profiles w) `prefix_of` dict_keys (profiles (after o w)).
Proof.
  destruct (after_cases o w) as [->|(p' & _ & -> & _)]; [done|].
  apply prefix_of_keys_set.
Qed.

(** X8.  Nothing is ever deleted or reordered.  Through any sequence of
    calls, [list_profiles] keeps the names it had, in their order, before
    any new one; and a profile that is there stays, with its name,
    description and creation time, and with the sample, style and output
    names it had, in their order, before any new one. *)
Theorem run_all_never_deletes ops w :
  dict_keys (profiles w) `prefix_of` dict_keys (profiles (run_all ops w))
  /\ (forall k p,
        dict_get k (profiles w) = Some p ->
        exists p', dict_get k (profiles (run_all ops w)) = Some p' /\ grows p p').
Proof.
  revert w. induction ops as [|o ops IH]; intros w; simpl.
  { split; [done|]. intros k p Hp. exists p. split; [done|apply grows_refl]. }
  destruct (IH (after o w)) as [Hnames Hprofiles]. split.
  - etrans; [apply after_profile_names|done].
  - intros k p Hp.
    destruct (after_grows o w k p Hp) as (p1 & Hp1 & Hg1).
    destruct (Hprofiles k p1 Hp1) as (p2 & Hp2 & Hg2).
    exists p2. split; [done|]. by eapply grows_trans.
Qed.

Lemma updated_name o w p' :
  (forall k p, dict_get k (profiles w) = Some p -> name p = k) ->
  updated o w p' -> name p' = target o.
Proof.
  intros Hw Hup. destruct o; simpl in *.
  - by destruct Hup as [_ ->].
  - destruct Hup as (p0 & a & r & Hp0 & _ & ->). simpl. by apply Hw.
  - destruct Hup as (p0 & s & Hp0 & _ & ->). simpl. by apply Hw.
  - destruct Hup as (p0 & Hp0 & ->). simpl. by apply Hw.
Qed.

(** X9.  Names are unique and honest: in every world reached from a fresh
    manager, [list_profiles] has no name twice, and every profile is
    stored under the name that its own dictionary declares. *)
Theorem reachable_names w :
  reachable w ->
  (exists names, list_profiles w = Ok names /\ NoDup names)
  /\ (forall k p, dict_get k (profiles w) = Some p -> name p = k).
Proof.
  induction 1 as [root ds fs|o w _ [(names & [= <-] & Hnames) IH]].
  { split; [|done]. exists []. split; [done|apply NoDup_nil_2]. }
  destruct (after_cases o w) as [->|(p' & Hup & Hps & _)].
  { split; [by eexists|done]. }
  split.
  - eexists. split; [done|]. rewrite Hps. by apply dict_wf_set.
  - intros k p. rewrite Hps. destruct (decide (target o = k)) as [<-|Hne].
    + rewrite dict_get_set_eq. intros [= <-]. by eapply updated_name.
    + rewrite dict_get_set_ne by done. apply IH.
Qed.

End StoreRuns.

(** ** What is on disk, and the restart *)

Section Persistence.

Implicit Types (w : world) (p : Profile) (o : op).

Lemma simple_name_no_slash n : simple_name n = true -> has_char "/" n = false.
Proof.
  unfold simple_name. intros H. apply andb_true_iff in H as [_ H].
  by apply negb_true_iff in H.
Qed.

(** Two paths that agree split at their first separator alike. *)
Lemma slash_split a b x y :
  has_char "/" a = false -> has_char "/" b = false ->
  a +:+ String "/" x = b +:+ String "/" y -> a = b /\ x = y.
Proof.
  revert b. induction a as [|c a IH]; intros [|d b] Ha Hb Heq.
  - rewrite !str_app_nil_l in Heq. by injection Heq.
  - rewrite str_app_nil_l, str_app_cons in Heq. injection Heq as <- _.
    simpl in Hb. done.
  - rewrite str_app_nil_l, str_app_cons in Heq. injection Heq as -> _.
    simpl in Ha. done.
  - rewrite !str_app_cons in Heq. injection Heq as -> Heq.
    simpl in Ha, Hb. apply orb_false_iff in Ha as [_ Ha].
    apply orb_false_iff in Hb as [_ Hb].
    destruct (IH b Ha Hb Heq) as [-> ->]. done.
Qed.

Lemma manifest_path_inj w k k' :
  manifest_path w k = manifest_path w k' -> k = k'.
Proof.
  unfold manifest_path, joinpath. rewrite !str_app_assoc.
  intros H%String.app_inj. rewrite !str_app_cons, !str_app_nil_l in H.
  injection H as H. by apply str_app_inv_tail in H.
Qed.

(** The manifest of a profile with a simple name is not among the files
    that a call on another profile with a simple name writes. *)
Lemma manifest_not_written o w k :
  simple_name k = true -> simple_name (target o) = true -> k <> target o ->
  manifest_path w k ∉ written o w.
Proof.
  intros Hk%simple_name_no_slash Ht%simple_name_no_slash Hne.
  assert (forall mid rest,
            manifest_path w k
            <> profiles_dir w </> target o </> mid </> rest) as Haudio.
  { intros mid rest. unfold manifest_path, joinpath. rewrite !str_app_assoc.
    intros H%String.app_inj. rewrite !str_app_cons, !str_app_nil_l in H.
    injection H as H. by apply slash_split in H as [? _]. }
  assert (manifest_path w k <> manifest_path w (target o)) as Hman.
  { by intros ?%manifest_path_inj. }
  destruct o; simpl in *; unfold sample_file, output_file;
    repeat (apply not_elem_of_cons; split; [done|]); apply not_elem_of_nil.
Qed.

Lemma updated_simple o w p' :
  persisted w -> creates_simple o = true -> updated o w p' ->
  simple_name (target o) = true.
Proof.
  intros Hw Ho Hup. destruct o; simpl in *; [done|..].
  - destruct Hup as (p0 & a & r & Hp0 & _). by apply (Hw _ _ Hp0).
  - destruct Hup as (p0 & s & Hp0 & _). by apply (Hw _ _ Hp0).
  - destruct Hup as (p0 & Hp0 & _). by apply (Hw _ _ Hp0).
Qed.

Lemma after_keeps_persisted o w :
  persisted w -> creates_simple o = true -> persisted (after o w).
Proof.
  intros Hw Ho.
  destruct (after_cases o w)
    as [->|(p' & Hup & Hps & Hdir & Hsub & Hnew & Hman & Hfiles)]; [done|].
  pose proof (updated_simple o w p' Hw Ho Hup) as Hsimple.
  intros k p. unfold manifest_path. rewrite Hps, Hdir.
  fold (manifest_path w k).
  destruct (decide (target o = k)) as [<-|Hne].
  - rewrite dict_get_set_eq. intros [= <-].
    split; [eapply updated_name; [|done]; intros k p Hp; by apply (Hw k p)|].
    split; [done|]. split; [|done].
    destruct (dict_get (target o) (profiles w)) as [p0|] eqn:Hp0; [|by apply Hnew].
    apply Hsub. by apply (Hw _ _ Hp0).
  - rewrite dict_get_set_ne by done. intros Hp.
    destruct (Hw k p Hp) as (Hname & Hk & Hd & Hm).
    split; [done|]. split; [done|]. split; [by apply Hsub|].
    rewrite Hfiles; [done|]. by apply manifest_not_written.
Qed.

(** X10.  What is in memory is on disk.  Through any sequence of calls that
    create profiles under simple names only (one path component), starting
    from a fresh manager, every profile has its directory and its manifest
    file holds exactly the profile's dictionary in memory, under the name
    it declares: an audio file written for one profile never lands on the
    manifest of another. *)
Theorem run_all_persisted ops root ds fs :
  forallb creates_simple ops = true ->
  persisted (run_all ops (fresh root ds fs)).
Proof.
  assert (forall w, persisted w -> forallb creates_simple ops = true ->
                    persisted (run_all ops w)) as Hrun.
  { induction ops as [|o ops IH]; intros w Hw Hops; simpl in *; [done|].
    apply andb_true_iff in Hops as [Ho Hops].
    apply IH; [|done]. by apply after_keeps_persisted. }
  apply Hrun. intros k p. by simpl.
Qed.

Lemma load_entries_included w entries acc :
  persisted w ->
  (forall e, e ∈ entries ->
     (exists k, e = profiles_dir w </> k /\ is_Some (dict_get k (profiles w)))
     \/ no_manifest w e) ->
  (forall k p, dict_get k acc = Some p -> dict_get k (profiles w) = Some p) ->
  exists ps,
    Loader.load_entries ({[ profiles_dir w ]} ∪ dirs w) (files w) entries acc
    = inr ps
    /\ (forall k p, dict_get k ps = Some p -> dict_get k (profiles w) = Some p)
    /\ (forall k, is_Some (dict_get k acc) -> is_Some (dict_get k ps))
    /\ (forall k, profiles_dir w </> k ∈ entries ->
                  is_Some (dict_get k (profiles w)) -> is_Some (dict_get k ps)).
Proof.
  intros Hw. revert acc. induction entries as [|e entries IH]; intros acc He Hacc.
  { exists acc. repeat split; try done. by intros k ?%not_elem_of_nil. }
  assert (forall e', e' ∈ entries ->
            (exists k, e' = profiles_dir w </> k
                       /\ is_Some (dict_get k (profiles w)))
            \/ no_manifest w e') as He'.
  { intros e' Hin. apply He. by right. }
  assert (forall acc',
            (forall k p, dict_get k acc' = Some p ->
                         dict_get k (profiles w) = Some p) ->
            (forall k, is_Some (dict_get k acc) -> is_Some (dict_get k acc')) ->
            (forall k, e = profiles_dir w </> k ->
                       is_Some (dict_get k (profiles w)) ->
                       is_Some (dict_get k acc')) ->
            exists ps,
              Loader.load_entries ({[ profiles_dir w ]} ∪ dirs w) (files w)
                entries acc' = inr ps
              /\ (forall k p, dict_get k ps = Some p ->
                              dict_get k (profiles w) = Some p)
              /\ (forall k, is_Some (dict_get k acc) -> is_Some (dict_get k ps))
              /\ (forall k, profiles_dir w </> k ∈ e :: entries ->
                            is_Some (dict_get k (profiles w)) ->
                            is_Some (dict_get k ps))) as Hnext.
  { intros acc' Hincl Hkeep Hhere.
    destruct (IH acc' He' Hincl) as (ps & Hps & Hin & Hacc' & Hall).
    exists ps. split; [done|]. split; [done|]. split; [by auto|].
    intros k [Hk|Hk]%elem_of_cons Hsome; [|by auto].
    apply Hacc'. by apply Hhere. }
  simpl. destruct (He e) as [(k & -> & [p Hp])|Hno]; [by left| |].
  - destruct (Hw k p Hp) as (Hname & Hk & Hd & Hm).
    assert (Loader.is_dir ({[profiles_dir w]} ∪ dirs w) (profiles_dir w </> k)
            = true) as ->.
    { unfold Loader.is_dir. rewrite bool_decide_eq_true_2 by set_solver. done. }
    fold (manifest_path w k). rewrite Hm, Hname. apply Hnext.
    + intros k' p'. destruct (decide (k = k')) as [<-|Hne].
      * rewrite dict_get_set_eq. by intros [= <-].
      * rewrite dict_get_set_ne by done. apply Hacc.
    + intros k' Hsome. destruct (decide (k = k')) as [<-|Hne].
      * rewrite dict_get_set_eq. by eexists.
      * by rewrite dict_get_set_ne.
    + intros k' Heq%joinpath_inj _. subst k'. rewrite dict_get_set_eq. by eexists.
  - assert (forall k, e = profiles_dir w </> k ->
                      is_Some (dict_get k (profiles w)) -> False) as Hnot.
    { intros k -> [p Hp]. destruct (Hw k p Hp) as (_ & _ & Hd & Hm).
      destruct Hno as [Hno|[Hno _]].
      - unfold Loader.is_dir in Hno.
        rewrite bool_decide_eq_true_2 in Hno by set_solver. done.
      - fold (manifest_path w k) in Hno. congruence. }
    destruct Hno as [->|[-> ->]].
    + apply Hnext; [done|done|]. intros k Hk Hsome. destruct (Hnot k Hk Hsome).
    + destruct (Loader.is_dir _ e);
        (apply Hnext; [done|done|]; intros k Hk Hsome;
         destruct (Hnot k Hk Hsome)).
Qed.

(** X11.  A restart reads back what was stored.  If every profile is on
    disk as it is in memory (as X10 gives), and the listing of the profiles
    directory holds the directory of every profile and otherwise only
    entries without a manifest, then a new manager on that disk starts
    without error, with no current profile, the same disk, and for every
    name the very profile dictionary that the old manager had. *)
Theorem restart_round_trip w entries :
  persisted w ->
  (forall k, is_Some (dict_get k (profiles w)) ->
             profiles_dir w </> k ∈ entries) ->
  (forall e, e ∈ entries ->
     (exists k, e = profiles_dir w </> k /\ is_Some (dict_get k (profiles w)))
     \/ no_manifest w e) ->
  exists w',
    Loader.__init__ (profiles_dir w) (dirs w) (files w) entries = inr w'
    /\ profiles_dir w' = profiles_dir w /\ current_profile w' = None
    /\ files w' = files w
    /\ (forall k, dict_get k (profiles w') = dict_get k (profiles w)).
Proof.
  intros Hw Hall Hentries.
  destruct (load_entries_included w entries [] Hw Hentries)
    as (ps & Hload & Hin & _ & Hback); [done|].
  unfold Loader.__init__, Loader._load_profiles. rewrite Hload.
  eexists. split; [done|]. simpl. do 3 (split; [done|]).
  intros k. destruct (dict_get k (profiles w)) as [p|] eqn:Hp.
  - destruct (Hback k) as [p' Hp']; [by apply Hall; eexists|by eexists|].
    rewrite Hp'. apply Hin in Hp'. congruence.
  - destruct (dict_get k ps) as [p'|] eqn:Hp'; [|done].
    apply Hin in Hp'. congruence.
Qed.

Lemma load_entries_declared ds fs (all entries : list string) acc ps :
  (forall e, e ∈ entries -> e ∈ all) ->
  Loader.load_entries ds fs entries acc = inr ps ->
  dict_wf acc ->
  (forall k p, dict_get k acc = Some p ->
     name p = k
     /\ exists e, e ∈ all /\ fs !! (e </> "profile.json") = Some (Manifest p)) ->
  dict_wf ps
  /\ (forall k p, dict_get k ps = Some p ->
        name p = k
        /\ exists e, e ∈ all /\ fs !! (e </> "profile.json") = Some (Manifest p)).
Proof.
  revert acc. induction entries as [|e entries IH]; intros acc Hall Hload Hwf Hacc.
  { simpl in Hload. by injection Hload as <-. }
  assert (forall e', e' ∈ entries -> e' ∈ all) as Hall'.
  { intros e' Hin. apply Hall. by right. }
  simpl in Hload. destruct (Loader.is_dir ds e); [|by eapply IH].
  destruct (fs !! (e </> "profile.json")) as [[p0|a r]|] eqn:Hfile.
  - eapply IH; [done|done|by apply dict_wf_set|].
    intros k p. destruct (decide (name p0 = k)) as [<-|Hne].
    + rewrite dict_get_set_eq. intros [= <-]. split; [done|].
      exists e. split; [apply Hall; by left|done].
    + rewrite dict_get_set_ne by done. apply Hacc.
  - done.
  - destruct (Loader.is_dir ds (e </> "profile.json")); [done|by eapply IH].
Qed.

(** X12.  What a start loads: the profile map has no name twice, and every
    profile in it stands under the name that its manifest declares (not
    under the name of its directory) and is the content of the manifest
    file of one of the listed entries. *)
Theorem load_profiles_declared_names ds fs entries ps :
  Loader._load_profiles ds fs entries = inr ps ->
  dict_wf ps
  /\ (forall k p, dict_get k ps = Some p ->
        name p = k
        /\ exists e, e ∈ entries
                     /\ fs !! (e </> "profile.json") = Some (Manifest p)).
Proof.
  intros Hload.
  eapply (load_entries_declared ds fs entries entries []); try done.
  apply NoDup_nil_2.
Qed.

End Persistence.

(** ** The segmenter's results *)

Section SegmenterResults.

Lemma lstrip_head_ok s : head_ok (lstrip s).
Proof.
  induction s as [|c s IH]; simpl; [done|].
  destruct (isspace c) eqn:Hc; [done|]. simpl. done.
Qed.

Lemma rstrip_head_ok s : head_ok s -> head_ok (rstrip s).
Proof.
  destruct s as [|c s]; simpl; [done|]. intros Hc.
  destruct (rstrip s); [by rewrite Hc|done].
Qed.

Lemma rstrip_last_ok s : last_ok (rstrip s).
Proof.
  induction s as [|c s IH]; simpl; [done|].
  destruct (rstrip s) as [|c' r] eqn:Hr; [|done].
  by destruct (isspace c) eqn:Hc.
Qed.

Lemma strip_is_trimmed s : is_trimmed (strip s).
Proof.
  split; [apply rstrip_head_ok, lstrip_head_ok|apply rstrip_last_ok].
Qed.

Lemma kept_trimmed ms seg :
  seg ∈ kept ms -> is_trimmed seg.1 /\ is_trimmed seg.2 /\ seg.2 <> "".
Proof.
  unfold kept. intros [Hne Hin]%list_elem_of_filter.
  apply list_elem_of_fmap in Hin as ([st c] & -> & _). simpl in *.
  split; [apply strip_is_trimmed|]. split; [apply strip_is_trimmed|done].
Qed.

Lemma parse_style_segments_nil text :
  parse_style_segments text = [] <-> strip text = "".
Proof.
  split.
  - destruct (marked_exists text) as (pre & ms & junk & Hm).
    rewrite (parse_style_segments_marked _ _ _ _ Hm).
    destruct (kept ms); [|done]. by destruct (strip text).
  - intros Hs. rewrite parse_style_segments_no_marker, Hs; [done|].
    apply no_brace_no_marker, all_space_has_char; [done|]. by apply strip_empty.
Qed.

(** X13.  The segmenter gives no segment exactly for an empty or blank
    text: every text with some content, marked or not, gives at least one
    segment. *)
Theorem parse_style_segments_nil_iff text :
  parse_style_segments text = [] <-> strip text = "".
Proof. apply parse_style_segments_nil. Qed.

(** X14.  Every segment that the segmenter returns, for any text, has a
    content that is not empty, and neither its style name nor its content
    begins or ends with white space. *)
Theorem parse_style_segments_trimmed text seg :
  seg ∈ parse_style_segments text ->
  seg.2 <> "" /\ is_trimmed seg.1 /\ is_trimmed seg.2.
Proof.
  destruct (marked_exists text) as (pre & ms & junk & Hm).
  rewrite (parse_style_segments_marked _ _ _ _ Hm).
  destruct (kept ms) as [|seg0 segs] eqn:Hk.
  - destruct (truthy (strip text)) eqn:Ht; [|by intros ?%not_elem_of_nil].
    intros ->%list_elem_of_singleton. simpl. apply truthy_ne in Ht.
    split; [done|]. split; [by split|]. apply strip_is_trimmed.
  - rewrite <- Hk. intros (? & ? & ?)%kept_trimmed. done.
Qed.

End SegmenterResults.

(** ** The facade on the maps that the application builds *)

Section SynthesisResults.

Variable number : Type.
Variable preprocess_ref_audio_text : string -> string -> result (string * string).
Variable infer_process :
  string -> string -> string -> number -> Z -> number -> result (waveform * Z).
Variable remove_silence_for_generated_wav : waveform -> Z -> result waveform.

(** The settings that the multi-style path fixes: the cross-fade duration
    [0.15] and the speed [1.0], with 32 steps. *)
Variable cross_fade_default : number.
Variable speed_default : number.

Abbreviation infer_default :=
  (fun ref_audio ref_text text =>
     infer_process ref_audio ref_text text cross_fade_default 32%Z speed_default).
Abbreviation generate_multi_style_speech :=
  (Synthesis.generate_multi_style_speech preprocess_ref_audio_text infer_default
     remove_silence_for_generated_wav).
Abbreviation generate_speech :=
  (Voice.generate_speech number preprocess_ref_audio_text infer_process
     remove_silence_for_generated_wav).

Lemma resolve_default_covers m style :
  (forall style info, dict_get style m = Some info -> dict_truthy info = true) ->
  is_Some (dict_get "default" m) -> is_Some (resolve m style).
Proof.
  intros Hfull [info Hd]. rewrite resolve_cases.
  destruct (dict_get style m) as [info'|] eqn:Hs.
  - rewrite (Hfull _ _ Hs). by eexists.
  - rewrite Hd. simpl. rewrite (Hfull _ _ Hd). by eexists.
Qed.

Lemma resolved_texts m segments :
  (forall style info, dict_get style m = Some info -> dict_truthy info = true) ->
  is_Some (dict_get "default" m) ->
  snd <$> resolved m segments = snd <$> segments.
Proof.
  intros Hfull Hd. induction segments as [|seg segments IH]; [done|].
  rewrite resolved_cons.
  destruct (resolve_default_covers m seg.1 Hfull Hd) as [info ->].
  rewrite !fmap_cons. simpl. by rewrite IH.
Qed.

Lemma mapM_reference_texts jobs refs :
  mapM reference jobs = Ok refs -> snd <$> refs = snd <$> jobs.
Proof.
  revert refs. induction jobs as [|job jobs IH]; intros refs; simpl.
  - by intros [= <-].
  - unfold mbind at 1, result_bind.
    destruct (reference job) as [r|] eqn:Hr; [|done].
    unfold mbind, result_bind. destruct (mapM _ jobs) as [k|]; [|done].
    intros [= <-]. rewrite !fmap_cons. f_equal; [|by apply IH].
    unfold reference, mbind, result_bind in Hr.
    destruct (dict_index "path" job.1); [|done].
    destruct (dict_index "transcription" job.1); [|done].
    by injection Hr as <-.
Qed.

(** X15.  With a map whose entries all carry a path and a transcription and
    which has a ["default"] entry (the maps that the application builds),
    no segment is skipped and none lacks its reference: every segment of
    the text has a path and a transcription to be synthesised with, and
    whenever the call returns, the engine was called once for every segment
    of the text, in order, and the sentinel came back for an empty or blank
    text only. *)
Theorem default_entry_covers_every_segment text m rs :
  map_ok m ->
  (forall style info, dict_get style m = Some info -> dict_truthy info = true) ->
  is_Some (dict_get "default" m) ->
  (exists refs,
     mapM reference (resolved m (parse_style_segments text)) = Ok refs
     /\ snd <$> refs = snd <$> parse_style_segments text)
  /\ (forall out cs,
        generate_multi_style_speech text m rs = Ok (out, cs) ->
        snd <$> cs = snd <$> parse_style_segments text
        /\ (out = None <-> strip text = "")).
Proof.
  intros Hok Hfull Hd. split.
  - destruct (mapM_reference_ok m (parse_style_segments text) Hok) as [refs Hrefs].
    exists refs. split; [done|].
    rewrite (mapM_reference_texts _ _ Hrefs). by apply resolved_texts.
  - intros out cs. rewrite generate_multi_style_speech_answers.
    unfold mbind at 1, result_bind.
    destruct (mapM _ _) as [answers|] eqn:Hanswers; [|done].
    unfold mbind, result_bind.
    destruct (speech answers) as [out'|] eqn:Hspeech; [|done].
    intros [= <- <-].
    assert (snd <$> (call_of <$> answers) = snd <$> parse_style_segments text)
      as Htexts.
    { rewrite (mapM_turn_texts _ _ _ _ _ _ Hanswers). by apply resolved_texts. }
    split; [done|].
    rewrite (speech_none _ _ Hspeech), <- parse_style_segments_nil.
    split; intros Hnil; rewrite Hnil in Htexts.
    + by destruct (parse_style_segments text).
    + by destruct answers.
Qed.

(** X16.  On a text without marker, multi-style synthesis is basic
    synthesis followed by a concatenation: with a ["default"] entry that has
    a path and a transcription, the call does what [generate_speech] does
    for that reference, the trimmed text and the default settings, with one
    call of the engine, and then concatenates the one buffer.  So it returns
    the wave of the basic synthesis when that is one-dimensional, and it
    raises where the basic synthesis returns the zero-dimensional array of a
    single frame left by the silence filter. *)
Theorem unmarked_text_is_basic_synthesis text m rs info path transcription :
  has_marker text = false -> strip text <> "" ->
  dict_get "default" m = Some info ->
  dict_get "path" info = Some path ->
  dict_get "transcription" info = Some transcription ->
  let basic :=
    generate_speech path transcription (strip text) rs
      speed_default 32%Z cross_fade_default in
  (forall e, basic = Raise e ->
     generate_multi_style_speech text m rs = Raise e)
  /\ (forall sr frames,
        basic = Ok (sr, Array1 frames) ->
        exists ref_audio ref_text,
          preprocess_ref_audio_text path transcription = Ok (ref_audio, ref_text)
          /\ generate_multi_style_speech text m rs
             = Ok (Some (sr, frames), [(ref_audio, ref_text, strip text)]))
  /\ (forall sr frame,
        basic = Ok (sr, Array0 frame) ->
        rs = true
        /\ generate_multi_style_speech text m rs
           = Raise (Error "ValueError"
                      "zero-dimensional arrays cannot be concatenated")).
Proof.
  intros Hno%has_marker_false Hs%truthy_ne Hd Hpath Htr basic.
  assert (generate_multi_style_speech text m rs
          = ('(ref_audio, ref_text) ←
               preprocess_ref_audio_text path transcription;
             '(wave, sr) ← infer_default ref_audio ref_text (strip text);
             buffer ← (if rs
                       then frames ← remove_silence_for_generated_wav wave sr;
                            mret (squeeze frames)
                       else mret (Array1 wave));
             final ← np_concatenate [buffer];
             Ok (Some (sr, final), [(ref_audio, ref_text, strip text)])))
    as Hrun.
  { unfold Synthesis.generate_multi_style_speech.
    rewrite (parse_style_segments_no_marker _ Hno), Hs. simpl.
    unfold dict_mem. rewrite Hd. simpl. rewrite Hd.
    destruct info as [|entry info]; [done|]. simpl dict_truthy. simpl negb.
    cbv iota. rewrite (dict_index_get _ _ _ Hpath), (dict_index_get _ _ _ Htr).
    unfold mbind, mret, result_bind, result_ret. simpl.
    destruct (preprocess_ref_audio_text path transcription)
      as [[ref_audio ref_text]|]; [|done].
    destruct (infer_process ref_audio ref_text (strip text) cross_fade_default
                32%Z speed_default) as [[wave sr]|]; [|done].
    destruct rs; [|done].
    destruct (remove_silence_for_generated_wav wave sr) as [frames|]; [|done].
    simpl. by destruct (frames_of _). }
  rewrite Hrun. subst basic. unfold Voice.generate_speech.
  unfold mbind, mret, result_bind, result_ret.
  destruct (preprocess_ref_audio_text path transcription)
    as [[ref_audio ref_text]|]; [|by repeat split; intros; simplify_eq].
  destruct (infer_process ref_audio ref_text (strip text) cross_fade_default
              32%Z speed_default) as [[wave sr]|];
    [|by repeat split; intros; simplify_eq].
  destruct rs.
  - destruct (remove_silence_for_generated_wav wave sr) as [frames|];
      [|by repeat split; intros; simplify_eq].
    split; [done|]. split.
    + intros sr' frames' [= <- Hsq]. exists ref_audio, ref_text.
      split; [done|]. rewrite Hsq. simpl. by rewrite app_nil_r.
    + intros sr' frame [= <- Hsq]. split; [done|]. by rewrite Hsq.
  - split; [done|]. split; [|done].
    intros sr' frames' [= <- <-]. exists ref_audio, ref_text.
    split; [done|]. simpl. by rewrite app_nil_r.
Qed.

End SynthesisResults.

(** ** The event handlers *)

Section Handlers.

Implicit Types (w : world) (now : struct_time) (p : Profile).

Lemma dict_get_in_keys {V} k (d : dict V) v :
  dict_get k d = Some v -> k ∈ dict_keys d.
Proof.
  intros Hget. destruct (decide (k ∈ dict_keys d)) as [|Hnot]; [done|].
  apply dict_get_keys in Hnot. congruence.
Qed.

Lemma create_profile_present w now name description :
  is_Some (dict_get name (profiles (Store.create_profile now name description w).2)).
Proof.
  destruct (dict_mem name (profiles w)) eqn:Hmem.
  - rewrite create_profile_known by done. by apply dict_mem_true.
  - rewrite create_profile_new by done. simpl.
    rewrite <- dict_set_absent by by apply dict_mem_false.
    rewrite dict_get_set_eq. by eexists.
Qed.

Lemma truthy_joinpath a b : truthy (a </> b) = true.
Proof. unfold joinpath. by destruct a. Qed.


(** *** Path components *)

Lemma existsb_has_char s :
  existsb (Ascii.eqb "/") (list_ascii_of_string s) = has_char "/" s.
Proof.
  induction s as [|c s IH]; [done|]. simpl. by rewrite IH, Ascii.eqb_sym.
Qed.

Lemma basename_no_slash s : has_char "/" s = false -> basename s = s.
Proof.
  induction s as [|c s IH]; [done|]. simpl.
  intros [Hc Hs]%orb_false_iff. by rewrite existsb_has_char, Hs, Hc.
Qed.

Lemma basename_joinpath a b : has_char "/" b = false -> basename (a </> b) = b.
Proof.
  intros Hb. unfold joinpath. induction a as [|c a IH].
  - rewrite str_app_nil_l, str_app_cons, str_app_nil_l. simpl.
    by rewrite existsb_has_char, Hb.
  - rewrite str_app_cons. simpl. rewrite existsb_has_char, has_char_app.
    rewrite str_app_cons. simpl. by rewrite orb_true_r.
Qed.

Lemma has_char_replace_slash s :
  has_char "/" (replace " " "_" s) = has_char "/" s.
Proof.
  induction s as [|c s IH]; [done|]. simpl. rewrite IH.
  destruct (Ascii.eqb_spec c " ") as [->|]; done.
Qed.

Lemma digit_not_slash n : Ascii.eqb (digit n) "/" = false.
Proof.
  unfold digit. pose proof (Nat.mod_upper_bound n 10 ltac:(lia)) as Hlt.
  destruct (Ascii.eqb_spec (ascii_of_nat (48 + n mod 10)) "/") as [H|]; [|done].
  apply (f_equal nat_of_ascii) in H. rewrite nat_ascii_embedding in H by lia.
  change (nat_of_ascii "/") with 47 in H. lia.
Qed.

Lemma pad2_no_slash n : has_char "/" (pad2 n) = false.
Proof. unfold pad2. cbn [has_char]. by rewrite !digit_not_slash. Qed.

Lemma strftime_compact_no_slash now : has_char "/" (strftime_compact now) = false.
Proof.
  unfold strftime_compact, pad4.
  rewrite !has_char_app, !pad2_no_slash. cbn [has_char].
  by rewrite !digit_not_slash, pad2_no_slash.
Qed.

Lemma output_filename_no_slash output_name now :
  has_char "/" (output_filename output_name now) = has_char "/" output_name.
Proof.
  unfold output_filename.
  rewrite !has_char_app, has_char_replace_slash, strftime_compact_no_slash.
  simpl. by rewrite !orb_false_r.
Qed.

(** X20.  The "save output" handler on a profile the store does not know:
    the store's "does not exist" message is taken for a path, so the
    handler reports "Output saved as Profile ... does not exist." although
    nothing was saved and the store is unchanged. *)
Theorem save_output_handler_unknown_profile w now0 now now' profile_name
    output_name audio_output text style_name :
  truthy profile_name = true ->
  has_char "/" profile_name = false ->
  dict_get profile_name (profiles w) = None ->
  is_Some audio_output ->
  App.save_output now0 now now' profile_name output_name audio_output text
    style_name w
  = (Ok ("Output saved as "
         +:+ ("Profile '" +:+ profile_name +:+ "' does not exist.")), w).
Proof.
  intros Hpn Hslash Hp [[sr audio] ->]. unfold App.save_output.
  rewrite Hpn. simpl. unfold App.try_except, mbind, io_bind.
  rewrite save_output_unknown by done.
  unfold mret, io_ret, App.os_path_basename. cbv beta iota.
  rewrite basename_no_slash; [done|].
  rewrite !has_char_app, Hslash. done.
Qed.

(** X25.  The history drop-down and the history preview agree: for a
    profile name and an output name that are not empty, [refresh_history]
    returns a list of choices without raising, and [load_history_item]
    gives a path and a text exactly for the names of that list, and no
    path and the empty text for every other name. *)
Theorem history_handlers_agree w profile_name output_name :
  truthy profile_name = true ->
  truthy output_name = true ->
  exists names,
    App.refresh_history w profile_name
    = Ok (App.mk_update (Some names) (Some None))
    /\ (output_name ∈ names ->
        exists path text,
          App.load_history_item w profile_name output_name
          = Ok (Some path, text))
    /\ (output_name ∉ names ->
        App.load_history_item w profile_name output_name = Ok (None, "")).
Proof.
  intros Hpn Hon. unfold App.refresh_history, App.load_history_item.
  rewrite Hpn, Hon. simpl. unfold dict_mem, dict_index.
  destruct (dict_get profile_name (profiles w)) as [p|]; simpl.
  2: { eexists. split; [done|]. split; [by intros ?%elem_of_nil|done]. }
  destruct (outputs p) as [outs|]; simpl.
  2: { eexists. split; [done|]. split; [by intros ?%elem_of_nil|done]. }
  eexists. split; [done|]. unfold dict_mem.
  destruct (dict_get output_name outs) as [o|] eqn:Hget; simpl.
  - split; [by eauto|]. intros Hnot. apply dict_get_keys in Hnot. congruence.
  - split; [|done]. intros Hin. by apply dict_get_keys in Hget.
Qed.

Lemma last_in_keys {V} (d : dict V) k :
  last (dict_keys d) = Some k -> is_Some (dict_get k d).
Proof.
  intros Hlast. destruct (dict_get k d) eqn:Hget; [done|].
  apply dict_get_keys in Hget. destruct Hget.
  apply last_Some in Hlast as [l ->]. set_solver.
Qed.

Section Cloner.

Variable transcribe_audio : string -> result string.
Variable settings : Type.
Variable generate_speech_engine :
  option string -> string -> string -> bool -> settings -> result (Z * waveform).


(** X22.  Which sample the "generate speech" handler clones from.  On a
    profile that has samples and whose styles all name samples of it, the
    handler picks one sample that exists: the one of the chosen style when
    the style is given, known and names a sample, the last key of the
    profile's samples listing otherwise (the sample whose name was added
    last, not the one added or replaced last).  The engine is called once,
    with that sample's path and
    transcription, and its audio is returned; if it raises, the result is
    no audio and one warning with the error. *)
Theorem generate_speech_handler_sample w profile_name style_name text
    remove_silence speed_quality p :
  truthy profile_name = true ->
  truthy (strip text) = true ->
  dict_get profile_name (profiles w) = Some p ->
  style_refs_ok p ->
  samples p <> [] ->
  exists sample_name s,
    dict_get sample_name (samples p) = Some s
    /\ match (if truthy style_name
              then dict_get style_name (styles p) else None) with
       | Some st =>
           if truthy (style_sample st) then sample_name = style_sample st
           else last (dict_keys (samples p)) = Some sample_name
       | None => last (dict_keys (samples p)) = Some sample_name
       end
    /\ App.generate_speech settings generate_speech_engine w profile_name
         style_name text remove_silence speed_quality
       = match generate_speech_engine (Some (sample_path s))
                 (sample_transcription s) text remove_silence speed_quality with
         | Ok audio => (Some audio, [])
         | Raise e => (None, ["Error generating speech: " +:+ App.exn_str e])
         end.
Proof.
  intros Hpn Htext Hp Hrefs Hsamples.
  assert (exists k, last (dict_keys (samples p)) = Some k) as [k Hk].
  { destruct (last (dict_keys (samples p))) eqn:Hl; [by eexists|].
    apply last_None in Hl. destruct (samples p); [done|discriminate Hl]. }
  destruct (last_in_keys _ _ Hk) as [sk Hsk].
  assert (Hcall : forall sample_name s,
    dict_get sample_name (samples p) = Some s ->
    get_sample_path w profile_name sample_name = Ok (Some (sample_path s))
    /\ get_transcription w profile_name sample_name
       = Ok (sample_transcription s)).
  { intros sample_name s Hs.
    rewrite get_sample_path_find, get_transcription_find.
    unfold find_sample. rewrite Hp. simpl. by rewrite Hs. }
  unfold App.generate_speech. rewrite Hpn, Htext. simpl.
  rewrite get_style_sample_find. unfold find_style. rewrite Hp. simpl.
  assert (Hdefault :
    exists sample_name s,
      dict_get sample_name (samples p) = Some s
      /\ last (dict_keys (samples p)) = Some sample_name
      /\ match
           (list_samples w profile_name
            ≫= (fun samples0 =>
                  match samples0 with
                  | [] => mret None
                  | _ :: _ => App.last_item samples0 ≫= (fun s0 => mret (Some s0))
                  end))
           ≫= (fun picked =>
                 match picked with
                 | None =>
                     mret (None, ["No voice samples found for this profile."])
                 | Some sample_name0 =>
                     get_sample_path w profile_name sample_name0
                     ≫= (fun sample_path0 =>
                           get_transcription w profile_name sample_name0
                           ≫= (fun transcription =>
                                 generate_speech_engine sample_path0
                                   transcription text remove_silence
                                   speed_quality
                                 ≫= (fun audio => mret (Some audio, []))))
                 end)
         with
         | Ok r => r
         | Raise e => (None, ["Error generating speech: " +:+ App.exn_str e])
         end
         = match generate_speech_engine (Some (sample_path s))
                   (sample_transcription s) text remove_silence
                   speed_quality with
           | Ok audio => (Some audio, [])
           | Raise e => (None, ["Error generating speech: " +:+ App.exn_str e])
           end).
  { exists k, sk. split; [done|]. split; [done|].
    rewrite (list_samples_known _ _ _ Hp).
    destruct (Hcall _ _ Hsk) as [Hpath Htr].
    unfold mbind, result_bind, mret, result_ret, App.last_item. rewrite Hk.
    destruct (dict_keys (samples p)); [discriminate Hk|].
    rewrite Hpath, Htr. by destruct (generate_speech_engine _ _ _ _ _). }
  destruct (truthy style_name); simpl; [|exact Hdefault].
  destruct (dict_get style_name (styles p)) as [st|] eqn:Hst; simpl;
    [|exact Hdefault].
  destruct (truthy (style_sample st)) eqn:Hname; [|exact Hdefault].
  destruct (Hrefs _ _ Hst) as [s Hs]. exists (style_sample st), s.
  split; [done|]. split; [done|].
  destruct (Hcall _ _ Hs) as [Hpath Htr].
  unfold mbind, result_bind, mret, result_ret. simpl.
  rewrite Hpath, Htr. by destruct (generate_speech_engine _ _ _ _ _).
Qed.

(** X23.  Without a sample nothing is synthesised: on a profile the store
    does not know, or one that has no samples (and whose styles all name
    samples of it), the "generate speech" handler returns no audio and the
    one warning that no voice samples were found, whatever the engine. *)
Theorem generate_speech_handler_no_samples w profile_name style_name text
    remove_silence speed_quality :
  truthy profile_name = true ->
  truthy (strip text) = true ->
  (dict_get profile_name (profiles w) = None
   \/ exists p, dict_get profile_name (profiles w) = Some p
                /\ samples p = [] /\ style_refs_ok p) ->
  App.generate_speech settings generate_speech_engine w profile_name
    style_name text remove_silence speed_quality
  = (None, ["No voice samples found for this profile."]).
Proof.
  intros Hpn Htext Hcase. unfold App.generate_speech.
  rewrite Hpn, Htext. simpl.
  rewrite get_style_sample_find. unfold find_style.
  destruct Hcase as [Hp|(p & Hp & Hs & Hrefs)]; rewrite Hp; simpl.
  - unfold list_samples. rewrite (dict_mem_none _ _ Hp).
    by destruct (truthy style_name).
  - rewrite (list_samples_known _ _ _ Hp), Hs.
    destruct (truthy style_name); [|done].
    destruct (dict_get style_name (styles p)) as [st|] eqn:Hst; [|done].
    destruct (Hrefs _ _ Hst) as [s Hget]. by rewrite Hs in Hget.
Qed.

End Cloner.

End Handlers.

(* ===================================================================== *)
(** * Part IV: the disk that can refuse, and the loaded dictionaries      *)
(* ===================================================================== *)

Import Conditions.

(** ** The look-ups on loaded profile dictionaries *)

Section RawFacts.



Lemma getitem_profile_samples (p : Profile) :
  Raw.getitem (Raw.profile_json p) "samples"
  = Ok (Raw.JObj (Raw.dict_json Raw.sample_json (samples p))).
Proof. reflexivity. Qed.

Lemma getitem_profile_styles (p : Profile) :
  Raw.getitem (Raw.profile_json p) "styles"
  = Ok (Raw.JObj (Raw.dict_json Raw.style_json (styles p))).
Proof. reflexivity. Qed.





Lemma lookup_missing_section section field missing ps profile_name key members :
  dict_get profile_name ps = Some (Raw.JObj members) ->
  dict_get section members = None ->
  Raw.lookup section field missing ps profile_name key
  = Raise (KeyError section).
Proof.
  intros Hp Hs. unfold Raw.lookup, dict_mem, dict_index. rewrite Hp. simpl.
  unfold dict_index. by rewrite Hs.
Qed.

Lemma listing_missing_section section ps profile_name members :
  dict_get profile_name ps = Some (Raw.JObj members) ->
  dict_get section members = None ->
  Raw.listing section ps profile_name = Raise (KeyError section).
Proof.
  intros Hp Hs. unfold Raw.listing, dict_mem, dict_index. rewrite Hp. simpl.
  unfold dict_index. by rewrite Hs.
Qed.




End RawFacts.

(** ** The store on the disk that can refuse *)


Section DiskFacts.

Variable refused : string -> bool.

Implicit Types (w : world) (now : struct_time) (p : Profile) (o : op).

(** *** Directories and paths *)







Lemma joinpath_length a b :
  String.length (a </> b) = String.length a + 1 + String.length b.
Proof. unfold joinpath. rewrite !str_app_length. simpl. lia. Qed.


Lemma joinpath2_ne a b c : a </> b </> c <> a.
Proof. intros H%(f_equal String.length). rewrite !joinpath_length in H. lia. Qed.





Lemma is_dir_dirs w w' q : dirs w' = dirs w -> Disk.is_dir w' q = Disk.is_dir w q.
Proof. unfold Disk.is_dir. by intros ->. Qed.

(** *** The primitives *)

(** [mkdir] touches the directories only, and only adds. *)
Lemma mkdir_frame parents dir name w r w1 :
  Disk.mkdir refused parents dir name w = (r, w1) ->
  profiles_dir w1 = profiles_dir w /\ current_profile w1 = current_profile w
  /\ profiles w1 = profiles w /\ files w1 = files w /\ dirs w ⊆ dirs w1.
Proof.
  unfold Disk.mkdir, Store.mkdir. simpl. intros H.
  repeat (match type of H with
          | context [if ?b then _ else _] => destruct b
          end);
    simplify_eq; simpl; repeat split; try done; set_solver.
Qed.


Lemma write_file_pass dir name f w :
  can_write refused w dir name = true ->
  Disk.write_file refused dir name f w = Store.write_file (dir </> name) f w.
Proof.
  unfold can_write. rewrite !andb_true_iff, !negb_true_iff.
  intros [[[Hdir Hfdir] Hthere] Hrefused]. unfold Disk.write_file.
  by rewrite Hthere, Hfdir, Hdir, Hrefused.
Qed.

Lemma write_file_fails dir name f w :
  can_write refused w dir name = false ->
  exists e, Disk.write_file refused dir name f w = (Raise e, w).
Proof.
  unfold can_write, Disk.write_file. intros H.
  destruct (Disk.is_dir w (dir </> name)); [by eexists|].
  destruct (Disk.is_file w dir); [by eexists|].
  destruct (Disk.is_dir w dir); [|by eexists].
  destruct (refused (dir </> name)); [by eexists|done].
Qed.

(** A write goes through as on the disk that takes everything, or raises
    and leaves the world as it is. *)
Lemma write_file_cases dir name f w :
  Disk.write_file refused dir name f w = Store.write_file (dir </> name) f w
  \/ exists e, Disk.write_file refused dir name f w = (Raise e, w).
Proof.
  destruct (can_write refused w dir name) eqn:Hcan.
  - left. by apply write_file_pass.
  - right. by apply write_file_fails.
Qed.

Lemma can_write_insert dir name q f w :
  q <> dir ->
  can_write refused
    (mk_world (profiles_dir w) (current_profile w) (profiles w) (dirs w)
       (<[ q := f ]> (files w))) dir name
  = can_write refused w dir name.
Proof.
  intros Hne. unfold can_write, Disk.is_dir, Disk.is_file. simpl.
  by rewrite lookup_insert_ne.
Qed.

Lemma can_write_profiles dir name ps cur w :
  can_write refused (mk_world (profiles_dir w) cur ps (dirs w) (files w)) dir name
  = can_write refused w dir name.
Proof. done. Qed.

(** *** The calls *)

(** Each call runs as in [Store], or raises. *)
Lemma add_sample_cases now profile_name sample_name audio_path transcription w :
  Disk.add_sample refused now profile_name sample_name audio_path transcription w
  = Store.add_sample now profile_name sample_name audio_path transcription w
  \/ exists e w',
       Disk.add_sample refused now profile_name sample_name audio_path
         transcription w = (Raise e, w').
Proof.
  unfold Disk.add_sample, Store.add_sample. io_unfold.
  destruct (dict_mem profile_name (profiles w)); simpl; [|by left].
  unfold torchaudio_load.
  destruct (files w !! audio_path) as [[q|audio sr]|]; try by left.
  simpl. unfold Disk.torchaudio_save.
  case_bool_decide; [right; by eexists _, _|].
  match goal with
  | |- context [Disk.write_file refused ?d ?n ?f w] =>
      destruct (write_file_cases d n f w) as [->|[e ->]]
  end; [|right; by eexists _, _].
  unfold Store.write_file, dict_index. simpl.
  destruct (dict_get profile_name (profiles w)) as [p|] eqn:Hp; simpl;
    [|by left].
  repeat (rewrite ?Hp, ?dict_get_set_eq; simpl). unfold Disk.json_dump.
  match goal with
  | |- context [Disk.write_file refused ?d ?n ?f ?w1] =>
      destruct (write_file_cases d n f w1) as [->|[e ->]]
  end; [by left|right; by eexists _, _].
Qed.

Lemma add_style_cases now profile_name style_name sample_name w :
  Disk.add_style refused now profile_name style_name sample_name w
  = Store.add_style now profile_name style_name sample_name w
  \/ exists e w',
       Disk.add_style refused now profile_name style_name sample_name w
       = (Raise e, w').
Proof.
  unfold Disk.add_style, Store.add_style. io_unfold.
  destruct (dict_mem profile_name (profiles w)); simpl; [|by left].
  unfold dict_index.
  destruct (dict_get profile_name (profiles w)) as [p|] eqn:Hp; simpl;
    [|by left].
  destruct (dict_mem sample_name (samples p)); simpl; [|by left].
  repeat (rewrite ?Hp, ?dict_get_set_eq; simpl). unfold Disk.json_dump.
  match goal with
  | |- context [Disk.write_file refused ?d ?n ?f ?w1] =>
      destruct (write_file_cases d n f w1) as [->|[e ->]]
  end; [by left|right; by eexists _, _].
Qed.

Lemma save_output_cases now now' profile_name output_name audio sr text style w :
  Disk.save_output refused now now' profile_name output_name audio sr text style w
  = Store.save_output now now' profile_name output_name audio sr text style w
  \/ exists e w',
       Disk.save_output refused now now' profile_name output_name audio sr
         text style w = (Raise e, w').
Proof.
  unfold Disk.save_output, Store.save_output. io_unfold.
  destruct (dict_mem profile_name (profiles w)); simpl; [|by left].
  unfold Disk.sf_write.
  match goal with
  | |- context [Disk.write_file refused ?d ?n ?f w] =>
      destruct (write_file_cases d n f w) as [->|[e ->]]
  end; [|right; by eexists _, _].
  unfold Store.write_file, dict_index. simpl.
  destruct (dict_get profile_name (profiles w)) as [p|] eqn:Hp; simpl;
    [|by left].
  unfold Disk.json_dump.
  destruct (outputs p) as [outs|] eqn:Houts; simpl;
    repeat (rewrite ?Hp, ?Houts, ?dict_get_set_eq; simpl);
    match goal with
    | |- context [Disk.write_file refused ?d ?n ?f ?w1] =>
        destruct (write_file_cases d n f w1) as [->|[e ->]]
    end; (by left) || (right; by eexists _, _).
Qed.

(** [create_profile] on a new name: it raises before anything is registered,
    or it registers the new profile and has written its manifest. *)
Lemma create_profile_trace now name description w :
  dict_mem name (profiles w) = false ->
  let data := mk_profile name description (strftime_iso now) [] [] None in
  exists ds,
    dirs w ⊆ ds
    /\ ((exists e,
           Disk.create_profile refused now name description w
           = (Raise e, mk_world (profiles_dir w) (current_profile w)
                         (profiles w) ds (files w)))
        \/ Disk.create_profile refused now name description w
           = (Ok ("Profile '" +:+ name +:+ "' created successfully."),
              mk_world (profiles_dir w) (Some name)
                (dict_set name data (profiles w)) ds
                (<[ profiles_dir w </> name </> "profile.json" := Manifest data ]>
                   (files w)))).
Proof.
  intros Hmem data. unfold Disk.create_profile. io_unfold. rewrite Hmem. simpl.
  destruct (Disk.mkdir refused true (profiles_dir w) name w)
    as [r1 w1] eqn:H1.
  destruct (mkdir_frame _ _ _ _ _ _ H1) as (Hroot1 & Hcur1 & Hps1 & Hfs1 & Hsub1).
  destruct r1 as [[]|e1].
  2: { exists (dirs w1). split; [done|]. left. exists e1.
       destruct w1; simpl in *; by subst. }
  destruct (Disk.mkdir refused false (profiles_dir w </> name) "samples" w1)
    as [r2 w2] eqn:H2.
  destruct (mkdir_frame _ _ _ _ _ _ H2) as (Hroot2 & Hcur2 & Hps2 & Hfs2 & Hsub2).
  destruct r2 as [[]|e2].
  2: { exists (dirs w2). split; [set_solver|]. left. exists e2.
       destruct w2; simpl in *; congruence. }
  destruct (Disk.mkdir refused false (profiles_dir w </> name) "outputs" w2)
    as [r3 w3] eqn:H3.
  destruct (mkdir_frame _ _ _ _ _ _ H3) as (Hroot3 & Hcur3 & Hps3 & Hfs3 & Hsub3).
  assert (w3 = mk_world (profiles_dir w) (current_profile w) (profiles w)
                 (dirs w3) (files w)) as Hw3.
  { destruct w3; simpl in *; congruence. }
  exists (dirs w3). split; [set_solver|].
  destruct r3 as [[]|e3]; [|left; exists e3; by rewrite <- Hw3].
  unfold Disk.json_dump.
  match goal with
  | |- context [Disk.write_file refused ?d ?n ?f w3] =>
      destruct (write_file_cases d n f w3) as [->|[e ->]]
  end.
  - right. unfold Store.write_file. simpl. rewrite Hroot3, Hroot2, Hroot1.
    rewrite Hps3, Hps2, Hps1, Hfs3, Hfs2, Hfs1. done.
  - left. exists e. by rewrite <- Hw3.
Qed.


(** *** A call that returns ran as in [Store] *)

Lemma add_sample_returns now profile_name sample_name audio_path transcription
    w msg w' :
  Disk.add_sample refused now profile_name sample_name audio_path transcription w
  = (Ok msg, w') ->
  Store.add_sample now profile_name sample_name audio_path transcription w
  = (Ok msg, w').
Proof.
  intros Hrun.
  destruct (add_sample_cases now profile_name sample_name audio_path
              transcription w) as [<-|(e & w'' & Hraise)]; [done|].
  rewrite Hrun in Hraise. by simplify_eq.
Qed.

Lemma add_style_returns now profile_name style_name sample_name w msg w' :
  Disk.add_style refused now profile_name style_name sample_name w = (Ok msg, w') ->
  Store.add_style now profile_name style_name sample_name w = (Ok msg, w').
Proof.
  intros Hrun.
  destruct (add_style_cases now profile_name style_name sample_name w)
    as [<-|(e & w'' & Hraise)]; [done|].
  rewrite Hrun in Hraise. by simplify_eq.
Qed.

Lemma save_output_returns now now' profile_name output_name audio sr text style
    w path w' :
  Disk.save_output refused now now' profile_name output_name audio sr text
    style w = (Ok path, w') ->
  Store.save_output now now' profile_name output_name audio sr text style w
  = (Ok path, w').
Proof.
  intros Hrun.
  destruct (save_output_cases now now' profile_name output_name audio sr text
              style w) as [<-|(e & w'' & Hraise)]; [done|].
  rewrite Hrun in Hraise. by simplify_eq.
Qed.

(** The manager and the files after a call that returned are those of
    [Store]; the directories may be fewer, where a directory was there. *)
Lemma run_returns o w msg w' :
  Disk.run refused o w = (Ok msg, w') ->
  same_store (after o w) w' /\ (Runs.run o w).1 = Ok msg.
Proof.
  destruct o as [now name description
                |now profile_name sample_name audio_path transcription
                |now profile_name style_name sample_name
                |now now' profile_name output_name audio sr text style];
    unfold after; simpl; intros Hrun.
  - destruct (dict_mem name (profiles w)) eqn:Hmem.
    + rewrite create_profile_known by done.
      unfold Disk.create_profile in Hrun. revert Hrun. io_unfold.
      rewrite Hmem. by intros [= <- <-].
    + rewrite create_profile_new by done.
      destruct (create_profile_trace now name description w Hmem)
        as (ds & _ & [[e Hraise]|Hok]); rewrite Hrun in *; simplify_eq.
      simpl. split; [|done]. repeat split; simpl; try done.
      by rewrite dict_set_absent by by apply dict_mem_false.
  - by rewrite (add_sample_returns _ _ _ _ _ _ _ _ Hrun).
  - by rewrite (add_style_returns _ _ _ _ _ _ _ Hrun).
  - by rewrite (save_output_returns _ _ _ _ _ _ _ _ _ _ _ Hrun).
Qed.

(** *** When a call goes through *)

Lemma can_write_eq w w' dir name :
  dirs w' = dirs w -> Disk.is_file w' dir = Disk.is_file w dir ->
  can_write refused w' dir name = can_write refused w dir name.
Proof. unfold can_write, Disk.is_dir. by intros -> ->. Qed.

Lemma add_sample_pass now profile_name sample_name audio_path transcription w :
  let samples_dir := profiles_dir w </> profile_name </> "samples" in
  let sample_filename := replace " " "_" sample_name +:+ splitext_ext audio_path in
  splitext_ext sample_filename <> "" ->
  can_write refused w samples_dir sample_filename = true ->
  can_flush refused w profile_name = true ->
  Disk.add_sample refused now profile_name sample_name audio_path transcription w
  = Store.add_sample now profile_name sample_name audio_path transcription w.
Proof.
  intros samples_dir sample_filename Hext Hcopy Hflush.
  unfold Disk.add_sample, Store.add_sample. io_unfold.
  destruct (dict_mem profile_name (profiles w)); simpl; [|done].
  unfold torchaudio_load.
  destruct (files w !! audio_path) as [[q|audio sr]|]; try done.
  simpl. unfold Disk.torchaudio_save.
  rewrite bool_decide_eq_false_2 by done.
  fold samples_dir sample_filename. rewrite (write_file_pass _ _ _ _ Hcopy).
  unfold Store.write_file, dict_index. simpl.
  destruct (dict_get profile_name (profiles w)) as [p|] eqn:Hp; simpl; [|done].
  repeat (rewrite ?Hp, ?dict_get_set_eq; simpl). unfold Disk.json_dump.
  rewrite write_file_pass; [done|].
  erewrite can_write_eq; [exact Hflush|done|].
  unfold Disk.is_file. simpl. rewrite lookup_insert_ne; [done|].
  subst samples_dir. apply joinpath2_ne.
Qed.

Lemma add_style_pass now profile_name style_name sample_name w :
  can_flush refused w profile_name = true ->
  Disk.add_style refused now profile_name style_name sample_name w
  = Store.add_style now profile_name style_name sample_name w.
Proof.
  intros Hflush. unfold Disk.add_style, Store.add_style. io_unfold.
  destruct (dict_mem profile_name (profiles w)); simpl; [|done].
  unfold dict_index.
  destruct (dict_get profile_name (profiles w)) as [p|] eqn:Hp; simpl; [|done].
  destruct (dict_mem sample_name (samples p)); simpl; [|done].
  repeat (rewrite ?Hp, ?dict_get_set_eq; simpl). unfold Disk.json_dump.
  by rewrite write_file_pass.
Qed.

(** X1.  A sample that was added is found again.  On a known profile with
    a one-component name, a readable source, a file name for the copy that
    is one component and has an extension, a samples directory in which the
    copy can be written and a manifest that can be written, [add_sample]
    returns its message; then [get_transcription] gives the transcription
    that was passed, [get_sample_path] gives the path of the copy in the
    samples directory, the file at that path is the one written from the
    audio and the rate of the source, and the manifest holds the profile's
    dictionary. *)
Theorem add_sample_round_trip w now profile_name sample_name audio_path
    transcription p audio sr :
  let samples_dir := profiles_dir w </> profile_name </> "samples" in
  let sample_filename :=
    replace " " "_" sample_name +:+ splitext_ext audio_path in
  dict_get profile_name (profiles w) = Some p ->
  files w !! audio_path = Some (Wav audio sr) ->
  clean_path (profiles_dir w) = true ->
  simple_name profile_name = true ->
  simple_name sample_filename = true ->
  splitext_ext sample_filename <> "" ->
  can_write refused w samples_dir sample_filename = true ->
  can_flush refused w profile_name = true ->
  let r := Disk.add_sample refused now profile_name sample_name audio_path
             transcription w in
  let copy := sample_file w profile_name sample_name audio_path in
  r.1 = Ok ("Sample '" +:+ sample_name +:+ "' added to profile '"
            +:+ profile_name +:+ "'.")
  /\ get_transcription r.2 profile_name sample_name = Ok transcription
  /\ get_sample_path r.2 profile_name sample_name = Ok (Some copy)
  /\ files r.2 !! copy = Some (Wav audio sr)
  /\ exists p',
       dict_get profile_name (profiles r.2) = Some p'
       /\ files r.2 !! manifest_path w profile_name = Some (Manifest p').
Proof.
  intros samples_dir sample_filename Hp Hfile _ _ _ Hext Hcopy Hflush r copy.
  subst r. rewrite (add_sample_pass _ _ _ _ _ _ Hext Hcopy Hflush).
  rewrite (add_sample_known _ _ _ _ _ _ _ Hp), Hfile. simpl.
  rewrite get_transcription_find, get_sample_path_find.
  unfold find_sample. simpl. rewrite !dict_get_set_eq. simpl.
  rewrite !dict_get_set_eq. simpl. do 3 (split; [done|]). split.
  - rewrite lookup_insert_ne by apply not_eq_sym, sample_file_not_manifest.
    apply lookup_insert_eq.
  - eexists. split; [done|]. apply lookup_insert_eq.
Qed.

(** X3.  After an [add_sample] that returned on a known profile, a new
    name is last in [list_samples] and a name that was present keeps its
    place; the entry (path, transcription, time) of every other sample of
    the profile is as before.  The audio file of another sample is not
    protected: one whose entry has the path of the new copy, as happens
    when two names differ in blanks and underscores only, now holds the new
    audio. *)
Theorem add_sample_order w now profile_name sample_name audio_path
    transcription p msg w' :
  dict_get profile_name (profiles w) = Some p ->
  Disk.add_sample refused now profile_name sample_name audio_path
    transcription w = (Ok msg, w') ->
  list_samples w' profile_name
  = Ok (if dict_mem sample_name (samples p)
        then dict_keys (samples p)
        else dict_keys (samples p) ++ [sample_name])
  /\ (forall other,
        other <> sample_name ->
        find_sample w' profile_name other = find_sample w profile_name other)
  /\ (forall other s,
        find_sample w profile_name other = Some s ->
        sample_path s = sample_file w profile_name sample_name audio_path ->
        is_Some (files w !! audio_path)
        /\ files w' !! sample_path s = files w !! audio_path).
Proof.
  intros Hp Hrun%add_sample_returns.
  rewrite (add_sample_known _ _ _ _ _ _ _ Hp) in Hrun.
  destruct (files w !! audio_path) as [[q|audio sr]|] eqn:Hfile;
    try discriminate Hrun.
  injection Hrun as <- <-. simpl. split; [|split].
  - erewrite list_samples_known by (simpl; apply dict_get_set_eq).
    simpl. by rewrite dict_keys_set.
  - intros other Hne. unfold find_sample. simpl.
    rewrite dict_get_set_eq, Hp. simpl. by rewrite dict_get_set_ne.
  - intros other s _ ->. split; [done|].
    rewrite lookup_insert_ne by apply not_eq_sym, sample_file_not_manifest.
    apply lookup_insert_eq.
Qed.

(** X4.  A style that was linked is found again.  On a known profile with
    a one-component name, a sample of it and a manifest that can be
    written, [add_style] returns its message; then [get_style_sample] gives
    that sample, the style is last in [list_styles] if it is new and keeps
    its place if it was there, the samples are as before, the manifest
    holds the profile's dictionary, and every other file is as before. *)
Theorem add_style_round_trip w now profile_name style_name sample_name p s :
  dict_get profile_name (profiles w) = Some p ->
  dict_get sample_name (samples p) = Some s ->
  clean_path (profiles_dir w) = true ->
  simple_name profile_name = true ->
  can_flush refused w profile_name = true ->
  let r := Disk.add_style refused now profile_name style_name sample_name w in
  r.1 = Ok ("Style '" +:+ style_name +:+ "' added to profile '"
            +:+ profile_name +:+ "'.")
  /\ get_style_sample r.2 profile_name style_name = Ok (Some sample_name)
  /\ list_styles r.2 profile_name
     = Ok (if dict_mem style_name (styles p)
           then dict_keys (styles p)
           else dict_keys (styles p) ++ [style_name])
  /\ (forall key, find_sample r.2 profile_name key = find_sample w profile_name key)
  /\ (exists p',
        dict_get profile_name (profiles r.2) = Some p'
        /\ files r.2 !! manifest_path w profile_name = Some (Manifest p'))
  /\ (forall path,
        clean_path path = true ->
        path <> manifest_path w profile_name ->
        files r.2 !! path = files w !! path).
Proof.
  intros Hp Hs _ _ Hflush r. subst r. rewrite (add_style_pass _ _ _ _ _ Hflush).
  rewrite (add_style_known _ _ _ _ _ _ _ Hp Hs). simpl.
  split; [done|]. split; [|split; [|split; [|split]]].
  - rewrite get_style_sample_find. unfold find_style. simpl.
    rewrite dict_get_set_eq. simpl. by rewrite dict_get_set_eq.
  - erewrite list_styles_known by (simpl; apply dict_get_set_eq).
    simpl. by rewrite dict_keys_set.
  - intros key. unfold find_sample. simpl. by rewrite dict_get_set_eq, Hp.
  - eexists. rewrite dict_get_set_eq. split; [done|]. apply lookup_insert_eq.
  - intros path _ Hne. by rewrite lookup_insert_ne.
Qed.

(** X7.  A call that returns has flushed, and only where it belongs: for a
    target and an audio file with one-component names, either the profile
    map and the files are as before, or the manifest file of the target
    holds the target's dictionary as it is in memory; and no other file
    differs from before but that manifest and, for [add_sample] and
    [save_output], the audio file written under the target's directory. *)
Theorem run_flushes o w msg w' :
  Disk.run refused o w = (Ok msg, w') ->
  clean_path (profiles_dir w) = true ->
  plain_call o = true ->
  ((profiles w' = profiles w /\ files w' = files w)
   \/ exists p',
        dict_get (target o) (profiles w') = Some p'
        /\ files w' !! manifest_path w (target o) = Some (Manifest p'))
  /\ (forall path,
        clean_path path = true ->
        path ∉ written o w -> files w' !! path = files w !! path).
Proof.
  intros [(_ & _ & Hps & Hfs) _]%run_returns _ _. rewrite Hps, Hfs.
  destruct (after_cases o w) as [->|(p' & _ & Hps' & _ & _ & _ & Hman & Hfiles)].
  { split; [by left|done]. }
  split; [|by intros path _; apply Hfiles]. right. exists p'. split; [|done].
  rewrite Hps'. apply dict_get_set_eq.
Qed.

(** X26.  A flush that fails leaves the memory ahead of the disk:
    [add_style] on a known profile and a sample of it, when the manifest
    cannot be written (the profile's directory is missing, say), raises
    after it has made the link in memory, so that [get_style_sample] gives
    the sample while no file has changed. *)
Theorem add_style_unflushed w now profile_name style_name sample_name p s :
  dict_get profile_name (profiles w) = Some p ->
  dict_get sample_name (samples p) = Some s ->
  can_flush refused w profile_name = false ->
  exists e w',
    Disk.add_style refused now profile_name style_name sample_name w
    = (Raise e, w')
    /\ get_style_sample w' profile_name style_name = Ok (Some sample_name)
    /\ files w' = files w /\ dirs w' = dirs w.
Proof.
  intros Hp Hs Hflush. unfold Disk.add_style. io_unfold.
  rewrite (dict_mem_some _ _ _ Hp). simpl. unfold dict_index.
  repeat (rewrite ?Hp, ?dict_get_set_eq; simpl).
  rewrite (dict_mem_some _ _ _ Hs). simpl.
  repeat (rewrite ?Hp, ?dict_get_set_eq; simpl).
  unfold Disk.json_dump.
  match goal with
  | |- context [Disk.write_file refused ?d ?n ?f ?w1] =>
      destruct (write_file_fails d n f w1 Hflush) as [e ->]
  end.
  eexists _, _. split; [done|]. simpl. split; [|done].
  rewrite get_style_sample_find. unfold find_style. simpl.
  rewrite dict_get_set_eq. simpl. by rewrite dict_get_set_eq.
Qed.

End DiskFacts.

(** ** The handlers over the disk that can refuse *)

Section DiskHandlers.

Variable refused : string -> bool.

Implicit Types (w : world) (now : struct_time) (p : Profile).

Lemma create_profile_returns_present w now name description msg w' :
  Disk.create_profile refused now name description w = (Ok msg, w') ->
  is_Some (dict_get name (profiles w')).
Proof.
  intros Hrun. destruct (dict_mem name (profiles w)) eqn:Hmem.
  - unfold Disk.create_profile in Hrun. revert Hrun. io_unfold. rewrite Hmem.
    intros [= <- <-]. by apply dict_mem_true.
  - destruct (create_profile_trace refused now name description w Hmem)
      as (ds & _ & [[e Hraise]|Hok]); rewrite Hrun in *; simplify_eq.
    simpl. rewrite dict_get_set_eq. by eexists.
Qed.

(** X17.  The "create profile" handler: with an empty name it asks for one
    and leaves the store and the four drop-downs alone.  With any other
    name, when the store's call returns the handler passes its message on,
    and the four drop-downs get the profile names of the store and the
    entered name as their value, whether the profile was created or was
    there already; when the store's call raises, for a file in the way or
    a refusal of the disk, the handler raises the same error. *)
Theorem create_profile_handler w now name description :
  (truthy name = false ->
   DiskApp.create_profile refused now name description w
   = (Ok ("Please enter a profile name.",
          (App.mk_update None None, App.mk_update None None,
           App.mk_update None None, App.mk_update None None)), w))
  /\ (truthy name = true ->
      (forall msg w',
         Disk.create_profile refused now name description w = (Ok msg, w') ->
         name ∈ dict_keys (profiles w')
         /\ DiskApp.create_profile refused now name description w
            = (let u := App.mk_update (Some (dict_keys (profiles w')))
                          (Some (Some name)) in
               (Ok (msg, (u, u, u, u)), w')))
      /\ (forall e w',
            Disk.create_profile refused now name description w = (Raise e, w') ->
            DiskApp.create_profile refused now name description w
            = (Raise e, w'))).
Proof.
  split; intros Hname; unfold DiskApp.create_profile; rewrite Hname; [done|].
  simpl. unfold mbind, io_bind, App.ask. split.
  - intros msg w' Hrun.
    destruct (create_profile_returns_present _ _ _ _ _ _ Hrun) as [p Hp].
    apply dict_get_in_keys in Hp. rewrite Hrun. simpl.
    split; [done|]. by rewrite bool_decide_eq_true_2.
  - intros e w' Hrun. by rewrite Hrun.
Qed.

(** X21.  An output saved through the handler is found in the history.  On
    a known profile and with a given name that has no slash, when the
    store's call returns the handler reports the file name (the given name
    with blanks replaced, or [output_<stamp>] when no name was given, then
    the stamp and [.wav]), the file is the one written from the audio, the
    entry records the style, ["default"] when none was chosen,
    [load_history_item] on the name gives the file's path and the text, and
    [refresh_history] lists the name.  When the store's call raises, a
    missing outputs directory say, the handler answers "Error saving
    output" with the error. *)
Theorem save_output_handler_round_trip w now0 now now' profile_name output_name
    sample_rate audio text style_name p :
  truthy profile_name = true ->
  has_char "/" output_name = false ->
  dict_get profile_name (profiles w) = Some p ->
  clean_path (profiles_dir w) = true ->
  simple_name profile_name = true ->
  let name := if truthy output_name then output_name
              else "output_" +:+ strftime_compact now0 in
  let style := if truthy style_name then style_name else "default" in
  let path := output_file w profile_name name now in
  let run := Disk.save_output refused now now' profile_name name audio
               sample_rate text style w in
  let r := DiskApp.save_output refused now0 now now' profile_name output_name
             (Some (sample_rate, audio)) text style_name w in
  (forall saved w',
     run = (Ok saved, w') ->
     r = (Ok ("Output saved as " +:+ output_filename name now), w')
     /\ saved = path
     /\ files w' !! path = Some (Wav audio sample_rate)
     /\ (exists p' outs o,
           dict_get profile_name (profiles w') = Some p'
           /\ outputs p' = Some outs
           /\ dict_get name outs = Some o
           /\ output_style o = style)
     /\ App.load_history_item w' profile_name name = Ok (Some path, text)
     /\ (exists names,
           App.refresh_history w' profile_name
           = Ok (App.mk_update (Some names) (Some None))
           /\ name ∈ names))
  /\ (forall e w',
        run = (Raise e, w') ->
        r = (Ok ("Error saving output: " +:+ App.exn_str e), w')).
Proof.
  intros Hpn Hslash Hp _ _ name style path run r.
  assert (Hname : truthy name = true) by (subst name; by destruct output_name).
  assert (Hns : has_char "/" name = false).
  { subst name. destruct (truthy output_name); [done|].
    by rewrite has_char_app, strftime_compact_no_slash. }
  assert (r = match run with
              | (Ok saved, w') =>
                  (Ok ("Output saved as " +:+ basename saved), w')
              | (Raise e, w') =>
                  (Ok ("Error saving output: " +:+ App.exn_str e), w')
              end) as Hr.
  { subst r run. unfold DiskApp.save_output. rewrite Hpn. simpl.
    replace (if negb (truthy output_name)
             then "output_" +:+ strftime_compact now0 else output_name)
      with name by (subst name; by destruct (truthy output_name)).
    fold style. unfold App.try_except, mbind, io_bind, App.os_path_basename.
    by destruct (Disk.save_output _ _ _ _ _ _ _ _ _ _) as [[saved|e] w']. }
  split.
  - intros saved w' Hrun. rewrite Hr, Hrun.
    apply save_output_returns in Hrun.
    rewrite (save_output_known _ _ _ _ _ _ _ _ _ _ Hp) in Hrun.
    injection Hrun as <- <-. fold path. split.
    { subst path. unfold output_file.
      by rewrite basename_joinpath by by rewrite output_filename_no_slash. }
    split; [done|]. simpl. split.
    { rewrite lookup_insert_ne by apply not_eq_sym, output_file_not_manifest.
      apply lookup_insert_eq. }
    split.
    { do 3 eexists. rewrite dict_get_set_eq. simpl. split; [done|].
      split; [done|]. by rewrite dict_get_set_eq. }
    split.
    + unfold App.load_history_item. rewrite Hpn, Hname. simpl.
      unfold dict_mem, dict_index. rewrite dict_get_set_eq. simpl.
      unfold dict_mem. by rewrite dict_get_set_eq.
    + unfold App.refresh_history. rewrite Hpn. simpl.
      unfold dict_mem, dict_index. rewrite dict_get_set_eq. simpl.
      eexists. split; [done|]. eapply dict_get_in_keys, dict_get_set_eq.
  - intros e w' Hrun. by rewrite Hr, Hrun.
Qed.

(** X24.  Whenever the "add style" handler returns with the store changed,
    the profile, the style and the sample all have a name that is not
    empty, the message is the store's "Style ... added to profile ...",
    and the style then leads to the sample, which exists in the profile. *)
Theorem add_style_handler_links w now profile_name style_name sample_name
    msg w' :
  DiskApp.add_style refused now profile_name style_name sample_name w
  = (Ok msg, w') ->
  w' = w
  \/ (truthy profile_name = true /\ truthy style_name = true
      /\ truthy sample_name = true
      /\ msg = "Style '" +:+ style_name +:+ "' added to profile '"
               +:+ profile_name +:+ "'."
      /\ get_style_sample w' profile_name style_name = Ok (Some sample_name)
      /\ is_Some (find_sample w' profile_name sample_name)).
Proof.
  unfold DiskApp.add_style.
  destruct (truthy profile_name) eqn:Hpn; simpl; [|by intros [= <- <-]; left].
  destruct (truthy style_name) eqn:Hst; simpl; [|by intros [= <- <-]; left].
  destruct (truthy sample_name) eqn:Hsn; simpl; [|by intros [= <- <-]; left].
  intros Hrun%add_style_returns.
  destruct (dict_get profile_name (profiles w)) as [p|] eqn:Hp.
  - destruct (dict_get sample_name (samples p)) as [s|] eqn:Hs.
    + rewrite (add_style_known _ _ _ _ _ _ _ Hp Hs) in Hrun.
      injection Hrun as <- <-. right. do 4 (split; [done|]).
      rewrite get_style_sample_find. unfold find_style, find_sample. simpl.
      rewrite dict_get_set_eq. simpl. rewrite dict_get_set_eq. simpl.
      split; [done|]. by rewrite Hs.
    + rewrite (add_style_no_sample _ _ _ _ _ _ Hp Hs) in Hrun.
      injection Hrun as <- <-. by left.
  - rewrite add_style_unknown in Hrun by done. injection Hrun as <- <-. by left.
Qed.

Variable transcribe_audio : string -> result string.

(** X19.  Which transcription the "add sample" handler stores, and what it
    answers.  The handler passes to the store the typed transcription,
    verbatim, when it is not blank, and the recogniser's text for the chosen
    audio otherwise; a recording is preferred to an upload.  On a known
    profile, when the store's call returns the handler returns the store's
    message with the sample as the value of the drop-down, and previewing
    the sample afterwards ([load_sample]) gives the path of the copy and
    that transcription; when the store's call raises, for a source that
    cannot be read or a copy that cannot be written, the handler answers
    "Error adding sample" with the error. *)
Theorem add_sample_handler_round_trip w now profile_name sample_name
    recorded_audio uploaded_audio transcription p stored :
  let audio_path :=
    if truthy recorded_audio then recorded_audio else uploaded_audio in
  truthy profile_name = true ->
  truthy sample_name = true ->
  truthy audio_path = true ->
  dict_get profile_name (profiles w) = Some p ->
  (if truthy (strip transcription) then stored = transcription
   else transcribe_audio audio_path = Ok stored) ->
  clean_path (profiles_dir w) = true ->
  simple_name profile_name = true ->
  simple_name (replace " " "_" sample_name +:+ splitext_ext audio_path) = true ->
  let run := Disk.add_sample refused now profile_name sample_name audio_path
               stored w in
  let r := DiskApp.add_sample refused transcribe_audio now profile_name
             sample_name recorded_audio uploaded_audio transcription w in
  (forall msg w',
     run = (Ok msg, w') ->
     msg = "Sample '" +:+ sample_name +:+ "' added to profile '"
           +:+ profile_name +:+ "'."
     /\ (exists names,
           r = (Ok (msg, App.mk_update (Some names) (Some (Some sample_name))),
                w')
           /\ sample_name ∈ names)
     /\ App.load_sample w' profile_name sample_name
        = Ok (Some (sample_file w profile_name sample_name audio_path), stored))
  /\ (forall e w',
        run = (Raise e, w') ->
        r = (Ok ("Error adding sample: " +:+ App.exn_str e,
                 App.mk_update (Some []) None), w')).
Proof.
  intros audio_path Hpn Hsn Hap Hp Hstored _ _ _ run r.
  assert (r = match run with
              | (Ok msg, w') =>
                  match list_samples w' profile_name with
                  | Ok names =>
                      (Ok (msg,
                           App.mk_update (Some names)
                             (Some (if bool_decide (sample_name ∈ names)
                                    then Some sample_name else None))), w')
                  | Raise e =>
                      (Ok ("Error adding sample: " +:+ App.exn_str e,
                           App.mk_update (Some []) None), w')
                  end
              | (Raise e, w') =>
                  (Ok ("Error adding sample: " +:+ App.exn_str e,
                       App.mk_update (Some []) None), w')
              end) as Hr.
  { subst r run. unfold DiskApp.add_sample. rewrite Hpn, Hsn. simpl.
    fold audio_path. rewrite Hap. simpl.
    assert ((if negb (truthy (strip transcription))
             then transcribe_audio audio_path else Ok transcription)
            = Ok stored) as ->.
    { destruct (truthy (strip transcription)); simpl; by subst. }
    unfold App.try_except, App.ask, mbind, io_bind.
    destruct (Disk.add_sample _ _ _ _ _ _ _) as [[msg|e] w']; [|done].
    simpl. by destruct (list_samples w' profile_name). }
  split.
  - intros msg w' Hrun. rewrite Hr, Hrun. apply add_sample_returns in Hrun.
    rewrite (add_sample_known _ _ _ _ _ _ _ Hp) in Hrun.
    destruct (files w !! audio_path) as [[q|audio sr]|] eqn:Hfile;
      try discriminate Hrun.
    injection Hrun as <- <-. split; [done|].
    erewrite list_samples_known by (simpl; apply dict_get_set_eq). simpl.
    assert (sample_name ∈ dict_keys
              (dict_set sample_name
                 (mk_sample (sample_file w profile_name sample_name audio_path)
                    stored (strftime_iso now)) (samples p))) as Hin.
    { eapply dict_get_in_keys, dict_get_set_eq. }
    split.
    + eexists. split; [|exact Hin]. by rewrite bool_decide_eq_true_2.
    + unfold App.load_sample. rewrite Hpn, Hsn. simpl.
      rewrite get_sample_path_find, get_transcription_find.
      unfold find_sample. simpl. rewrite dict_get_set_eq. simpl.
      rewrite dict_get_set_eq. simpl.
      unfold sample_file. by rewrite truthy_joinpath.
  - intros e w' Hrun. by rewrite Hr, Hrun.
Qed.

End DiskHandlers.

(** ** The disk and the loaded dictionaries on examples *)

Section DiskExamples.




Lemma add_sample_round_trip_witness :
  let now := mk_time 2024 1 1 12 0 0 in
  let disk := fun _ : string => false in
  let w0 := fresh "voice_profiles" {[ "voice_profiles" ]}
              {[ "/tmp/rec.wav" := Wav [7%Z; 8%Z] 24000%Z ]} in
  let w := (Disk.create_profile disk now "alice" "" w0).2 in
  let r := Disk.add_sample disk now "alice" "take one" "/tmp/rec.wav" "hello" w in
  r.1 = Ok "Sample 'take one' added to profile 'alice'."
  /\ get_transcription r.2 "alice" "take one" = Ok "hello"
  /\ get_sample_path r.2 "alice" "take one"
     = Ok (Some "voice_profiles/alice/samples/take_one.wav")
  /\ files r.2 !! "voice_profiles/alice/samples/take_one.wav"
     = Some (Wav [7%Z; 8%Z] 24000%Z)
  /\ exists p',
       dict_get "alice" (profiles r.2) = Some p'
       /\ files r.2 !! "voice_profiles/alice/profile.json" = Some (Manifest p').
Proof.
  intros now disk w0 w.
  assert (splitext_ext (replace " " "_" "take one" +:+ splitext_ext "/tmp/rec.wav")
          <> "") as Hext by (vm_compute; discriminate).
  exact (add_sample_round_trip disk w now "alice" "take one" "/tmp/rec.wav"
           "hello" _ [7%Z; 8%Z] 24000%Z
           eq_refl eq_refl eq_refl eq_refl eq_refl Hext eq_refl eq_refl).
Defined.

Lemma add_sample_order_witness :
  let now := mk_time 2024 1 1 12 0 0 in
  let disk := fun _ : string => false in
  let w0 := fresh "voice_profiles" {[ "voice_profiles" ]}
              {[ "/tmp/one.wav" := Wav [7%Z; 8%Z] 24000%Z;
                 "/tmp/two.wav" := Wav [9%Z] 16000%Z ]} in
  let w :=
    (Disk.add_sample disk now "alice" "a b" "/tmp/one.wav" "first"
       (Disk.create_profile disk now "alice" "" w0).2).2 in
  let w' := (Disk.add_sample disk now "alice" "a_b" "/tmp/two.wav" "second" w).2 in
  list_samples w' "alice" = Ok ["a b"; "a_b"]
  /\ find_sample w' "alice" "a b" = find_sample w "alice" "a b"
  /\ get_sample_path w "alice" "a b"
     = Ok (Some "voice_profiles/alice/samples/a_b.wav")
  /\ files w !! "voice_profiles/alice/samples/a_b.wav"
     = Some (Wav [7%Z; 8%Z] 24000%Z)
  /\ files w' !! "voice_profiles/alice/samples/a_b.wav"
     = Some (Wav [9%Z] 16000%Z).
Proof.
  intros now disk w0 w w'.
  assert (Disk.add_sample disk now "alice" "a_b" "/tmp/two.wav" "second" w
          = (Ok "Sample 'a_b' added to profile 'alice'.", w')) as Hrun
    by (by vm_compute).
  destruct (add_sample_order disk w now "alice" "a_b" "/tmp/two.wav" "second"
              _ _ w' eq_refl Hrun) as (Hlist & Hothers & Hfile).
  split; [exact Hlist|]. split; [apply Hothers; discriminate|].
  split; [reflexivity|]. split; [reflexivity|].
  exact (proj2 (Hfile "a b" _ eq_refl eq_refl)).
Defined.

Lemma add_style_round_trip_witness :
  let now := mk_time 2024 1 1 12 0 0 in
  let disk := fun _ : string => false in
  let w0 := fresh "voice_profiles" {[ "voice_profiles" ]}
              {[ "/tmp/rec.wav" := Wav [7%Z; 8%Z] 24000%Z ]} in
  let w :=
    (Disk.add_sample disk now "alice" "take one" "/tmp/rec.wav" "hello"
       (Disk.create_profile disk now "alice" "" w0).2).2 in
  let r := Disk.add_style disk now "alice" "calm" "take one" w in
  r.1 = Ok "Style 'calm' added to profile 'alice'."
  /\ get_style_sample r.2 "alice" "calm" = Ok (Some "take one")
  /\ list_styles r.2 "alice" = Ok ["calm"]
  /\ (exists p',
        dict_get "alice" (profiles r.2) = Some p'
        /\ files r.2 !! "voice_profiles/alice/profile.json" = Some (Manifest p'))
  /\ files r.2 !! "voice_profiles/alice/samples/take_one.wav"
     = files w !! "voice_profiles/alice/samples/take_one.wav".
Proof.
  intros now disk w0 w.
  assert (can_flush disk w "alice" = true) as Hflush by (by vm_compute).
  destruct (add_style_round_trip disk w now "alice" "calm" "take one" _ _
              eq_refl eq_refl eq_refl eq_refl Hflush)
    as (Hmsg & Hget & Hlist & _ & Hman & Hfiles).
  split; [exact Hmsg|]. split; [exact Hget|]. split; [exact Hlist|].
  split; [exact Hman|]. apply Hfiles; [reflexivity|].
  intros Heq. vm_compute in Heq. discriminate Heq.
Defined.

Lemma run_flushes_witness :
  let now := mk_time 2024 1 1 12 0 0 in
  let disk := fun _ : string => false in
  let w0 := fresh "voice_profiles" {[ "voice_profiles" ]}
              {[ "/tmp/rec.wav" := Wav [7%Z; 8%Z] 24000%Z ]} in
  let w := (Disk.create_profile disk now "alice" "" w0).2 in
  let o := AddSample now "alice" "take one" "/tmp/rec.wav" "hello" in
  let w' := (Disk.run disk o w).2 in
  (exists p',
     dict_get "alice" (profiles w') = Some p'
     /\ files w' !! "voice_profiles/alice/profile.json" = Some (Manifest p'))
  /\ files w' !! "/tmp/rec.wav" = files w !! "/tmp/rec.wav".
Proof.
  intros now disk w0 w o w'.
  assert (Disk.run disk o w
          = (Ok "Sample 'take one' added to profile 'alice'.", w')) as Hrun
    by (by vm_compute).
  destruct (run_flushes disk o w _ w' Hrun eq_refl eq_refl) as [Hflush Hrest].
  split.
  - destruct Hflush as [[Hps _]|Hflush]; [|exact Hflush].
    vm_compute in Hps. discriminate Hps.
  - apply Hrest; [reflexivity|]. apply (bool_decide_unpack _). by vm_compute.
Defined.

Lemma add_style_unflushed_witness :
  let now := mk_time 2024 1 1 12 0 0 in
  let p := mk_profile "alice" "" "2024-01-01 12:00:00"
             [("take one",
               mk_sample "voice_profiles/alice/samples/take_one.wav" "hello"
                 "2024-01-01 12:00:00")] [] None in
  let w := mk_world "voice_profiles" None [("alice", p)] {[ "voice_profiles" ]} ∅ in
  get_style_sample w "alice" "calm" = Ok None
  /\ exists e w',
       Disk.add_style (fun _ => false) now "alice" "calm" "take one" w
       = (Raise e, w')
       /\ get_style_sample w' "alice" "calm" = Ok (Some "take one")
       /\ files w' = files w /\ dirs w' = dirs w.
Proof.
  intros now p w. split; [reflexivity|].
  exact (add_style_unflushed (fun _ => false) w now "alice" "calm" "take one"
           _ _ eq_refl eq_refl eq_refl).
Defined.

Lemma default_entry_covers_every_segment_witness :
  let m := [("default", [("path", "/ref/a.wav"); ("transcription", "hi")])] in
  let text := "{calm} hello {angry} you" in
  let infer := fun a b c => Standins.demo_infer_process a b c 15%Z 32%Z 10%Z in
  (exists refs,
     mapM reference (resolved m (parse_style_segments text)) = Ok refs
     /\ snd <$> refs = ["hello"; "you"])
  /\ exists out cs,
       Synthesis.generate_multi_style_speech demo_preprocess infer demo_trim
         text m false = Ok (out, cs)
       /\ snd <$> cs = ["hello"; "you"]
       /\ (out = None <-> strip text = "").
Proof.
  intros m text infer.
  assert (map_ok m) as Hm.
  { intros style info Hget Htruthy. unfold m in Hget. simpl in Hget.
    case_decide; simplify_eq. split; by eexists. }
  assert (forall style info, dict_get style m = Some info ->
                             dict_truthy info = true) as Hfull.
  { intros style info Hget. unfold m in Hget. simpl in Hget.
    by case_decide; simplify_eq. }
  destruct (default_entry_covers_every_segment Z demo_preprocess
              Standins.demo_infer_process demo_trim 15%Z 10%Z text m false
              Hm Hfull ltac:(by eexists)) as [Hrefs Hcalls].
  split; [exact Hrefs|].
  assert (Synthesis.generate_multi_style_speech demo_preprocess infer demo_trim
            text m false
          = Ok (Some (24000%Z, [5%Z; 32%Z; 3%Z; 32%Z]),
                [("/ref/a.wav", "hi", "hello"); ("/ref/a.wav", "hi", "you")]))
    as Hrun by (by vm_compute).
  do 2 eexists. split; [exact Hrun|]. exact (Hcalls _ _ Hrun).
Defined.

Lemma unmarked_text_is_basic_synthesis_witness :
  let m := [("default", [("path", "/ref/a.wav"); ("transcription", "hi")])] in
  let infer := fun a b c => Standins.demo_infer_process a b c 15%Z 32%Z 10%Z in
  let one_frame := fun (wave : waveform) (sr : Z) => Ok [1%Z] : result waveform in
  Synthesis.generate_multi_style_speech demo_preprocess infer demo_trim
    "  hello you " m false
  = Ok (Some (24000%Z, [9%Z; 32%Z]), [("/ref/a.wav", "hi", "hello you")])
  /\ Synthesis.generate_multi_style_speech demo_preprocess infer one_frame
       "  hello you " m true
     = Raise (Error "ValueError" "zero-dimensional arrays cannot be concatenated").
Proof.
  intros m infer one_frame. split.
  - destruct (proj1 (proj2 (unmarked_text_is_basic_synthesis Z demo_preprocess
                Standins.demo_infer_process demo_trim 15%Z 10%Z
                "  hello you " m false
                [("path", "/ref/a.wav"); ("transcription", "hi")]
                "/ref/a.wav" "hi" eq_refl ltac:(vm_compute; discriminate)
                eq_refl eq_refl eq_refl)) 24000%Z [9%Z; 32%Z] eq_refl)
      as (ref_audio & ref_text & Hpre & Hrun).
    injection Hpre as <- <-. exact Hrun.
  - exact (proj2 (proj2 (proj2 (unmarked_text_is_basic_synthesis Z demo_preprocess
                Standins.demo_infer_process one_frame 15%Z 10%Z
                "  hello you " m true
                [("path", "/ref/a.wav"); ("transcription", "hi")]
                "/ref/a.wav" "hi" eq_refl ltac:(vm_compute; discriminate)
                eq_refl eq_refl eq_refl)) 24000%Z 1%Z eq_refl)).
Defined.

Lemma create_profile_handler_witness :
  let now := mk_time 2024 1 1 12 0 0 in
  let disk := fun _ : string => false in
  let w := fresh "voice_profiles" {[ "voice_profiles" ]}
             {[ "voice_profiles/bob" := Wav [7%Z] 24000%Z ]} in
  let w' := (Disk.create_profile disk now "alice" "my voice" w).2 in
  DiskApp.create_profile disk now "" "my voice" w
  = (Ok ("Please enter a profile name.",
         (App.mk_update None None, App.mk_update None None,
          App.mk_update None None, App.mk_update None None)), w)
  /\ DiskApp.create_profile disk now "alice" "my voice" w
     = (let u := App.mk_update (Some ["alice"]) (Some (Some "alice")) in
        (Ok ("Profile 'alice' created successfully.", (u, u, u, u)), w'))
  /\ DiskApp.create_profile disk now "bob" "" w
     = (Raise (Error "FileExistsError"
                 "[Errno 17] File exists: 'voice_profiles/bob'"), w).
Proof.
  intros now disk w w'. split; [|split].
  - exact (proj1 (create_profile_handler disk w now "" "my voice") eq_refl).
  - assert (Disk.create_profile disk now "alice" "my voice" w
            = (Ok "Profile 'alice' created successfully.", w')) as Hrun
      by (by vm_compute).
    exact (proj2 (proj1 (proj2 (create_profile_handler disk w now "alice"
                                  "my voice") eq_refl) _ _ Hrun)).
  - assert (Disk.create_profile disk now "bob" "" w
            = (Raise (Error "FileExistsError"
                        "[Errno 17] File exists: 'voice_profiles/bob'"), w))
      as Hrun by (by vm_compute).
    exact (proj2 (proj2 (create_profile_handler disk w now "bob" "") eq_refl)
             _ _ Hrun).
Defined.

Lemma add_sample_handler_round_trip_witness :
  let now := mk_time 2024 1 1 12 0 0 in
  let disk := fun _ : string => false in
  let w0 := fresh "voice_profiles" {[ "voice_profiles" ]}
              {[ "/tmp/rec.wav" := Wav [7%Z; 8%Z] 24000%Z ]} in
  let w := (Disk.create_profile disk now "alice" "" w0).2 in
  let r := DiskApp.add_sample disk Standins.demo_transcribe_audio now "alice"
             "take one" "/tmp/rec.wav" "/tmp/upload.wav" "   " w in
  let lost := DiskApp.add_sample disk Standins.demo_transcribe_audio now "alice"
                "take two" "" "/tmp/upload.wav" "typed" w in
  (exists names,
     r.1 = Ok ("Sample 'take one' added to profile 'alice'.",
               App.mk_update (Some names) (Some (Some "take one")))
     /\ "take one" ∈ names)
  /\ App.load_sample r.2 "alice" "take one"
     = Ok (Some "voice_profiles/alice/samples/take_one.wav", "hello there")
  /\ lost.1 = Ok ("Error adding sample: Failed to open the input /tmp/upload.wav",
                  App.mk_update (Some []) None).
Proof.
  intros now disk w0 w r lost.
  assert (Disk.add_sample disk now "alice" "take one" "/tmp/rec.wav"
            "hello there" w
          = (Ok "Sample 'take one' added to profile 'alice'.", r.2)) as Hrun
    by (by vm_compute).
  destruct (proj1 (add_sample_handler_round_trip disk
                     Standins.demo_transcribe_audio w now "alice" "take one"
                     "/tmp/rec.wav" "/tmp/upload.wav" "   " _ "hello there"
                     eq_refl eq_refl eq_refl eq_refl eq_refl
                     eq_refl eq_refl eq_refl) _ _ Hrun)
    as (_ & (names & Hr & Hin) & Hload).
  split; [|split].
  - exists names. split; [|exact Hin]. fold r in Hr. by rewrite Hr.
  - exact Hload.
  - assert (Disk.add_sample disk now "alice" "take two" "/tmp/upload.wav"
              "typed" w
            = (Raise (RuntimeError "Failed to open the input /tmp/upload.wav"), w))
      as Hraise by (by vm_compute).
    pose proof (proj2 (add_sample_handler_round_trip disk
                     Standins.demo_transcribe_audio w now "alice" "take two"
                     "" "/tmp/upload.wav" "typed" _ "typed"
                     eq_refl eq_refl eq_refl eq_refl eq_refl
                     eq_refl eq_refl eq_refl) _ _ Hraise) as Hlost.
    fold lost in Hlost. by rewrite Hlost.
Defined.

Lemma save_output_handler_round_trip_witness :
  let now0 := mk_time 2024 1 1 12 0 0 in
  let now := mk_time 2024 1 1 12 0 1 in
  let disk := fun _ : string => false in
  let w := (Disk.create_profile disk now0 "alice" ""
              (fresh "voice_profiles" {[ "voice_profiles" ]} ∅)).2 in
  let gone := mk_world "voice_profiles" None (profiles w) {[ "voice_profiles" ]} ∅ in
  let r := DiskApp.save_output disk now0 now now "alice" ""
             (Some (24000%Z, [1%Z])) "hi" "" w in
  let path :=
    "voice_profiles/alice/outputs/output_20240101_120000_20240101_120001.wav" in
  r.1 = Ok "Output saved as output_20240101_120000_20240101_120001.wav"
  /\ files r.2 !! path = Some (Wav [1%Z] 24000%Z)
  /\ App.load_history_item r.2 "alice" "output_20240101_120000"
     = Ok (Some path, "hi")
  /\ (DiskApp.save_output disk now0 now now "alice" "take"
        (Some (24000%Z, [1%Z])) "hi" "" gone).1
     = Ok ("Error saving output: [Errno 2] No such file or directory: "
           +:+ "'voice_profiles/alice/outputs/take_20240101_120001.wav'").
Proof.
  intros now0 now disk w gone r path.
  assert (Disk.save_output disk now now "alice" "output_20240101_120000" [1%Z]
            24000%Z "hi" "default" w = (Ok path, r.2)) as Hrun
    by (by vm_compute).
  destruct (proj1 (save_output_handler_round_trip disk w now0 now now "alice" ""
                     24000%Z [1%Z] "hi" "" _
                     eq_refl eq_refl eq_refl eq_refl eq_refl) _ _ Hrun)
    as (Hr & _ & Hfile & _ & Hload & _).
  split; [exact (f_equal fst Hr)|]. split; [exact Hfile|].
  split; [exact Hload|].
  assert (Disk.save_output disk now now "alice" "take" [1%Z] 24000%Z "hi"
            "default" gone
          = (Raise (Disk.FileNotFoundError
                      "voice_profiles/alice/outputs/take_20240101_120001.wav"),
             gone)) as Hraise by (by vm_compute).
  exact (f_equal fst
           (proj2 (save_output_handler_round_trip disk gone now0 now now
                     "alice" "take" 24000%Z [1%Z] "hi" "" _
                     eq_refl eq_refl eq_refl eq_refl eq_refl) _ _ Hraise)).
Defined.

Lemma add_style_handler_links_witness :
  let now := mk_time 2024 1 1 12 0 0 in
  let disk := fun _ : string => false in
  let w0 := fresh "voice_profiles" {[ "voice_profiles" ]}
              {[ "/tmp/rec.wav" := Wav [7%Z; 8%Z] 24000%Z ]} in
  let w :=
    (Disk.add_sample disk now "alice" "take one" "/tmp/rec.wav" "hello"
       (Disk.create_profile disk now "alice" "" w0).2).2 in
  let r := DiskApp.add_style disk now "alice" "calm" "take one" w in
  r.1 = Ok "Style 'calm' added to profile 'alice'."
  /\ get_style_sample r.2 "alice" "calm" = Ok (Some "take one")
  /\ is_Some (find_sample r.2 "alice" "take one").
Proof.
  intros now disk w0 w r.
  assert (r = (Ok "Style 'calm' added to profile 'alice'.", r.2)) as Hrun
    by (by vm_compute).
  destruct (add_style_handler_links disk w now "alice" "calm" "take one" _ _ Hrun)
    as [Hsame|(_ & _ & _ & _ & Hget & Hfind)].
  - apply (f_equal profiles) in Hsame. vm_compute in Hsame. discriminate Hsame.
  - split; [by rewrite Hrun|]. split; [exact Hget|exact Hfind].
Defined.

End DiskExamples.

(** ** The further properties on examples *)

Section Examples.

Lemma add_sample_failures_witness :
  let now := mk_time 2024 1 1 12 0 0 in
  let w := after (CreateProfile now "alice" "") (fresh "voice_profiles" ∅ ∅) in
  add_sample now "bob" "take one" "/tmp/rec.wav" "" w
  = (Ok "Profile 'bob' does not exist.", w)
  /\ exists e, add_sample now "alice" "take one" "/tmp/rec.wav" "" w = (Raise e, w).
Proof.
  intros now w. split.
  - exact (proj1 (add_sample_failures w now "bob" "take one" "/tmp/rec.wav" "")
             eq_refl).
  - apply (proj2 (add_sample_failures w now "alice" "take one" "/tmp/rec.wav" "")
             _ eq_refl).
    intros audio sr. vm_compute. discriminate.
Defined.

Lemma after_other_profiles_witness :
  let now := mk_time 2024 1 1 12 0 0 in
  let w0 := fresh "voice_profiles" ∅ {[ "/tmp/rec.wav" := Wav [7%Z; 8%Z] 24000%Z ]} in
  let w := after (CreateProfile now "bob" "") (after (CreateProfile now "alice" "") w0) in
  let w' := after (AddSample now "alice" "take one" "/tmp/rec.wav" "hello") w in
  dict_get "bob" (profiles w') = dict_get "bob" (profiles w)
  /\ list_samples w' "bob" = list_samples w "bob".
Proof.
  intros now w0 w.
  destruct (proj2 (after_other_profiles
                     (AddSample now "alice" "take one" "/tmp/rec.wav" "hello") w)
              "bob" ltac:(discriminate)) as (Hget & _ & Hlist & _).
  split; [exact Hget|exact Hlist].
Defined.

Lemma after_own_map_witness :
  let now := mk_time 2024 1 1 12 0 0 in
  let w0 := fresh "voice_profiles" ∅ {[ "/tmp/rec.wav" := Wav [7%Z; 8%Z] 24000%Z ]} in
  let w := after (CreateProfile now "alice" "my voice") w0 in
  let o := AddSample now "alice" "take one" "/tmp/rec.wav" "hello" in
  exists p',
    dict_get "alice" (profiles (after o w)) = Some p'
    /\ name p' = "alice" /\ description p' = "my voice"
    /\ created_at p' = "2024-01-01 12:00:00".
Proof.
  intros now w0 w o.
  destruct (after_own_map o w _ eq_refl) as (p' & Hget & Hn & Hd & Hc & _).
  exists p'. split; [exact Hget|]. split; [exact Hn|]. split; [exact Hd|exact Hc].
Defined.

Lemma run_all_never_deletes_witness :
  let now := mk_time 2024 1 1 12 0 0 in
  let w0 := fresh "voice_profiles" ∅ {[ "/tmp/rec.wav" := Wav [7%Z; 8%Z] 24000%Z ]} in
  let w := after (CreateProfile now "alice" "") w0 in
  let ops := [AddSample now "alice" "take one" "/tmp/rec.wav" "hello";
              CreateProfile now "bob" "";
              AddStyle now "alice" "calm" "take one"] in
  dict_keys (profiles w) `prefix_of` dict_keys (profiles (run_all ops w))
  /\ exists p',
       dict_get "alice" (profiles (run_all ops w)) = Some p'
       /\ grows (mk_profile "alice" "" "2024-01-01 12:00:00" [] [] None) p'.
Proof.
  intros now w0 w ops. destruct (run_all_never_deletes ops w) as [Hkeys Hgrow].
  split; [exact Hkeys|]. exact (Hgrow "alice" _ eq_refl).
Defined.

Lemma reachable_names_witness :
  let now := mk_time 2024 1 1 12 0 0 in
  let w :=
    after (CreateProfile now "bob" "")
      (after (CreateProfile now "alice" "") (fresh "voice_profiles" ∅ ∅)) in
  (exists names, list_profiles w = Ok names /\ NoDup names)
  /\ name (mk_profile "bob" "" "2024-01-01 12:00:00" [] [] None) = "bob".
Proof.
  intros now w.
  assert (reachable w) as Hw by (unfold w; repeat constructor).
  destruct (reachable_names w Hw) as [Hnames Hname].
  split; [exact Hnames|]. exact (Hname "bob" _ eq_refl).
Defined.

Lemma run_all_persisted_witness :
  let now := mk_time 2024 1 1 12 0 0 in
  let ops := [CreateProfile now "alice" "";
              AddSample now "alice" "take one" "/tmp/rec.wav" "hello";
              SaveOutput now now "alice" "out" [1%Z] 24000%Z "hi" "calm"] in
  persisted (run_all ops (fresh "voice_profiles" ∅
                            {[ "/tmp/rec.wav" := Wav [7%Z; 8%Z] 24000%Z ]})).
Proof.
  intros now ops. apply run_all_persisted. reflexivity.
Defined.

Lemma restart_round_trip_witness :
  let now := mk_time 2024 1 1 12 0 0 in
  let w := after (CreateProfile now "alice" "") (fresh "voice_profiles" ∅ ∅) in
  let entries := ["voice_profiles/notes.txt"; "voice_profiles/alice"] in
  exists w',
    Loader.__init__ "voice_profiles" (dirs w) (files w) entries = inr w'
    /\ profiles_dir w' = "voice_profiles" /\ current_profile w' = None
    /\ files w' = files w
    /\ (forall k, dict_get k (profiles w') = dict_get k (profiles w)).
Proof.
  intros now w entries. apply (restart_round_trip w entries).
  - apply after_keeps_persisted; [|reflexivity]. intros k p H. discriminate H.
  - intros k [p H]. simpl in H. destruct (decide ("alice" = k)) as [<-|]; [|done].
    apply (bool_decide_unpack _). by vm_compute.
  - intros e He. apply elem_of_cons in He as [->|He].
    + right. left. by vm_compute.
    + apply elem_of_cons in He as [->|He]; [|by apply elem_of_nil in He].
      left. exists "alice". split; [reflexivity|]. by eexists.
Defined.

Lemma load_profiles_declared_names_witness :
  let p := mk_profile "alice" "" "2024-01-01 12:00:00" [] [] None in
  let ds : gset string := {[ "voice_profiles"; "voice_profiles/alice" ]} in
  let fs : gmap string file := {[ "voice_profiles/alice/profile.json" := Manifest p ]} in
  dict_wf [("alice", p)]
  /\ exists e, e ∈ ["voice_profiles/alice"]
               /\ fs !! (e </> "profile.json") = Some (Manifest p).
Proof.
  intros p ds fs.
  assert (Loader._load_profiles ds fs ["voice_profiles/alice"] = inr [("alice", p)])
    as Hload by (by vm_compute).
  destruct (load_profiles_declared_names ds fs _ _ Hload) as [Hwf Hps].
  split; [exact Hwf|]. exact (proj2 (Hps "alice" p eq_refl)).
Defined.

Lemma parse_style_segments_nil_iff_witness :
  parse_style_segments "   " = [] /\ strip "" = "".
Proof.
  split.
  - apply (proj2 (parse_style_segments_nil_iff "   ")). reflexivity.
  - apply (proj1 (parse_style_segments_nil_iff "")). reflexivity.
Defined.

Lemma parse_style_segments_trimmed_witness :
  "hello" <> "" /\ is_trimmed "calm" /\ is_trimmed "hello".
Proof.
  apply (parse_style_segments_trimmed "{ calm } hello {angry}  you " ("calm", "hello")).
  vm_compute. left.
Defined.


Lemma save_output_handler_unknown_profile_witness :
  let now := mk_time 2024 1 1 12 0 0 in
  let w := fresh "voice_profiles" ∅ ∅ in
  App.save_output now now now "bob" "out" (Some (24000%Z, [1%Z])) "hi" "" w
  = (Ok "Output saved as Profile 'bob' does not exist.", w).
Proof.
  intros now w.
  apply (save_output_handler_unknown_profile w now now now "bob" "out"
           (Some (24000%Z, [1%Z])) "hi" "");
    [reflexivity|reflexivity|reflexivity|by eexists].
Defined.

Lemma generate_speech_handler_sample_witness :
  let now := mk_time 2024 1 1 12 0 0 in
  let w0 := fresh "voice_profiles" ∅ {[ "/tmp/rec.wav" := Wav [7%Z; 8%Z] 24000%Z ]} in
  let w :=
    after (AddStyle now "alice" "calm" "take one")
      (after (AddSample now "alice" "take two" "/tmp/rec.wav" "again")
         (after (AddSample now "alice" "take one" "/tmp/rec.wav" "hello")
            (after (CreateProfile now "alice" "") w0))) in
  exists sample_name s,
    find_sample w "alice" sample_name = Some s
    /\ sample_name = "take one"
    /\ App.generate_speech (Z * Z)%type Standins.demo_generate_speech w "alice"
         "calm" "hi" false (10%Z, 32%Z)
       = match Standins.demo_generate_speech (Some (sample_path s))
                 (sample_transcription s) "hi" false (10%Z, 32%Z) with
         | Ok audio => (Some audio, [])
         | Raise e => (None, ["Error generating speech: " +:+ App.exn_str e])
         end.
Proof.
  intros now w0 w.
  assert (styles_refer_to_samples w) as Hw.
  { unfold w. do 4 apply after_keeps_styles_ok. apply every_profile_fresh. }
  destruct (generate_speech_handler_sample (Z * Z)%type
              Standins.demo_generate_speech
              w "alice" "calm" "hi" false (10%Z, 32%Z) _
              eq_refl eq_refl eq_refl) as (sample_name & s & Hs & Hpick & Hrun).
  - exact (Hw "alice" _ eq_refl).
  - discriminate.
  - exists sample_name, s. split; [exact Hs|]. split; [exact Hpick|exact Hrun].
Defined.

Lemma generate_speech_handler_no_samples_witness :
  let now := mk_time 2024 1 1 12 0 0 in
  let w := after (CreateProfile now "alice" "") (fresh "voice_profiles" ∅ ∅) in
  App.generate_speech (Z * Z)%type Standins.demo_generate_speech w "bob" "calm" "hi"
    false (10%Z, 32%Z)
  = (None, ["No voice samples found for this profile."])
  /\ App.generate_speech (Z * Z)%type Standins.demo_generate_speech w "alice" "" "hi"
       false (10%Z, 32%Z)
     = (None, ["No voice samples found for this profile."]).
Proof.
  intros now w. split.
  - apply generate_speech_handler_no_samples; [reflexivity|reflexivity|].
    left. reflexivity.
  - apply generate_speech_handler_no_samples; [reflexivity|reflexivity|].
    right. eexists. split; [reflexivity|]. split; [reflexivity|].
    intros style_name st H. discriminate H.
Defined.

Lemma history_handlers_agree_witness :
  let now := mk_time 2024 1 1 12 0 0 in
  let w :=
    after (SaveOutput now now "alice" "out" [1%Z] 24000%Z "hi" "calm")
      (after (CreateProfile now "alice" "") (fresh "voice_profiles" ∅ ∅)) in
  exists names,
    App.refresh_history w "alice"
    = Ok (App.mk_update (Some names) (Some None))
    /\ (("out" : string) ∈ names ->
        exists path text,
          App.load_history_item w "alice" "out" = Ok (Some path, text))
    /\ (("out" : string) ∉ names ->
        App.load_history_item w "alice" "out" = Ok (None, "")).
Proof.
  intros now w. apply (history_handlers_agree w "alice" "out"); reflexivity.
Defined.

End Examples.
